(** * 190Project1: the stereo frame loop and the CO2 particle game

    A shallow embedding of the application source (the GLFW run loop,
    [RiftApp], [ColorCubeScene] and [ExampleApp]) and the properties of the
    specification proved over it.

    - C++ [float] is IEEE binary32, taken from the Standard Library's
      [SpecFloat] with precision 24 and exponent bound 128.
    - [int], [clock_t] (a [long] of the Windows toolchain the program is
      written for) and [uint32_t] are integers of [Z] with the 32-bit
      wrap-around written out.
    - GLM, the C library's [CLOCKS_PER_SEC] and the Oculus / GL / GLFW
      runtime are outside the repository.  GLM's functions are an interface
      ([Class GLM]); what the runtime answers is read from an oracle
      ([Runtime]) through a call cursor, and the commands the program issues
      are collected in a trace of [Event]s. *)

From Stdlib Require Import ZArith List Bool String Lia.
From Stdlib Require Import Floats.SpecFloat.
Import ListNotations.
Local Open Scope Z_scope.

(* ===================================================================== *)
(** ** Machine integers *)

Module MachInt.

Definition int_min : Z := - 2 ^ 31.
Definition int_max : Z := 2 ^ 31 - 1.

(** Two's complement reduction to a signed 32-bit value: [int], [long]. *)
Definition wrap_int (z : Z) : Z := (z + 2 ^ 31) mod 2 ^ 32 - 2 ^ 31.

(** Reduction to an unsigned 32-bit value: [unsigned int], [uint32_t]. *)
Definition wrap_uint (z : Z) : Z := z mod 2 ^ 32.

Definition in_int (z : Z) : Prop := int_min <= z <= int_max.

End MachInt.
Import MachInt.

(* ===================================================================== *)
(** ** binary32 *)

Definition float : Type := spec_float.

Module F32.

Definition prec : Z := 24.
Definition emax : Z := 128.

Definition add : float -> float -> float := SFadd prec emax.
Definition sub : float -> float -> float := SFsub prec emax.
Definition mul : float -> float -> float := SFmul prec emax.
Definition div : float -> float -> float := SFdiv prec emax.
Definition neg : float -> float := SFopp.
Definition ltb : float -> float -> bool := SFltb.
Definition leb : float -> float -> bool := SFleb.
Definition gtb (a b : float) : bool := SFltb b a.

(** Conversion of an integer operand ([int], [long]) to [float]. *)
Definition of_Z (z : Z) : float := binary_normalize prec emax z 0 false.

(** A decimal literal [n/d] with the suffix [f]: the correctly rounded
    quotient of two exactly representable integers is the binary32 value
    nearest to the decimal. *)
Definition lit (n d : Z) : float := div (of_Z n) (of_Z d).

End F32.

(** [double] values are only carried around (sensor and display times). *)
Definition double : Type := spec_float.

(* ===================================================================== *)
(** ** Vectors, matrices, poses *)

Record vec3 : Type := mkVec3 { v3x : float; v3y : float; v3z : float }.
Record vec4 : Type := mkVec4 { v4x : float; v4y : float; v4z : float; v4w : float }.
Record quat : Type := mkQuat { qx : float; qy : float; qz : float; qw : float }.

(** [glm::mat4] is column major: [m[i]] is column [i]. *)
Record mat4 : Type := mkMat4 { col0 : vec4; col1 : vec4; col2 : vec4; col3 : vec4 }.

Record ovrPosef : Type := mkPose { Orientation : quat; Position : vec3 }.

Definition set_col3 (m : mat4) (c : vec4) : mat4 :=
  mkMat4 (col0 m) (col1 m) (col2 m) c.

(** [vec4 + vec4], [vec3 - vec3] and [vec3 / float]: componentwise. *)
Definition vec4_add (a b : vec4) : vec4 :=
  mkVec4 (F32.add (v4x a) (v4x b)) (F32.add (v4y a) (v4y b))
         (F32.add (v4z a) (v4z b)) (F32.add (v4w a) (v4w b)).

Definition vec3_sub (a b : vec3) : vec3 :=
  mkVec3 (F32.sub (v3x a) (v3x b)) (F32.sub (v3y a) (v3y b))
         (F32.sub (v3z a) (v3z b)).

Definition vec3_divs (a : vec3) (s : float) : vec3 :=
  mkVec3 (F32.div (v3x a) s) (F32.div (v3y a) s) (F32.div (v3z a) s).

(** [glm::vec3(v4)] drops the last component. *)
Definition vec3_of_vec4 (v : vec4) : vec3 := mkVec3 (v4x v) (v4y v) (v4z v).

(** [glm::vec3(s)] repeats the scalar. *)
Definition vec3_splat (s : float) : vec3 := mkVec3 s s s.

(** The functions of GLM the program calls.  [glm_rotate_col3] is the one
    fact about them the development relies on: [glm::rotate(m, a, v)]
    multiplies [m] by a rotation on the right, which leaves the translation
    column [m[3]] as it is.

    The program is written for a GLM whose default constructors initialise:
    [ovr::toGlm] translates [mat4()], and the left laser a default
    constructed matrix, as the identity; so [glm::mat4()] and
    [glm::mat4(1.0f)] are both [glm_identity], and [uvec2()] is zero. *)
Class GLM : Type := {
  glm_identity : mat4;
  glm_rotate : mat4 -> float -> vec3 -> mat4;
  glm_scale : mat4 -> vec3 -> mat4;
  glm_translate : mat4 -> vec3 -> mat4;
  glm_mul : mat4 -> mat4 -> mat4;
  glm_mulv : mat4 -> vec4 -> vec4;
  glm_inverse : mat4 -> mat4;
  glm_toMat4 : quat -> mat4;
  glm_normalize : vec3 -> vec3;
  glm_cross : vec3 -> vec3 -> vec3;
  glm_length : vec3 -> float;
  glm_rotate_col3 : forall m a v, col3 (glm_rotate m a v) = col3 m
}.

(** [CLOCKS_PER_SEC] of the C library the program is built with. *)
Class Platform : Type := {
  CLOCKS_PER_SEC : Z;
  CLOCKS_PER_SEC_pos : 0 < CLOCKS_PER_SEC
}.

(* ===================================================================== *)
(** ** Data of the Oculus API and of the scene *)

(** An array of two elements: per eye ([ovrEye_Left = 0], [ovrEye_Right = 1])
    or per hand ([LEFT = 0], [RIGHT = 1]). *)
Record arr2 (A : Type) : Type := mkArr2 { at0 : A; at1 : A }.
Arguments mkArr2 {A} _ _.
Arguments at0 {A} _.
Arguments at1 {A} _.

Inductive ovrEyeType : Type := ovrEye_Left | ovrEye_Right.

Definition get_eye {A : Type} (a : arr2 A) (e : ovrEyeType) : A :=
  match e with ovrEye_Left => at0 a | ovrEye_Right => at1 a end.

Definition set_eye {A : Type} (a : arr2 A) (e : ovrEyeType) (x : A) : arr2 A :=
  match e with
  | ovrEye_Left => mkArr2 x (at1 a)
  | ovrEye_Right => mkArr2 (at0 a) x
  end.

Record ovrFovPort : Type := mkFov {
  UpTan : float; DownTan : float; LeftTan : float; RightTan : float }.

Record ovrEyeRenderDesc : Type := mkRenderDesc {
  erd_Fov : ovrFovPort; erd_HmdToEyeOffset : vec3 }.

Record ovrSizei : Type := mkSizei { sz_w : Z; sz_h : Z }.
Record ovrVector2i : Type := mkVector2i { v2i_x : Z; v2i_y : Z }.
Record ovrRecti : Type := mkRecti { Pos : ovrVector2i; Size : ovrSizei }.

Record ovrLayerEyeFov : Type := mkLayer {
  ColorTexture0 : Z;
  Viewport : arr2 ovrRecti;
  Fov : arr2 ovrFovPort;
  RenderPose : arr2 ovrPosef;
  SensorSampleTime : double
}.

Record ovrInputState : Type := mkInput {
  IndexTrigger : arr2 float;
  Buttons : Z
}.

(** [OVR_SUCCESS(r)] *)
Definition OVR_SUCCESS (r : Z) : bool := 0 <=? r.

(** The five models the scene loads; a [Model*] is compared by address, and
    the five addresses are distinct allocations. *)
Inductive Model : Type := factory | co2 | o2 | greenLaser | redLaser.

Definition Model_eqb (a b : Model) : bool :=
  match a, b with
  | factory, factory | co2, co2 | o2, o2
  | greenLaser, greenLaser | redLaser, redLaser => true
  | _, _ => false
  end.

Record Particle : Type := mkParticle {
  model : Model;
  transform : mat4;
  velocity : vec3;
  rotation : vec3
}.

Inductive ovrControllerType : Type := ovrControllerType_LTouch | ovrControllerType_RTouch.

Inductive FramebufferTarget : Type := GL_DRAW_FRAMEBUFFER | GL_READ_FRAMEBUFFER.

(** The uniforms of the shader program, by the name they are looked up with. *)
Inductive Uniform : Type := u_projection | u_view | u_model | u_eyepos.

(** What the program asks the outside to do, in the order it asks. *)
Inductive Event : Type :=
| glBindFramebuffer (target : FramebufferTarget) (fbo : Z)
| glFramebufferTexture2D (target : FramebufferTarget) (texture : Z)
| glClear
| glViewport (x y w h : Z)
| glClearColor (r g b a : float)
| glBlitFramebuffer (sx0 sy0 sx1 sy1 dx0 dy0 dx1 dy1 : Z)
| glUseProgram (prog : Z)
| glUniformMatrix4fv (u : Uniform) (m : mat4)
| glUniform3f (u : Uniform) (v : vec3)
| Model_Draw (m : Model)
| ovr_SetControllerVibration (c : ovrControllerType) (frequency amplitude : float)
| ovr_CommitTextureSwapChain
| ovr_SubmitFrame (frameIndex : Z) (layer : ovrLayerEyeFov)
| glfwPollEvents
| glfwSwapBuffers
| std_out (msg : string)
| std_err (msg : string).

(** What the outside answers.  The first three describe the attached
    device; the others are indexed by the number of the query, so that two
    calls of one function may answer differently. *)
Record Runtime : Type := mkRuntime {
  rt_GetRenderDesc : ovrEyeType -> ovrEyeRenderDesc;
  rt_Projection : ovrFovPort -> mat4;
  rt_GetFovTextureSize : ovrEyeType -> ovrFovPort -> ovrSizei;
  rt_clock : nat -> Z;
  rt_rand : nat -> Z;
  rt_GetEyePoses : nat -> arr2 ovrPosef * double;
  rt_GetTextureSwapChainCurrentIndex : nat -> Z;
  rt_GetTextureSwapChainBufferGL : nat -> Z -> Z;
  rt_SubmitFrame : nat -> Z;
  rt_GetMirrorTextureBufferGL : nat -> Z;
  rt_GetPredictedDisplayTime : nat -> double;
  rt_GetTrackingState : nat -> double -> arr2 ovrPosef;
  rt_GetInputState : nat -> ovrInputState -> Z * ovrInputState;
  rt_WindowShouldClose : nat -> bool
}.

(* ===================================================================== *)
(** ** The monad of the embedding

    A computation reads the runtime, starts at a query number and gives a
    value, the next query number and the commands it issued. *)

Record Out (A : Type) : Type := mkOut {
  value : A;
  cursor : nat;
  events : list Event
}.
Arguments mkOut {A} _ _ _.
Arguments value {A} _.
Arguments cursor {A} _.
Arguments events {A} _.

Definition M (A : Type) : Type := Runtime -> nat -> Out A.

Definition ret {A : Type} (a : A) : M A := fun _ c => mkOut a c [].

Definition bind {A B : Type} (m : M A) (f : A -> M B) : M B :=
  fun rt c =>
    let o := m rt c in
    let o' := f (value o) rt (cursor o) in
    mkOut (value o') (cursor o') (events o ++ events o').

Definition emit (e : Event) : M unit := fun _ c => mkOut tt c [e].

Definition query {A : Type} (f : Runtime -> nat -> A) : M A :=
  fun rt c => mkOut (f rt c) (S c) [].

Declare Scope m_scope.
Delimit Scope m_scope with M.
Notation "x <- m ;; k" := (bind m (fun x => k))
  (at level 61, m at next level, right associativity) : m_scope.
Notation "m ;; k" := (bind m (fun _ => k))
  (at level 61, right associativity) : m_scope.
Local Open Scope m_scope.

(* ===================================================================== *)
(** ** ColorCubeScene *)

Record ColorCubeScene : Type := mkScene {
  shaderProg : Z;
  co2Count : Z;
  particles : list Particle;
  factoryParticle : Particle;
  leftLaser : Particle;
  rightLaser : Particle;
  timer : Z;
  vibTimer : Z;
  win : bool;
  lose : bool;
  handPoses : arr2 ovrPosef;
  inputstate : ovrInputState;
  fingerTriggerPressed : arr2 bool
}.

Definition set_co2Count (s : ColorCubeScene) (n : Z) : ColorCubeScene :=
  mkScene (shaderProg s) n (particles s) (factoryParticle s) (leftLaser s)
    (rightLaser s) (timer s) (vibTimer s) (win s) (lose s) (handPoses s)
    (inputstate s) (fingerTriggerPressed s).

Definition set_particles (s : ColorCubeScene) (ps : list Particle) : ColorCubeScene :=
  mkScene (shaderProg s) (co2Count s) ps (factoryParticle s) (leftLaser s)
    (rightLaser s) (timer s) (vibTimer s) (win s) (lose s) (handPoses s)
    (inputstate s) (fingerTriggerPressed s).

Definition set_factoryParticle (s : ColorCubeScene) (p : Particle) : ColorCubeScene :=
  mkScene (shaderProg s) (co2Count s) (particles s) p (leftLaser s)
    (rightLaser s) (timer s) (vibTimer s) (win s) (lose s) (handPoses s)
    (inputstate s) (fingerTriggerPressed s).

Definition set_leftLaser (s : ColorCubeScene) (p : Particle) : ColorCubeScene :=
  mkScene (shaderProg s) (co2Count s) (particles s) (factoryParticle s) p
    (rightLaser s) (timer s) (vibTimer s) (win s) (lose s) (handPoses s)
    (inputstate s) (fingerTriggerPressed s).

Definition set_rightLaser (s : ColorCubeScene) (p : Particle) : ColorCubeScene :=
  mkScene (shaderProg s) (co2Count s) (particles s) (factoryParticle s)
    (leftLaser s) p (timer s) (vibTimer s) (win s) (lose s) (handPoses s)
    (inputstate s) (fingerTriggerPressed s).

Definition set_timer (s : ColorCubeScene) (t : Z) : ColorCubeScene :=
  mkScene (shaderProg s) (co2Count s) (particles s) (factoryParticle s)
    (leftLaser s) (rightLaser s) t (vibTimer s) (win s) (lose s) (handPoses s)
    (inputstate s) (fingerTriggerPressed s).

Definition set_vibTimer (s : ColorCubeScene) (t : Z) : ColorCubeScene :=
  mkScene (shaderProg s) (co2Count s) (particles s) (factoryParticle s)
    (leftLaser s) (rightLaser s) (timer s) t (win s) (lose s) (handPoses s)
    (inputstate s) (fingerTriggerPressed s).

Definition set_win (s : ColorCubeScene) (b : bool) : ColorCubeScene :=
  mkScene (shaderProg s) (co2Count s) (particles s) (factoryParticle s)
    (leftLaser s) (rightLaser s) (timer s) (vibTimer s) b (lose s) (handPoses s)
    (inputstate s) (fingerTriggerPressed s).

Definition set_lose (s : ColorCubeScene) (b : bool) : ColorCubeScene :=
  mkScene (shaderProg s) (co2Count s) (particles s) (factoryParticle s)
    (leftLaser s) (rightLaser s) (timer s) (vibTimer s) (win s) b (handPoses s)
    (inputstate s) (fingerTriggerPressed s).

Definition set_handPoses (s : ColorCubeScene) (h : arr2 ovrPosef) : ColorCubeScene :=
  mkScene (shaderProg s) (co2Count s) (particles s) (factoryParticle s)
    (leftLaser s) (rightLaser s) (timer s) (vibTimer s) (win s) (lose s) h
    (inputstate s) (fingerTriggerPressed s).

Definition set_inputstate (s : ColorCubeScene) (i : ovrInputState) : ColorCubeScene :=
  mkScene (shaderProg s) (co2Count s) (particles s) (factoryParticle s)
    (leftLaser s) (rightLaser s) (timer s) (vibTimer s) (win s) (lose s)
    (handPoses s) i (fingerTriggerPressed s).

Definition set_fingerTriggerPressed (s : ColorCubeScene) (f : arr2 bool) : ColorCubeScene :=
  mkScene (shaderProg s) (co2Count s) (particles s) (factoryParticle s)
    (leftLaser s) (rightLaser s) (timer s) (vibTimer s) (win s) (lose s)
    (handPoses s) (inputstate s) f.

Definition set_model (p : Particle) (m : Model) : Particle :=
  mkParticle m (transform p) (velocity p) (rotation p).

Definition set_transform (p : Particle) (t : mat4) : Particle :=
  mkParticle (model p) t (velocity p) (rotation p).

Definition set_velocity (p : Particle) (v : vec3) : Particle :=
  mkParticle (model p) (transform p) v (rotation p).

(** The number of particles that show the CO2 model. *)
Definition count_co2 (ps : list Particle) : Z :=
  Z.of_nat (List.length (filter (fun p => Model_eqb (model p) co2) ps)).

Section Scene.

Context {glm : GLM} {platform : Platform}.

Definition std_clock : M Z := query rt_clock.
Definition rand : M Z := query rt_rand.

(** [fmod(rand(), m) - k] as a component of a [glm::vec3]: [rand()] is an
    [int], so [fmod] works on [double]s; the remainder (sign of the
    dividend) and the difference are small integers, exact in [double]
    and in the [float] the vector stores. *)
Definition rand_fmod (m k : Z) : M float :=
  r <- rand ;; ret (F32.of_Z (Z.rem r m - k)).

(** [glm::vec3(fmod(rand(), m0) - k0, fmod(rand(), m1) - k1, ...)]: C++
    leaves open in which order the three arguments call [rand()]; the
    model draws them from left to right.  Which draw lands in which
    component plays no part in what is proved. *)
Definition rand_vec3 (m0 k0 m1 k1 m2 k2 : Z) : M vec3 :=
  a <- rand_fmod m0 k0 ;;
  b <- rand_fmod m1 k1 ;;
  c <- rand_fmod m2 k2 ;;
  ret (mkVec3 a b c).

(** [chimney = glm::mat4(1, 0, 0, 0,  0, 1, 0, 0,  0, 0, 1, 0,  0, -1, -15, 1)] *)
Definition chimney : mat4 :=
  let f := F32.of_Z in
  mkMat4 (mkVec4 (f 1) (f 0) (f 0) (f 0)) (mkVec4 (f 0) (f 1) (f 0) (f 0))
         (mkVec4 (f 0) (f 0) (f 1) (f 0)) (mkVec4 (f 0) (f (-1)) (f (-15)) (f 1)).

(** The velocity and the rotation axis every new particle gets. *)
Definition random_velocity : M vec3 :=
  v <- rand_vec3 100 50 100 0 100 50 ;;
  ret (vec3_divs (glm_normalize v) (F32.of_Z 100)).

Definition random_rotation : M vec3 :=
  v <- rand_vec3 100 50 100 50 100 50 ;;
  ret (glm_normalize v).

(** The particle of the constructor, of the spawn and of the reset: a CO2
    at the chimney. *)
Definition new_chimney_particle : M Particle :=
  let t := glm_scale chimney (vec3_splat (F32.lit 3 10)) in
  v <- random_velocity ;;
  r <- random_rotation ;;
  ret (mkParticle co2 t v r).

(** The particle of the loss case: a CO2 somewhere in the room. *)
Definition new_scattered_particle : M Particle :=
  pos <- rand_vec3 20 10 20 10 20 25 ;;
  let t := glm_scale (glm_translate glm_identity pos) (vec3_splat (F32.lit 3 10)) in
  v <- random_velocity ;;
  r <- random_rotation ;;
  ret (mkParticle co2 t v r).

(** [for (int i = 0; i < n; i++) { ...; particles.push_back(p); }] *)
Fixpoint push_new (mk : M Particle) (n : nat) (ps : list Particle) : M (list Particle) :=
  match n with
  | O => ret ps
  | S n' => p <- mk ;; push_new mk n' (ps ++ [p])
  end.

(** The constructor.  [raw] is the object before the constructor body:
    the members the body does not assign keep what they hold there. *)
Definition ColorCubeScene_new (raw : ColorCubeScene) : M ColorCubeScene :=
  let s := set_fingerTriggerPressed (set_lose (set_win (set_co2Count
             (set_particles raw []) 0) false) false) (mkArr2 false false) in
  let s := set_factoryParticle s
             (set_transform (set_model (factoryParticle s) factory)
                (glm_scale chimney (let f := F32.lit 2 10 in mkVec3 f f f))) in
  let s := set_leftLaser s (set_model (leftLaser s) greenLaser) in
  let s := set_rightLaser s (set_model (rightLaser s) greenLaser) in
  ps <- push_new new_chimney_particle 5 (particles s) ;;
  let s := set_co2Count (set_particles s ps) 5 in
  t <- std_clock ;;
  ret (set_timer s t).

(** *** getControllerData *)
Definition getControllerData (s : ColorCubeScene) : M ColorCubeScene :=
  displayMidpointSeconds <- query rt_GetPredictedDisplayTime ;;
  hands <- query (fun rt c => rt_GetTrackingState rt c displayMidpointSeconds) ;;
  let s := set_handPoses s hands in
  ri <- query (fun rt c => rt_GetInputState rt c (inputstate s)) ;;
  let s := set_inputstate s (snd ri) in
  let half := F32.lit 5 10 in
  ret (if OVR_SUCCESS (fst ri)
       then set_fingerTriggerPressed s
              (mkArr2 (F32.gtb (at0 (IndexTrigger (inputstate s))) half)
                      (F32.gtb (at1 (IndexTrigger (inputstate s))) half))
       else s).

(** *** update, block by block *)

Definition stop_vibration : M unit :=
  emit (ovr_SetControllerVibration ovrControllerType_LTouch (F32.of_Z 0) (F32.of_Z 0)) ;;
  emit (ovr_SetControllerVibration ovrControllerType_RTouch (F32.of_Z 0) (F32.of_Z 0)).

(** [(1000.0f * (std::clock() - vibTimer)) / CLOCKS_PER_SEC > 100.0f] *)
Definition cooldown_over (now vt : Z) : bool :=
  F32.gtb (F32.div (F32.mul (F32.of_Z 1000) (F32.of_Z (wrap_int (now - vt))))
                   (F32.of_Z CLOCKS_PER_SEC))
          (F32.of_Z 100).

(** The haptic feedback check; [||] reads the clock only when both
    triggers are pressed. *)
Definition haptic_check (s : ColorCubeScene) : M unit :=
  if negb (at0 (fingerTriggerPressed s)) then stop_vibration
  else if negb (at1 (fingerTriggerPressed s)) then stop_vibration
  else now <- std_clock ;;
       if cooldown_over now (vibTimer s) then stop_vibration else ret tt.

(** [transform[3] += vec4(velocity, 0)], then the rotation. *)
Definition integrate (p : Particle) : Particle :=
  let v := velocity p in
  let t := set_col3 (transform p)
             (vec4_add (col3 (transform p))
                (mkVec4 (v3x v) (v3y v) (v3z v) (F32.of_Z 0))) in
  set_transform p (glm_rotate t (F32.lit 5 100) (rotation p)).

(** [x < lo || x > hi], the bounds being [int] literals. *)
Definition outside (lo hi : Z) (x : float) : bool :=
  F32.ltb x (F32.of_Z lo) || F32.gtb x (F32.of_Z hi).

(** [v *= -1] *)
Definition flip (v : float) : float := F32.mul v (F32.of_Z (-1)).

Definition check_walls (p : Particle) : Particle :=
  let pos := col3 (transform p) in
  let p := if outside (-10) 10 (v4x pos)
           then set_velocity p (mkVec3 (flip (v3x (velocity p))) (v3y (velocity p)) (v3z (velocity p)))
           else p in
  let p := if outside (-10) 10 (v4y pos)
           then set_velocity p (mkVec3 (v3x (velocity p)) (flip (v3y (velocity p))) (v3z (velocity p)))
           else p in
  if outside (-25) (-5) (v4z pos)
  then set_velocity p (mkVec3 (v3x (velocity p)) (v3y (velocity p)) (flip (v3z (velocity p))))
  else p.

(** The distance of [particleCenter] to the line of a laser: through the
    laser's origin [transform[3]] and the image of [(0, 0, -1, 1)]. *)
Definition laser_dist (laser : mat4) (particleCenter : vec3) : float :=
  let start := mkVec3 (v4x (col3 laser)) (v4y (col3 laser)) (v4z (col3 laser)) in
  let endToTrans :=
    glm_mulv laser (mkVec4 (F32.of_Z 0) (F32.of_Z 0) (F32.of_Z (-1)) (F32.of_Z 1)) in
  let endPt := mkVec3 (v4x endToTrans) (v4y endToTrans) (v4z endToTrans) in
  F32.div (glm_length (glm_cross (vec3_sub endPt start) (vec3_sub start particleCenter)))
          (glm_length (vec3_sub endPt start)).

(** [dist <= 0.3f] *)
Definition laser_hits (laser : Particle) (p : Particle) : bool :=
  F32.leb (laser_dist (transform laser) (vec3_of_vec4 (col3 (transform p))))
          (F32.lit 3 10).

Definition start_vibration : M unit :=
  emit (ovr_SetControllerVibration ovrControllerType_LTouch (F32.of_Z 0) (F32.of_Z 1)) ;;
  emit (ovr_SetControllerVibration ovrControllerType_RTouch (F32.of_Z 0) (F32.of_Z 1)).

(** "If CO2 and intersected, change model to O2": the scene gets the new
    [vibTimer] and [co2Count], the particle the new model. *)
Definition convert (s : ColorCubeScene) (p : Particle) : M (ColorCubeScene * Particle) :=
  if Model_eqb (model p) co2 && Model_eqb (model (leftLaser s)) redLaser
     && Model_eqb (model (rightLaser s)) redLaser
  then
    if laser_hits (leftLaser s) p && laser_hits (rightLaser s) p
    then
      start_vibration ;;
      now <- std_clock ;;
      ret (set_co2Count (set_vibTimer s now) (wrap_int (co2Count s - 1)),
           set_model p o2)
    else ret (s, p)
  else ret (s, p).

(** The body of [for (Particle* particle : particles)]. *)
Definition update_particle (s : ColorCubeScene) (p : Particle) : M (ColorCubeScene * Particle) :=
  convert s (check_walls (integrate p)).

Fixpoint particle_loop (s : ColorCubeScene) (ps : list Particle)
  : M (ColorCubeScene * list Particle) :=
  match ps with
  | [] => ret (s, [])
  | p :: rest =>
      sp <- update_particle s p ;;
      sr <- particle_loop (fst sp) rest ;;
      ret (fst sr, snd sp :: snd sr)
  end.

Definition update_particles (s : ColorCubeScene) : M ColorCubeScene :=
  sr <- particle_loop s (particles s) ;;
  ret (set_particles (fst sr) (snd sr)).

(** Red laser while the index trigger is pressed, green otherwise. *)
Definition laser_model (trigger : float) : Model :=
  if F32.gtb trigger (F32.lit 5 10) then redLaser else greenLaser.

Definition update_lasers (s : ColorCubeScene) : ColorCubeScene :=
  let s := set_leftLaser s
             (set_model (leftLaser s) (laser_model (at0 (IndexTrigger (inputstate s))))) in
  set_rightLaser s
    (set_model (rightLaser s) (laser_model (at1 (IndexTrigger (inputstate s))))).

(** "Add particles if haven't won and a second has passed":
    [(currentTime - timer) / CLOCKS_PER_SEC >= 1] divides integers. *)
Definition second_passed (currentTime t : Z) : bool :=
  1 <=? Z.quot (wrap_int (currentTime - t)) CLOCKS_PER_SEC.

Definition spawn (s : ColorCubeScene) : M ColorCubeScene :=
  if negb (win s) then
    currentTime <- std_clock ;;
    if second_passed currentTime (timer s) then
      p <- new_chimney_particle ;;
      ret (set_timer (set_co2Count (set_particles s (particles s ++ [p]))
                                   (wrap_int (co2Count s + 1)))
                     currentTime)
    else ret s
  else ret s.

(** "Loss case" *)
Definition loss_case (s : ColorCubeScene) : M ColorCubeScene :=
  if (10 <? co2Count s) && negb (lose s) then
    ps <- push_new new_scattered_particle 100 (particles s) ;;
    ret (set_lose (set_particles s ps) true)
  else ret s.

Definition win_colour : Event :=
  glClearColor (F32.of_Z 0) (F32.lit 2 10) (F32.lit 8 10) (F32.of_Z 0).

Definition play_colour : Event :=
  glClearColor (F32.of_Z 0) (F32.of_Z 0) (F32.lit 4 10) (F32.of_Z 0).

(** "Win case" *)
Definition win_case (s : ColorCubeScene) : M ColorCubeScene :=
  if (co2Count s =? 0) && negb (lose s) then
    emit win_colour ;;
    ret (set_win s true)
  else ret s.

(** "Game reset" *)
Definition game_reset (s : ColorCubeScene) : M ColorCubeScene :=
  if (win s || lose s) && negb (Buttons (inputstate s) =? 0) then
    let s := set_particles (set_lose (set_win s false) false) [] in
    ps <- push_new new_chimney_particle 5 (particles s) ;;
    let s := set_co2Count (set_particles s ps) 5 in
    emit play_colour ;;
    ret s
  else ret s.

Definition update (s : ColorCubeScene) : M ColorCubeScene :=
  haptic_check s ;;
  s <- update_particles s ;;
  s <- spawn (update_lasers s) ;;
  s <- loss_case s ;;
  s <- win_case s ;;
  game_reset s.

(** *** render *)

(** The transform of a laser from the pose of its hand. *)
Definition laser_transform (start : mat4) (hand : ovrPosef) : mat4 :=
  let rotmat := glm_toMat4 (Orientation hand) in
  let t := glm_translate start (Position hand) in
  let t := glm_mul t rotmat in
  glm_scale t (mkVec3 (F32.lit 1 100) (F32.lit 1 100) (F32.neg (F32.of_Z 20))).

Fixpoint draw_particles (ps : list Particle) : M unit :=
  match ps with
  | [] => ret tt
  | p :: rest =>
      emit (glUniformMatrix4fv u_model (transform p)) ;;
      emit (Model_Draw (model p)) ;;
      draw_particles rest
  end.

Definition render (projection modelview : mat4) (eyepos : vec3)
    (s : ColorCubeScene) : M ColorCubeScene :=
  s <- getControllerData s ;;
  emit (glUseProgram (shaderProg s)) ;;
  emit (glUniformMatrix4fv u_projection projection) ;;
  emit (glUniformMatrix4fv u_view modelview) ;;
  emit (glUniform3f u_eyepos eyepos) ;;
  let lasertransform := laser_transform glm_identity (at0 (handPoses s)) in
  emit (glUniformMatrix4fv u_model lasertransform) ;;
  let s := set_leftLaser s (set_transform (leftLaser s) lasertransform) in
  emit (Model_Draw (model (leftLaser s))) ;;
  let lasertransform := laser_transform glm_identity (at1 (handPoses s)) in
  emit (glUniformMatrix4fv u_model lasertransform) ;;
  let s := set_rightLaser s (set_transform (rightLaser s) lasertransform) in
  emit (Model_Draw (model (rightLaser s))) ;;
  emit (glUniformMatrix4fv u_model (transform (factoryParticle s))) ;;
  emit (Model_Draw (model (factoryParticle s))) ;;
  draw_particles (particles s) ;;
  update s.

End Scene.

(* ===================================================================== *)
(** ** RiftApp, ExampleApp and the run loop *)

Record uvec2 : Type := mkUvec2 { uv_x : Z; uv_y : Z }.

Record RiftApp : Type := mkRiftApp {
  frame : Z;
  _fbo : Z;
  _mirrorFbo : Z;
  _eyeRenderDescs : arr2 ovrEyeRenderDesc;
  _eyeProjections : arr2 mat4;
  _sceneLayer : ovrLayerEyeFov;
  _viewScaleDesc_HmdToEyeOffset : arr2 vec3;
  _renderTargetSize : uvec2;
  _mirrorSize : uvec2
}.

Definition set_frame (a : RiftApp) (f : Z) : RiftApp :=
  mkRiftApp f (_fbo a) (_mirrorFbo a) (_eyeRenderDescs a) (_eyeProjections a)
    (_sceneLayer a) (_viewScaleDesc_HmdToEyeOffset a) (_renderTargetSize a)
    (_mirrorSize a).

Definition set_sceneLayer (a : RiftApp) (l : ovrLayerEyeFov) : RiftApp :=
  mkRiftApp (frame a) (_fbo a) (_mirrorFbo a) (_eyeRenderDescs a)
    (_eyeProjections a) l (_viewScaleDesc_HmdToEyeOffset a)
    (_renderTargetSize a) (_mirrorSize a).

Definition set_Viewport (l : ovrLayerEyeFov) (v : arr2 ovrRecti) : ovrLayerEyeFov :=
  mkLayer (ColorTexture0 l) v (Fov l) (RenderPose l) (SensorSampleTime l).

Definition set_Fov (l : ovrLayerEyeFov) (f : arr2 ovrFovPort) : ovrLayerEyeFov :=
  mkLayer (ColorTexture0 l) (Viewport l) f (RenderPose l) (SensorSampleTime l).

Definition set_RenderPose (l : ovrLayerEyeFov) (p : arr2 ovrPosef) : ovrLayerEyeFov :=
  mkLayer (ColorTexture0 l) (Viewport l) (Fov l) p (SensorSampleTime l).

Definition set_SensorSampleTime (l : ovrLayerEyeFov) (t : double) : ovrLayerEyeFov :=
  mkLayer (ColorTexture0 l) (Viewport l) (Fov l) (RenderPose l) t.

(** [ovr::for_each_eye]: the left eye, then the right eye. *)
Definition for_each_eye {S : Type} (function : ovrEyeType -> S -> M S) (s : S) : M S :=
  s <- function ovrEye_Left s ;;
  function ovrEye_Right s.

Section Rift.

Context {glm : GLM} {platform : Platform}.

(** The layout one eye adds in the constructor of [RiftApp]. *)
Definition RiftApp_eye (rt : Runtime) (eye : ovrEyeType) (a : RiftApp) : RiftApp :=
  let erd := rt_GetRenderDesc rt eye in
  let descs := set_eye (_eyeRenderDescs a) eye erd in
  let projs := set_eye (_eyeProjections a) eye (rt_Projection rt (erd_Fov erd)) in
  let offs := set_eye (_viewScaleDesc_HmdToEyeOffset a) eye (erd_HmdToEyeOffset erd) in
  let fov := erd_Fov (get_eye descs eye) in
  let layer := set_Fov (_sceneLayer a) (set_eye (Fov (_sceneLayer a)) eye fov) in
  let eyeSize := rt_GetFovTextureSize rt eye fov in
  let size := _renderTargetSize a in
  let vp := mkRecti (mkVector2i (wrap_int (uv_x size)) 0) eyeSize in
  let layer := set_Viewport layer (set_eye (Viewport layer) eye vp) in
  let size := mkUvec2 (uv_x size) (Z.max (uv_y size) (wrap_uint (sz_h eyeSize))) in
  let size := mkUvec2 (wrap_uint (uv_x size + sz_w eyeSize)) (uv_y size) in
  mkRiftApp (frame a) (_fbo a) (_mirrorFbo a) descs projs layer offs size (_mirrorSize a).

Definition zero_pose : ovrPosef :=
  let z := F32.of_Z 0 in mkPose (mkQuat z z z z) (mkVec3 z z z).

Definition zero_fov : ovrFovPort :=
  let z := F32.of_Z 0 in mkFov z z z z.

Definition zero_rect : ovrRecti := mkRecti (mkVector2i 0 0) (mkSizei 0 0).

(** [memset(&_sceneLayer, 0, sizeof(ovrLayerEyeFov))] *)
Definition zero_layer : ovrLayerEyeFov :=
  mkLayer 0 (mkArr2 zero_rect zero_rect) (mkArr2 zero_fov zero_fov)
    (mkArr2 zero_pose zero_pose) (S754_zero false).

(** The constructor of [RiftApp]; [raw] as for the scene.  [frame] and the
    two framebuffer names have initialisers. *)
Definition RiftApp_new (rt : Runtime) (raw : RiftApp) : RiftApp :=
  let a := mkRiftApp 0 0 0 (_eyeRenderDescs raw) (_eyeProjections raw) zero_layer
             (_viewScaleDesc_HmdToEyeOffset raw) (mkUvec2 0 0) (_mirrorSize raw) in
  let a := RiftApp_eye rt ovrEye_Right (RiftApp_eye rt ovrEye_Left a) in
  let size := _renderTargetSize a in
  mkRiftApp (frame a) (_fbo a) (_mirrorFbo a) (_eyeRenderDescs a) (_eyeProjections a)
    (_sceneLayer a) (_viewScaleDesc_HmdToEyeOffset a) size
    (mkUvec2 (uv_x size / 4) (uv_y size / 4)).

(** [ovr::toGlm(const ovrPosef &)] *)
Definition toGlm (op : ovrPosef) : mat4 :=
  let orientation := glm_toMat4 (Orientation op) in
  let translation := glm_translate glm_identity (Position op) in
  glm_mul translation orientation.

Section Draw.

(** The state of the derived class and its [renderScene]. *)
Context {Derived : Type}.
Variable renderScene : mat4 -> mat4 -> vec3 -> Derived -> M Derived.

Definition half_sum (a b : float) : float := F32.div (F32.add a b) (F32.of_Z 2).

Definition draw_eye (eyePoses : arr2 ovrPosef) (eyepos : vec3) (eye : ovrEyeType)
    (st : RiftApp * Derived) : M (RiftApp * Derived) :=
  let a := fst st in
  let vp := get_eye (Viewport (_sceneLayer a)) eye in
  emit (glViewport (v2i_x (Pos vp)) (v2i_y (Pos vp)) (sz_w (Size vp)) (sz_h (Size vp))) ;;
  let layer := _sceneLayer a in
  let a := set_sceneLayer a
             (set_RenderPose layer (set_eye (RenderPose layer) eye (get_eye eyePoses eye))) in
  d <- renderScene (get_eye (_eyeProjections a) eye) (toGlm (get_eye eyePoses eye))
         eyepos (snd st) ;;
  ret (a, d).

Definition draw (st : RiftApp * Derived) : M (RiftApp * Derived) :=
  let a := fst st in
  got <- query rt_GetEyePoses ;;
  let eyePoses := fst got in
  let a := set_sceneLayer a (set_SensorSampleTime (_sceneLayer a) (snd got)) in
  curIndex <- query rt_GetTextureSwapChainCurrentIndex ;;
  curTexId <- query (fun rt c => rt_GetTextureSwapChainBufferGL rt c curIndex) ;;
  emit (glBindFramebuffer GL_DRAW_FRAMEBUFFER (_fbo a)) ;;
  emit (glFramebufferTexture2D GL_DRAW_FRAMEBUFFER curTexId) ;;
  emit glClear ;;
  let p0 := Position (at0 eyePoses) in
  let p1 := Position (at1 eyePoses) in
  let eyepos := mkVec3 (half_sum (v3x p0) (v3x p1)) (half_sum (v3y p0) (v3y p1))
                       (half_sum (v3z p0) (v3z p1)) in
  st <- for_each_eye (draw_eye eyePoses eyepos) (a, snd st) ;;
  let a := fst st in
  emit (glFramebufferTexture2D GL_DRAW_FRAMEBUFFER 0) ;;
  emit (glBindFramebuffer GL_DRAW_FRAMEBUFFER 0) ;;
  emit ovr_CommitTextureSwapChain ;;
  emit (ovr_SubmitFrame (frame a) (_sceneLayer a)) ;;
  _ <- query rt_SubmitFrame ;;
  mirrorTextureId <- query rt_GetMirrorTextureBufferGL ;;
  emit (glBindFramebuffer GL_READ_FRAMEBUFFER (_mirrorFbo a)) ;;
  emit (glFramebufferTexture2D GL_READ_FRAMEBUFFER mirrorTextureId) ;;
  let m := _mirrorSize a in
  emit (glBlitFramebuffer 0 0 (wrap_int (uv_x m)) (wrap_int (uv_y m))
                          0 (wrap_int (uv_y m)) (wrap_int (uv_x m)) 0) ;;
  emit (glBindFramebuffer GL_READ_FRAMEBUFFER 0) ;;
  ret st.

(** One turn of the loop of [GlfwApp::run]. *)
Definition run_frame (st : RiftApp * Derived) : M (RiftApp * Derived) :=
  let a := set_frame (fst st) (wrap_uint (frame (fst st) + 1)) in
  emit glfwPollEvents ;;
  st <- draw (a, snd st) ;;
  emit glfwSwapBuffers ;;
  ret st.

(** [while (!glfwWindowShouldClose(window)) { ... }], for at most [fuel]
    turns; the flag says whether the loop was left. *)
Fixpoint run_loop (fuel : nat) (st : RiftApp * Derived) : M (bool * (RiftApp * Derived)) :=
  match fuel with
  | O => ret (false, st)
  | S fuel' =>
      close <- query rt_WindowShouldClose ;;
      if close then ret (true, st)
      else st <- run_frame st ;; run_loop fuel' st
  end.

End Draw.

(** [ExampleApp::renderScene] *)
Definition ExampleApp_renderScene (projection headPose : mat4) (eyepos : vec3)
    (cubeScene : ColorCubeScene) : M ColorCubeScene :=
  render projection (glm_inverse headPose) eyepos cubeScene.

Definition ExampleApp_draw := draw ExampleApp_renderScene.
Definition ExampleApp_run_loop := run_loop ExampleApp_renderScene.

End Rift.

(* ===================================================================== *)
(** ** An instance to run the model

    GLM's functions in binary32 with the textbook formulas, for evaluating
    the model on concrete inputs.  [cos] and [sin] are their Taylor
    polynomials of degree 6 and 7, and [inverse] is the inverse of a rigid
    transform (a rotation followed by a translation), which is what
    [ovr::toGlm] builds from a pose. *)

Module GlmEval.

Definition f0 : float := F32.of_Z 0.
Definition f1 : float := F32.of_Z 1.

Definition vec4_scale (v : vec4) (s : float) : vec4 :=
  mkVec4 (F32.mul (v4x v) s) (F32.mul (v4y v) s) (F32.mul (v4z v) s) (F32.mul (v4w v) s).

(** [a * x + b * y + c * z + d * w] on columns *)
Definition combine (a b c d : vec4) (x y z w : float) : vec4 :=
  vec4_add (vec4_add (vec4_add (vec4_scale a x) (vec4_scale b y)) (vec4_scale c z))
           (vec4_scale d w).

Definition identity : mat4 :=
  mkMat4 (mkVec4 f1 f0 f0 f0) (mkVec4 f0 f1 f0 f0) (mkVec4 f0 f0 f1 f0) (mkVec4 f0 f0 f0 f1).

Definition mulv (m : mat4) (v : vec4) : vec4 :=
  combine (col0 m) (col1 m) (col2 m) (col3 m) (v4x v) (v4y v) (v4z v) (v4w v).

Definition mul (a b : mat4) : mat4 :=
  mkMat4 (mulv a (col0 b)) (mulv a (col1 b)) (mulv a (col2 b)) (mulv a (col3 b)).

Definition translate (m : mat4) (v : vec3) : mat4 :=
  set_col3 m (combine (col0 m) (col1 m) (col2 m) (col3 m) (v3x v) (v3y v) (v3z v) f1).

Definition scale (m : mat4) (v : vec3) : mat4 :=
  mkMat4 (vec4_scale (col0 m) (v3x v)) (vec4_scale (col1 m) (v3y v))
         (vec4_scale (col2 m) (v3z v)) (col3 m).

Definition dot (a b : vec3) : float :=
  F32.add (F32.add (F32.mul (v3x a) (v3x b)) (F32.mul (v3y a) (v3y b)))
          (F32.mul (v3z a) (v3z b)).

Definition length (v : vec3) : float := SFsqrt F32.prec F32.emax (dot v v).

Definition normalize (v : vec3) : vec3 := vec3_divs v (length v).

Definition cross (a b : vec3) : vec3 :=
  mkVec3 (F32.sub (F32.mul (v3y a) (v3z b)) (F32.mul (v3y b) (v3z a)))
         (F32.sub (F32.mul (v3z a) (v3x b)) (F32.mul (v3z b) (v3x a)))
         (F32.sub (F32.mul (v3x a) (v3y b)) (F32.mul (v3x b) (v3y a))).

Definition cos (x : float) : float :=
  let x2 := F32.mul x x in
  let t1 := F32.div x2 (F32.of_Z 2) in
  let t2 := F32.div (F32.mul x2 x2) (F32.of_Z 24) in
  let t3 := F32.div (F32.mul (F32.mul x2 x2) x2) (F32.of_Z 720) in
  F32.sub (F32.add (F32.sub f1 t1) t2) t3.

Definition sin (x : float) : float :=
  let x2 := F32.mul x x in
  let x3 := F32.mul x2 x in
  let x5 := F32.mul x3 x2 in
  let x7 := F32.mul x5 x2 in
  F32.sub (F32.add (F32.sub x (F32.div x3 (F32.of_Z 6))) (F32.div x5 (F32.of_Z 120)))
          (F32.div x7 (F32.of_Z 5040)).

(** Rodrigues' rotation about the normalised axis, applied on the right. *)
Definition rotate (m : mat4) (angle : float) (v : vec3) : mat4 :=
  let c := cos angle in
  let s := sin angle in
  let axis := normalize v in
  let ax := v3x axis in let ay := v3y axis in let az := v3z axis in
  let k := F32.sub f1 c in
  let tx := F32.mul k ax in let ty := F32.mul k ay in let tz := F32.mul k az in
  let r00 := F32.add c (F32.mul tx ax) in
  let r01 := F32.add (F32.mul tx ay) (F32.mul s az) in
  let r02 := F32.sub (F32.mul tx az) (F32.mul s ay) in
  let r10 := F32.sub (F32.mul ty ax) (F32.mul s az) in
  let r11 := F32.add c (F32.mul ty ay) in
  let r12 := F32.add (F32.mul ty az) (F32.mul s ax) in
  let r20 := F32.add (F32.mul tz ax) (F32.mul s ay) in
  let r21 := F32.sub (F32.mul tz ay) (F32.mul s ax) in
  let r22 := F32.add c (F32.mul tz az) in
  let lin (a b d : float) :=
    vec4_add (vec4_add (vec4_scale (col0 m) a) (vec4_scale (col1 m) b))
             (vec4_scale (col2 m) d) in
  mkMat4 (lin r00 r01 r02) (lin r10 r11 r12) (lin r20 r21 r22) (col3 m).

Definition toMat4 (q : quat) : mat4 :=
  let two := F32.of_Z 2 in
  let x := qx q in let y := qy q in let z := qz q in let w := qw q in
  let xx := F32.mul x x in let yy := F32.mul y y in let zz := F32.mul z z in
  let xy := F32.mul x y in let xz := F32.mul x z in let yz := F32.mul y z in
  let wx := F32.mul w x in let wy := F32.mul w y in let wz := F32.mul w z in
  mkMat4
    (mkVec4 (F32.sub f1 (F32.mul two (F32.add yy zz))) (F32.mul two (F32.add xy wz))
            (F32.mul two (F32.sub xz wy)) f0)
    (mkVec4 (F32.mul two (F32.sub xy wz)) (F32.sub f1 (F32.mul two (F32.add xx zz)))
            (F32.mul two (F32.add yz wx)) f0)
    (mkVec4 (F32.mul two (F32.add xz wy)) (F32.mul two (F32.sub yz wx))
            (F32.sub f1 (F32.mul two (F32.add xx yy))) f0)
    (mkVec4 f0 f0 f0 f1).

(** The inverse of [T * R]: the transposed rotation and [- R^T t]. *)
Definition inverse (m : mat4) : mat4 :=
  let a := col0 m in let b := col1 m in let c := col2 m in let t := col3 m in
  let r0 := mkVec3 (v4x a) (v4x b) (v4x c) in
  let r1 := mkVec3 (v4y a) (v4y b) (v4y c) in
  let r2 := mkVec3 (v4z a) (v4z b) (v4z c) in
  let tv := vec3_of_vec4 t in
  let a3 := vec3_of_vec4 a in let b3 := vec3_of_vec4 b in let c3 := vec3_of_vec4 c in
  mkMat4 (mkVec4 (v3x r0) (v3y r0) (v3z r0) f0)
         (mkVec4 (v3x r1) (v3y r1) (v3z r1) f0)
         (mkVec4 (v3x r2) (v3y r2) (v3z r2) f0)
         (mkVec4 (F32.neg (dot a3 tv)) (F32.neg (dot b3 tv)) (F32.neg (dot c3 tv)) f1).

#[export] Instance glm_eval : GLM := {|
  glm_identity := identity;
  glm_rotate := rotate;
  glm_scale := scale;
  glm_translate := translate;
  glm_mul := mul;
  glm_mulv := mulv;
  glm_inverse := inverse;
  glm_toMat4 := toMat4;
  glm_normalize := normalize;
  glm_cross := cross;
  glm_length := length;
  glm_rotate_col3 := fun _ _ _ => eq_refl
|}.

(** [CLOCKS_PER_SEC] is 1000 in the C library of the Windows toolchain. *)
#[export] Instance windows : Platform := {|
  CLOCKS_PER_SEC := 1000;
  CLOCKS_PER_SEC_pos := eq_refl
|}.

End GlmEval.

(* ===================================================================== *)
(** ** The conversions of namespace [ovr]

    [ovrMatrix4f] holds [float M[4][4]], row after row; a [glm::mat4] holds
    its sixteen floats column after column.  [glm::make_mat4] fills a
    matrix from sixteen consecutive floats, [memcpy] copies them back. *)

Module ovr.

Record ovrMatrix4f : Type := mkMatrix4f {
  M_0 : vec4; M_1 : vec4; M_2 : vec4; M_3 : vec4 }.

Definition floats4 (v : vec4) : list float := [v4x v; v4y v; v4z v; v4w v].

(** Four consecutive floats from position [i]. *)
Definition floats_at (p : list float) (i : nat) : vec4 :=
  let z := S754_zero false in
  mkVec4 (nth i p z) (nth (i + 1) p z) (nth (i + 2) p z) (nth (i + 3) p z).

(** The memory at [&om.M[0][0]]. *)
Definition floats_of_Matrix4f (om : ovrMatrix4f) : list float :=
  floats4 (M_0 om) ++ floats4 (M_1 om) ++ floats4 (M_2 om) ++ floats4 (M_3 om).

(** The memory at [&m[0][0]]. *)
Definition floats_of_mat4 (m : mat4) : list float :=
  floats4 (col0 m) ++ floats4 (col1 m) ++ floats4 (col2 m) ++ floats4 (col3 m).

(** [glm::make_mat4] *)
Definition make_mat4 (p : list float) : mat4 :=
  mkMat4 (floats_at p 0) (floats_at p 4) (floats_at p 8) (floats_at p 12).

(** [memcpy(result.M, p, sizeof(float) * 16)] *)
Definition memcpy_Matrix4f (p : list float) : ovrMatrix4f :=
  mkMatrix4f (floats_at p 0) (floats_at p 4) (floats_at p 8) (floats_at p 12).

(** [glm::transpose] *)
Definition transpose (m : mat4) : mat4 :=
  mkMat4
    (mkVec4 (v4x (col0 m)) (v4x (col1 m)) (v4x (col2 m)) (v4x (col3 m)))
    (mkVec4 (v4y (col0 m)) (v4y (col1 m)) (v4y (col2 m)) (v4y (col3 m)))
    (mkVec4 (v4z (col0 m)) (v4z (col1 m)) (v4z (col2 m)) (v4z (col3 m)))
    (mkVec4 (v4w (col0 m)) (v4w (col1 m)) (v4w (col2 m)) (v4w (col3 m))).

(** [toGlm(const ovrMatrix4f &)] *)
Definition toGlm_Matrix4f (om : ovrMatrix4f) : mat4 :=
  transpose (make_mat4 (floats_of_Matrix4f om)).

(** [fromGlm(const mat4 &)] *)
Definition fromGlm_mat4 (m : mat4) : ovrMatrix4f :=
  let transposed := transpose m in
  memcpy_Matrix4f (floats_of_mat4 transposed).

(** [toGlm(const ovrSizei &)]: [uvec2(ov.w, ov.h)] converts the two [int]s
    to [unsigned]. *)
Definition toGlm_Sizei (ov : ovrSizei) : uvec2 :=
  mkUvec2 (MachInt.wrap_uint (sz_w ov)) (MachInt.wrap_uint (sz_h ov)).

(** [fromGlm(const uvec2 &)]: the assignments convert to [int], which the
    compilers of the platform do modulo 2^32. *)
Definition fromGlm_uvec2 (v : uvec2) : ovrSizei :=
  mkSizei (MachInt.wrap_int (uv_x v)) (MachInt.wrap_int (uv_y v)).

(** The element in row [r] and column [c], for [r] and [c] below 4. *)
Definition component (v : vec4) (i : nat) : float :=
  nth i (floats4 v) (S754_zero false).

Definition M_at (om : ovrMatrix4f) (r c : nat) : float :=
  component (nth r [M_0 om; M_1 om; M_2 om; M_3 om] (M_0 om)) c.

Definition mat4_at (m : mat4) (r c : nat) : float :=
  component (nth c [col0 m; col1 m; col2 m; col3 m] (col0 m)) r.

End ovr.

(* ===================================================================== *)
(** ** Starting and stopping

    [WinMain], the constructors and destructors of the application object,
    [GlfwApp::run] and the [initGl] methods.  The calls are collected as
    [Call]s, those the frames share as [command]s.  Calls that only read
    the device ([ovr_GetHmdDesc], [ovr_GetTextureSwapChainLength],
    [ovr_GetTextureSwapChainBufferGL] and those of the constructor of
    [RiftApp]) are answered by the oracles and leave no [Call].  GLFW's
    error callback, which raises inside a call of GLFW, is outside the
    model: a call of GLFW fails by what it returns. *)

Inductive Stream : Type := stdin | stdout | stderr.

Inductive WindowHint : Type :=
| GLFW_DEPTH_BITS | GLFW_CONTEXT_VERSION_MAJOR | GLFW_CONTEXT_VERSION_MINOR
| GLFW_OPENGL_PROFILE | GLFW_OPENGL_DEBUG_CONTEXT.

Definition GLFW_OPENGL_CORE_PROFILE : Z := 204801.
Definition GLFW_PRESS : Z := 1.
Definition GLFW_KEY_ESCAPE : Z := 256.
Definition GLFW_KEY_R : Z := 82.

Inductive TexParameter : Type :=
| GL_TEXTURE_MIN_FILTER | GL_TEXTURE_MAG_FILTER | GL_TEXTURE_WRAP_S | GL_TEXTURE_WRAP_T.

Inductive TexValue : Type := GL_LINEAR | GL_CLAMP_TO_EDGE.

Inductive Call : Type :=
| AllocConsole
| freopen (path mode : string) (stream : Stream)
| ovr_Initialize
| ovr_Shutdown
| ovr_Create
| ovr_Destroy
| ovr_RecenterTrackingOrigin
| ovr_CreateTextureSwapChainGL (width height : Z)
| ovr_CreateMirrorTextureGL (width height : Z)
| glfwInit
| glfwTerminate
| glfwSetErrorCallback
| glfwWindowHint (hint : WindowHint) (v : Z)
| glfwCreateWindow (width height : Z) (title : string)
| glfwSetWindowPos (x y : Z)
| glfwDestroyWindow
| glfwSetWindowUserPointer
| glfwSetKeyCallback
| glfwSetMouseButtonCallback
| glfwMakeContextCurrent
| glfwSwapInterval (interval : Z)
| glfwSetWindowShouldClose (v : Z)
| glewInit
| glGetError
| glGetIntegerv_CONTEXT_FLAGS
| glBindTexture (texture : Z)
| glTexParameteri (pname : TexParameter) (param : TexValue)
| glGenFramebuffers
| glGenRenderbuffers
| glBindRenderbuffer (renderbuffer : Z)
| glRenderbufferStorage (width height : Z)
| glFramebufferRenderbuffer (renderbuffer : Z)
| glEnable_DEPTH_TEST
| OutputDebugStringA (msg : string)
| command (e : Event).

(** *** Keys *)

(** [GlfwApp::onKey] *)
Definition GlfwApp_onKey (key scancode action mods : Z) : list Call :=
  if negb (GLFW_PRESS =? action) then []
  else if key =? GLFW_KEY_ESCAPE then [glfwSetWindowShouldClose 1]
  else [].

(** [RiftApp::onKey] *)
Definition RiftApp_onKey (key scancode action mods : Z) : list Call :=
  if (GLFW_PRESS =? action) && (key =? GLFW_KEY_R) then [ovr_RecenterTrackingOrigin]
  else GlfwApp_onKey key scancode action mods.

(** [GlfwApp::KeyCallback]: the window's user pointer is the application,
    whose [onKey] is the one of [RiftApp]. *)
Definition KeyCallback (key scancode action mods : Z) : list Call :=
  RiftApp_onKey key scancode action mods.

(** *** What the outside answers at the start *)

Record Boot : Type := mkBoot {
  boot_ovr_Initialize : Z;
  boot_glfwInit : Z;
  boot_ovr_Create : Z;
  (** whether [glfwCreateWindow] returns a window *)
  boot_glfwCreateWindow : bool;
  boot_glewInit : Z;
  boot_GLEW_KHR_debug : bool;
  (** the result, and what [_eyeTexture] holds afterwards *)
  boot_ovr_CreateTextureSwapChainGL : Z * Z;
  (** the result, and what [length] holds afterwards *)
  boot_ovr_GetTextureSwapChainLength : Z * Z;
  boot_glGenFramebuffers_fbo : Z;
  boot_glGenRenderbuffers : Z;
  boot_ovr_CreateMirrorTextureGL : Z;
  boot_glGenFramebuffers_mirrorFbo : Z;
  (** the memory [new ColorCubeScene()] constructs in *)
  boot_new_ColorCubeScene : ColorCubeScene
}.

(** The application object: [window], the members of [RiftApp] and
    [cubeScene], a pointer that is null or owns a scene. *)
Record Process : Type := mkProcess {
  window : bool;
  rift : RiftApp;
  cubeScene : option ColorCubeScene
}.

Definition set_window (p : Process) (w : bool) : Process :=
  mkProcess w (rift p) (cubeScene p).

Definition set_rift (p : Process) (a : RiftApp) : Process :=
  mkProcess (window p) a (cubeScene p).

Definition set_cubeScene (p : Process) (s : option ColorCubeScene) : Process :=
  mkProcess (window p) (rift p) s.

Definition set_fbo (a : RiftApp) (n : Z) : RiftApp :=
  mkRiftApp (frame a) n (_mirrorFbo a) (_eyeRenderDescs a) (_eyeProjections a)
    (_sceneLayer a) (_viewScaleDesc_HmdToEyeOffset a) (_renderTargetSize a)
    (_mirrorSize a).

Definition set_mirrorFbo (a : RiftApp) (n : Z) : RiftApp :=
  mkRiftApp (frame a) (_fbo a) n (_eyeRenderDescs a) (_eyeProjections a)
    (_sceneLayer a) (_viewScaleDesc_HmdToEyeOffset a) (_renderTargetSize a)
    (_mirrorSize a).

Definition set_ColorTexture0 (l : ovrLayerEyeFov) (t : Z) : ovrLayerEyeFov :=
  mkLayer t (Viewport l) (Fov l) (RenderPose l) (SensorSampleTime l).

(** *** The monad of the start

    A computation returns, throws a [std::runtime_error], is still in the
    loop when the turns it was given are used up, or uses the scene through
    a null pointer.  The object and the calls made so far survive a throw:
    the destructors see them. *)

Inductive Outcome (A : Type) : Type :=
| Returned (a : A)
| Thrown (what : string)
| Looping
| NullScene.
Arguments Returned {A} _.
Arguments Thrown {A} _.
Arguments Looping {A}.
Arguments NullScene {A}.

Record Run (A : Type) : Type := mkRun {
  outcome : Outcome A;
  process : Process;
  position : nat;
  calls : list Call
}.
Arguments mkRun {A} _ _ _ _.
Arguments outcome {A} _.
Arguments process {A} _.
Arguments position {A} _.
Arguments calls {A} _.

Definition W (A : Type) : Type := Boot -> Runtime -> Process -> nat -> Run A.

Definition wret {A : Type} (a : A) : W A := fun _ _ p c => mkRun (Returned a) p c [].

Definition wbind {A B : Type} (m : W A) (f : A -> W B) : W B :=
  fun b rt p c =>
    let r := m b rt p c in
    match outcome r with
    | Returned a =>
        let r' := f a b rt (process r) (position r) in
        mkRun (outcome r') (process r') (position r') (calls r ++ calls r')
    | Thrown what => mkRun (Thrown what) (process r) (position r) (calls r)
    | Looping => mkRun Looping (process r) (position r) (calls r)
    | NullScene => mkRun NullScene (process r) (position r) (calls r)
    end.

Declare Scope w_scope.
Delimit Scope w_scope with W.
Notation "x <-- m ;; k" := (wbind m (fun x => k))
  (at level 61, m at next level, right associativity) : w_scope.
Notation "m ;;; k" := (wbind m (fun _ => k))
  (at level 61, right associativity) : w_scope.
Local Open Scope w_scope.

Definition call (x : Call) : W unit := fun _ _ p c => mkRun (Returned tt) p c [x].

(** [FAIL(X)]: [throw std::runtime_error(X)] *)
Definition FAIL {A : Type} (X : string) : W A := fun _ _ p c => mkRun (Thrown X) p c [].

Definition answer {A : Type} (f : Boot -> A) : W A :=
  fun b _ p c => mkRun (Returned (f b)) p c [].

(** A call and what it returns. *)
Definition ask {A : Type} (x : Call) (f : Boot -> A) : W A := call x ;;; answer f.

Definition this : W Process := fun _ _ p c => mkRun (Returned p) p c [].

Definition assign (f : Process -> Process) : W unit :=
  fun _ _ p c => mkRun (Returned tt) (f p) c [].

(** A computation of the frames, its commands among the calls. *)
Definition frames {A : Type} (m : M A) : W A :=
  fun _ rt p c =>
    let o := m rt c in
    mkRun (Returned (value o)) p (cursor o) (map command (events o)).

(** [m] in the life time of an object with destructor [d]: the destructor
    runs when [m] returns and when it throws. *)
Definition destroying {A : Type} (m : W A) (d : Process -> list Call) : W A :=
  fun b rt p c =>
    let r := m b rt p c in
    match outcome r with
    | Returned _ | Thrown _ =>
        mkRun (outcome r) (process r) (position r) (calls r ++ d (process r))
    | Looping | NullScene => r
    end.

(** [try { m } catch (std::exception & error) { handler }] *)
Definition try_catch {A : Type} (m : W A) (handler : string -> W A) : W A :=
  fun b rt p c =>
    let r := m b rt p c in
    match outcome r with
    | Thrown what =>
        let r' := handler what b rt (process r) (position r) in
        mkRun (outcome r') (process r') (position r') (calls r ++ calls r')
    | _ => r
    end.

Section Startup.

Context {glm : GLM} {platform : Platform}.

(** *** GlfwApp *)

(** [glfw::createWindow] *)
Definition createWindow (size : uvec2) (position : ovrVector2i) : W bool :=
  w <-- ask (glfwCreateWindow (MachInt.wrap_int (uv_x size))
                              (MachInt.wrap_int (uv_y size)) "glfw")
            boot_glfwCreateWindow ;;
  (if negb w then FAIL "Unable to create rendering window" else wret tt) ;;;
  (if (MachInt.int_min <? v2i_x position) && (MachInt.int_min <? v2i_y position)
   then call (glfwSetWindowPos (v2i_x position) (v2i_y position))
   else wret tt) ;;;
  wret w.

(** The constructor: [window{ nullptr }], then the body. *)
Definition GlfwApp_new : W unit :=
  assign (fun p => set_window p false) ;;;
  r <-- ask glfwInit boot_glfwInit ;;
  (if r =? 0 then FAIL "Failed to initialize GLFW" else wret tt) ;;;
  call glfwSetErrorCallback.

(** The destructor. *)
Definition GlfwApp_delete (p : Process) : list Call :=
  (if window p then [glfwDestroyWindow] else []) ++ [glfwTerminate].

Definition preCreate : W unit :=
  call (glfwWindowHint GLFW_DEPTH_BITS 16) ;;;
  call (glfwWindowHint GLFW_CONTEXT_VERSION_MAJOR 4) ;;;
  call (glfwWindowHint GLFW_CONTEXT_VERSION_MINOR 1) ;;;
  call (glfwWindowHint GLFW_OPENGL_PROFILE GLFW_OPENGL_CORE_PROFILE) ;;;
  call (glfwWindowHint GLFW_OPENGL_DEBUG_CONTEXT 1).

Definition postCreate : W unit :=
  call glfwSetWindowUserPointer ;;;
  call glfwSetKeyCallback ;;;
  call glfwSetMouseButtonCallback ;;;
  call glfwMakeContextCurrent ;;;
  r <-- ask glewInit boot_glewInit ;;
  (if negb (0 =? r) then FAIL "Failed to initialize GLEW" else wret tt) ;;;
  call glGetError ;;;
  khr <-- answer boot_GLEW_KHR_debug ;;
  if khr then call glGetIntegerv_CONTEXT_FLAGS else wret tt.

(** *** RiftManagerApp *)

Definition RiftManagerApp_new : W unit :=
  r <-- ask ovr_Create boot_ovr_Create ;;
  if negb (OVR_SUCCESS r) then FAIL "Unable to create HMD session" else wret tt.

Definition RiftManagerApp_delete (p : Process) : list Call := [ovr_Destroy].

(** *** RiftApp *)

(** The constructor, over what the members hold before it. *)
Definition RiftApp_ctor : W unit :=
  fun _ rt p c => mkRun (Returned tt) (set_rift p (RiftApp_new rt (rift p))) c [].

(** [RiftApp::createRenderingTarget]: the position is the default one of
    [glfw::createWindow], [ivec2(INT_MIN)]. *)
Definition RiftApp_createRenderingTarget : W bool :=
  p <-- this ;;
  createWindow (_mirrorSize (rift p)) (mkVector2i MachInt.int_min MachInt.int_min).

(** The loop over the textures of the chain, from [i]. *)
Fixpoint chain_textures (n : nat) (i : Z) : W unit :=
  match n with
  | O => wret tt
  | S n' =>
      chainTexId <-- frames (query (fun rt c => rt_GetTextureSwapChainBufferGL rt c i)) ;;
      call (glBindTexture chainTexId) ;;;
      call (glTexParameteri GL_TEXTURE_MIN_FILTER GL_LINEAR) ;;;
      call (glTexParameteri GL_TEXTURE_MAG_FILTER GL_LINEAR) ;;;
      call (glTexParameteri GL_TEXTURE_WRAP_S GL_CLAMP_TO_EDGE) ;;;
      call (glTexParameteri GL_TEXTURE_WRAP_T GL_CLAMP_TO_EDGE) ;;;
      chain_textures n' (i + 1)
  end.

(** [RiftApp::initGl]; [GlfwApp::initGl] is empty.  The other fields of the
    two descriptions are constants. *)
Definition RiftApp_initGl : W unit :=
  call (glfwSwapInterval 0) ;;;
  p <-- this ;;
  let size := _renderTargetSize (rift p) in
  result <-- ask (ovr_CreateTextureSwapChainGL (MachInt.wrap_int (uv_x size))
                                               (MachInt.wrap_int (uv_y size)))
                 boot_ovr_CreateTextureSwapChainGL ;;
  assign (fun p => set_rift p (set_sceneLayer (rift p)
            (set_ColorTexture0 (_sceneLayer (rift p)) (snd result)))) ;;;
  (if negb (OVR_SUCCESS (fst result)) then FAIL "Failed to create swap textures"
   else wret tt) ;;;
  counted <-- answer boot_ovr_GetTextureSwapChainLength ;;
  let length := snd counted in
  (if negb (OVR_SUCCESS (fst counted)) || (length =? 0)
   then FAIL "Unable to count swap chain textures" else wret tt) ;;;
  chain_textures (Z.to_nat length) 0 ;;;
  call (glBindTexture 0) ;;;
  fbo <-- ask glGenFramebuffers boot_glGenFramebuffers_fbo ;;
  assign (fun p => set_rift p (set_fbo (rift p) fbo)) ;;;
  depthBuffer <-- ask glGenRenderbuffers boot_glGenRenderbuffers ;;
  call (command (glBindFramebuffer GL_DRAW_FRAMEBUFFER fbo)) ;;;
  call (glBindRenderbuffer depthBuffer) ;;;
  call (glRenderbufferStorage (MachInt.wrap_int (uv_x size))
                              (MachInt.wrap_int (uv_y size))) ;;;
  call (glBindRenderbuffer 0) ;;;
  call (glFramebufferRenderbuffer depthBuffer) ;;;
  call (command (glBindFramebuffer GL_DRAW_FRAMEBUFFER 0)) ;;;
  let mirror := _mirrorSize (rift p) in
  made <-- ask (ovr_CreateMirrorTextureGL (MachInt.wrap_int (uv_x mirror))
                                          (MachInt.wrap_int (uv_y mirror)))
               boot_ovr_CreateMirrorTextureGL ;;
  (if negb (OVR_SUCCESS made) then FAIL "Could not create mirror texture"
   else wret tt) ;;;
  mirrorFbo <-- ask glGenFramebuffers boot_glGenFramebuffers_mirrorFbo ;;
  assign (fun p => set_rift p (set_mirrorFbo (rift p) mirrorFbo)).

(** *** ExampleApp *)

(** [ExampleApp::initGl] *)
Definition ExampleApp_initGl : W unit :=
  RiftApp_initGl ;;;
  call (command play_colour) ;;;
  call glEnable_DEPTH_TEST ;;;
  call ovr_RecenterTrackingOrigin ;;;
  raw <-- answer boot_new_ColorCubeScene ;;
  s <-- frames (ColorCubeScene_new raw) ;;
  assign (fun p => set_cubeScene p (Some s)).

(** [ExampleApp::shutdownGl] *)
Definition ExampleApp_shutdownGl : W unit :=
  assign (fun p => set_cubeScene p None).

(** The loop of [GlfwApp::run], for at most [fuel] turns; the frames use
    the scene [cubeScene] points to. *)
Definition main_loop (fuel : nat) : W unit :=
  fun b rt p c =>
    match cubeScene p with
    | None => mkRun NullScene p c []
    | Some s =>
        let o := ExampleApp_run_loop fuel (rift p, s) rt c in
        let p' := set_cubeScene (set_rift p (fst (snd (value o))))
                                (Some (snd (snd (value o)))) in
        mkRun (if fst (value o) then Returned tt else Looping) p' (cursor o)
              (map command (events o))
    end.

(** [GlfwApp::run] *)
Definition GlfwApp_run (fuel : nat) : W Z :=
  preCreate ;;;
  w <-- RiftApp_createRenderingTarget ;;
  assign (fun p => set_window p w) ;;;
  p <-- this ;;
  if negb (window p) then
    call (command (std_out "Unable to create OpenGL window")) ;;;
    wret (-1)
  else
    postCreate ;;;
    ExampleApp_initGl ;;;
    main_loop fuel ;;;
    ExampleApp_shutdownGl ;;;
    wret 0.

(** [ExampleApp().run()]: the temporary is built base by base, [GlfwApp],
    [RiftManagerApp], then [RiftApp] and [ExampleApp]; what has been built
    is destroyed in the opposite order when [run] returns or something
    throws. *)
Definition ExampleApp_temporary (fuel : nat) : W Z :=
  GlfwApp_new ;;;
  destroying
    (RiftManagerApp_new ;;;
     destroying (RiftApp_ctor ;;; GlfwApp_run fuel) RiftManagerApp_delete)
    GlfwApp_delete.

(** [WinMain] *)
Definition WinMain (fuel : nat) : W Z :=
  call AllocConsole ;;;
  call (freopen "conin$" "r" stdin) ;;;
  call (freopen "conout$" "w" stdout) ;;;
  call (freopen "conout$" "w" stderr) ;;;
  let result := -1 in
  result <-- try_catch
    (r <-- ask ovr_Initialize boot_ovr_Initialize ;;
     (if negb (OVR_SUCCESS r) then FAIL "Failed to initialize the Oculus SDK"
      else wret tt) ;;;
     ExampleApp_temporary fuel)
    (fun what =>
       call (OutputDebugStringA what) ;;;
       call (command (std_err what)) ;;;
       wret result) ;;
  call ovr_Shutdown ;;;
  wret result.

(** The process before [WinMain]: no window, the memory of the members,
    no scene. *)
Definition Process_start (raw : RiftApp) : Process := mkProcess false raw None.

End Startup.

(* ===================================================================== *)
(** ** Vocabulary of the properties *)

Section Vocabulary.

Context {glm : GLM} {platform : Platform}.

(** A velocity component after the wall check at position [x]. *)
Definition reflected (lo hi : Z) (x v : float) : float :=
  if outside lo hi x then flip v else v.

(** The particle [q] is the particle [p] one step later: moved by its
    velocity, each velocity component reflected on its own walls. *)
Definition stepped (p q : Particle) : Prop :=
  let pos := vec4_add (col3 (transform p))
               (mkVec4 (v3x (velocity p)) (v3y (velocity p)) (v3z (velocity p))
                       (F32.of_Z 0)) in
  col3 (transform q) = pos /\
  velocity q =
    mkVec3 (reflected (-10) 10 (v4x pos) (v3x (velocity p)))
           (reflected (-10) 10 (v4y pos) (v3y (velocity p)))
           (reflected (-25) (-5) (v4z pos) (v3z (velocity p))).

(** The number a binary32 value stands for, compared exactly with an
    integer: a finite value of sign [s], mantissa [m] and exponent [e] is
    the number [(-1)^s * m * 2^e]; a NaN compares with nothing. *)
Definition compare_exact (x : float) (n : Z) : option comparison :=
  match x with
  | S754_nan => None
  | S754_infinity s => Some (if s then Lt else Gt)
  | S754_zero _ => Some (0 ?= n)
  | S754_finite s m e =>
      let z := if s then Z.neg m else Z.pos m in
      Some (if 0 <=? e then z * 2 ^ e ?= n else z ?= n * 2 ^ (- e))
  end.

Definition below (x : float) (n : Z) : Prop := compare_exact x n = Some Lt.
Definition above (x : float) (n : Z) : Prop := compare_exact x n = Some Gt.

(** The values a C++ [float] can hold. *)
Definition is_binary32 (x : float) : Prop := valid_binary F32.prec F32.emax x = true.

(** The velocity component [v'] is [v] after the walls at [lo] and [hi],
    the coordinate being [x]: multiplied by -1 when [x] is below [lo] or
    above [hi], and left alone otherwise, so also on the walls themselves. *)
Definition bounces (lo hi : Z) (x v v' : float) : Prop :=
  (below x lo \/ above x hi -> v' = F32.mul v (F32.of_Z (-1))) /\
  (~ below x lo -> ~ above x hi -> v' = v).

(** The particle [q] is the particle [p] one step later, in binary32
    arithmetic: each coordinate of the translation column is the sum of
    the old coordinate and the velocity component, and each velocity
    component has bounced on the walls of its axis at the new coordinate. *)
Definition advanced (p q : Particle) : Prop :=
  let t := col3 (transform p) in
  let t' := col3 (transform q) in
  let v := velocity p in
  let v' := velocity q in
  v4x t' = F32.add (v4x t) (v3x v) /\
  v4y t' = F32.add (v4y t) (v3y v) /\
  v4z t' = F32.add (v4z t) (v3z v) /\
  (is_binary32 (v4x t') -> bounces (-10) 10 (v4x t') (v3x v) (v3x v')) /\
  (is_binary32 (v4y t') -> bounces (-10) 10 (v4y t') (v3y v) (v3y v')) /\
  (is_binary32 (v4z t') -> bounces (-25) (-5) (v4z t') (v3z v) (v3z v')).

(** The test of the conversion block on a particle at its position of this
    step: a CO2, both lasers red, both laser lines within 0.3. *)
Definition converts (s : ColorCubeScene) (p : Particle) : bool :=
  Model_eqb (model p) co2 && Model_eqb (model (leftLaser s)) redLaser
  && Model_eqb (model (rightLaser s)) redLaser
  && (laser_hits (leftLaser s) p && laser_hits (rightLaser s) p).

(** The scenes the program can be in between two calls: the scene of the
    constructor, and the scene after [render] (which ends with [update]) on
    such a scene, whatever the runtime answers. *)
Inductive reachable : ColorCubeScene -> Prop :=
| reach_new raw rt c : reachable (value (ColorCubeScene_new raw rt c))
| reach_render s projection modelview eyepos rt c :
    reachable s -> reachable (value (render projection modelview eyepos s rt c)).

(** While the game is not lost the counter is the number of CO2 particles,
    and it is at most [bound]. *)
Definition counted (bound : Z) (s : ColorCubeScene) : Prop :=
  lose s = false -> co2Count s = count_co2 (particles s) /\ co2Count s <= bound.

(** The two requests a conversion sends to the controllers. *)
Definition start_pair : list Event :=
  [ovr_SetControllerVibration ovrControllerType_LTouch (F32.of_Z 0) (F32.of_Z 1);
   ovr_SetControllerVibration ovrControllerType_RTouch (F32.of_Z 0) (F32.of_Z 1)].

(** The two requests that stop the vibration. *)
Definition stop_pair : list Event :=
  [ovr_SetControllerVibration ovrControllerType_LTouch (F32.of_Z 0) (F32.of_Z 0);
   ovr_SetControllerVibration ovrControllerType_RTouch (F32.of_Z 0) (F32.of_Z 0)].

Definition is_vibration (e : Event) : bool :=
  match e with ovr_SetControllerVibration _ _ _ => true | _ => false end.

Definition is_clear_colour (e : Event) : bool :=
  match e with glClearColor _ _ _ _ => true | _ => false end.

(** The number of particles of [ps] that are CO2 no more in [ps']. *)
Definition conversions (ps ps' : list Particle) : nat :=
  Z.to_nat (count_co2 ps - count_co2 ps').

End Vocabulary.

(* ===================================================================== *)
(** ** Vocabulary of the frame properties *)

(** What a frame shows to the outside of the scene: the viewport it sets,
    the projection and view matrices it hands to the shader, the layer it
    submits, and what it writes to the console. *)
Inductive Observation : Type :=
| saw_viewport (r : ovrRecti)
| saw_projection (m : mat4)
| saw_view (m : mat4)
| saw_submit (frameIndex : Z) (layer : ovrLayerEyeFov)
| saw_log (msg : string).

Definition observe (e : Event) : list Observation :=
  match e with
  | glViewport x y w h => [saw_viewport (mkRecti (mkVector2i x y) (mkSizei w h))]
  | glUniformMatrix4fv u_projection m => [saw_projection m]
  | glUniformMatrix4fv u_view m => [saw_view m]
  | ovr_SubmitFrame f l => [saw_submit f l]
  | std_out msg | std_err msg => [saw_log msg]
  | _ => []
  end.

Definition observed (evs : list Event) : list Observation := flat_map observe evs.

Definition is_log (o : Observation) : bool :=
  match o with saw_log _ => true | _ => false end.

Definition is_submit (o : Observation) : bool :=
  match o with saw_submit _ _ => true | _ => false end.

Definition is_viewport (o : Observation) : bool :=
  match o with saw_viewport _ => true | _ => false end.

Definition is_projection (o : Observation) : bool :=
  match o with saw_projection _ => true | _ => false end.

(** What a frame shows of its two eyes: the viewport and the projection of
    the left eye, then those of the right eye. *)
Definition eye_steps (a : RiftApp) : list Observation :=
  [saw_viewport (at0 (Viewport (_sceneLayer a)));
   saw_projection (at0 (_eyeProjections a));
   saw_viewport (at1 (Viewport (_sceneLayer a)));
   saw_projection (at1 (_eyeProjections a))].

(** The columns and the rows of pixels a rectangle covers, and its pixels. *)
Definition x_range (r : ovrRecti) (x : Z) : Prop :=
  v2i_x (Pos r) <= x < v2i_x (Pos r) + sz_w (Size r).

Definition y_range (r : ovrRecti) (y : Z) : Prop :=
  v2i_y (Pos r) <= y < v2i_y (Pos r) + sz_h (Size r).

Definition in_rect (r : ovrRecti) (x y : Z) : Prop := x_range r x /\ y_range r y.

(** The texture size the runtime recommends for an eye, as the constructor
    of [RiftApp] asks for it. *)
Definition eye_size (rt : Runtime) (eye : ovrEyeType) : ovrSizei :=
  rt_GetFovTextureSize rt eye (erd_Fov (rt_GetRenderDesc rt eye)).

(** A size the runtime can give: two non-negative [int]s. *)
Definition valid_size (s : ovrSizei) : Prop :=
  0 <= sz_w s <= int_max /\ 0 <= sz_h s <= int_max.

(** The frames a trace went through: one submission each. *)
Definition frames_of (evs : list Event) : nat :=
  List.length (filter is_submit (observed evs)).

(** The runtime with other answers to [ovr_SubmitFrame]. *)
Definition with_SubmitFrame (rt : Runtime) (f : nat -> Z) : Runtime :=
  mkRuntime (rt_GetRenderDesc rt) (rt_Projection rt) (rt_GetFovTextureSize rt)
    (rt_clock rt) (rt_rand rt) (rt_GetEyePoses rt)
    (rt_GetTextureSwapChainCurrentIndex rt) (rt_GetTextureSwapChainBufferGL rt)
    f (rt_GetMirrorTextureBufferGL rt) (rt_GetPredictedDisplayTime rt)
    (rt_GetTrackingState rt) (rt_GetInputState rt) (rt_WindowShouldClose rt).

(** Two runtimes that answer alike, but for [ovr_SubmitFrame]. *)
Record agree (rt rt' : Runtime) : Prop := mkAgree {
  agree_clock : forall c, rt_clock rt c = rt_clock rt' c;
  agree_rand : forall c, rt_rand rt c = rt_rand rt' c;
  agree_GetEyePoses : forall c, rt_GetEyePoses rt c = rt_GetEyePoses rt' c;
  agree_CurrentIndex : forall c,
    rt_GetTextureSwapChainCurrentIndex rt c = rt_GetTextureSwapChainCurrentIndex rt' c;
  agree_BufferGL : forall c i,
    rt_GetTextureSwapChainBufferGL rt c i = rt_GetTextureSwapChainBufferGL rt' c i;
  agree_MirrorBufferGL : forall c,
    rt_GetMirrorTextureBufferGL rt c = rt_GetMirrorTextureBufferGL rt' c;
  agree_DisplayTime : forall c,
    rt_GetPredictedDisplayTime rt c = rt_GetPredictedDisplayTime rt' c;
  agree_TrackingState : forall c t,
    rt_GetTrackingState rt c t = rt_GetTrackingState rt' c t;
  agree_InputState : forall c i, rt_GetInputState rt c i = rt_GetInputState rt' c i;
  agree_ShouldClose : forall c, rt_WindowShouldClose rt c = rt_WindowShouldClose rt' c
}.

Section FrameVocabulary.

Context {glm : GLM} {Derived : Type}.
Variable renderScene : mat4 -> mat4 -> vec3 -> Derived -> M Derived.

(** The layer a frame submits: the layer of the application with the
    sensor time and the two eye poses of this frame. *)
Definition frame_layer (a : RiftApp) (got : arr2 ovrPosef * double) : ovrLayerEyeFov :=
  mkLayer (ColorTexture0 (_sceneLayer a)) (Viewport (_sceneLayer a))
          (Fov (_sceneLayer a)) (mkArr2 (at0 (fst got)) (at1 (fst got))) (snd got).

Definition frame_eyepos (poses : arr2 ovrPosef) : vec3 :=
  mkVec3 (half_sum (v3x (Position (at0 poses))) (v3x (Position (at1 poses))))
         (half_sum (v3y (Position (at0 poses))) (v3y (Position (at1 poses))))
         (half_sum (v3z (Position (at0 poses))) (v3z (Position (at1 poses)))).

(** The two calls of [renderScene] in a frame that starts at query [c]. *)
Definition left_call (st : RiftApp * Derived) (rt : Runtime) (c : nat) : Out Derived :=
  let poses := fst (rt_GetEyePoses rt c) in
  renderScene (at0 (_eyeProjections (fst st))) (toGlm (at0 poses))
    (frame_eyepos poses) (snd st) rt (S (S (S c))).

Definition right_call (st : RiftApp * Derived) (rt : Runtime) (c : nat) : Out Derived :=
  let poses := fst (rt_GetEyePoses rt c) in
  let o := left_call st rt c in
  renderScene (at1 (_eyeProjections (fst st))) (toGlm (at1 poses))
    (frame_eyepos poses) (value o) rt (cursor o).

End FrameVocabulary.

(** A computation that runs alike under both runtimes. *)
Definition alike (rt rt' : Runtime) {A : Type} (m : M A) : Prop :=
  forall c, m rt c = m rt' c.

(* ===================================================================== *)
(** ** A run of the scene

    The scene is built and rendered three times with both hands held one
    unit below the origin, both index triggers pressed and no button: the
    lasers turn red in the first step, the five particles, still next to the
    chimney, are converted in the second, and the third step starts in the
    won game. *)

Module Demo.
Import GlmEval.

Definition unit_quat : quat := mkQuat f0 f0 f0 f1.

(** Both hands one unit below the origin, looking down the z axis. *)
Definition hand : ovrPosef := mkPose unit_quat (mkVec3 f0 (F32.of_Z (-1)) f0).
Definition head : ovrPosef := mkPose unit_quat (mkVec3 f0 f0 f0).

Definition fov0 : ovrFovPort := mkFov f1 f1 f1 f1.

(** Both index triggers fully pressed, no button; the clock advances one
    tick per reading. *)
Definition rt : Runtime := {|
  rt_GetRenderDesc := fun _ => mkRenderDesc fov0 (mkVec3 f0 f0 f0);
  rt_Projection := fun _ => identity;
  rt_GetFovTextureSize := fun _ _ => mkSizei 1344 1600;
  rt_clock := fun n => Z.of_nat n;
  rt_rand := fun n => (Z.of_nat n * 7919 + 13) mod 32768;
  rt_GetEyePoses := fun _ => (mkArr2 head head, S754_zero false);
  rt_GetTextureSwapChainCurrentIndex := fun _ => 0;
  rt_GetTextureSwapChainBufferGL := fun _ i => i + 1;
  rt_SubmitFrame := fun _ => 0;
  rt_GetMirrorTextureBufferGL := fun _ => 9;
  rt_GetPredictedDisplayTime := fun _ => S754_zero false;
  rt_GetTrackingState := fun _ _ => mkArr2 hand hand;
  rt_GetInputState := fun _ _ => (0, mkInput (mkArr2 f1 f1) 0);
  rt_WindowShouldClose := fun _ => false
|}.

Definition blank : Particle := mkParticle factory identity (mkVec3 f0 f0 f0) (mkVec3 f0 f0 f0).

Definition raw : ColorCubeScene :=
  mkScene 0 0 [] blank blank blank 0 0 false false (mkArr2 head head)
    (mkInput (mkArr2 f0 f0) 0) (mkArr2 false false).

Definition origin : vec3 := mkVec3 f0 f0 f0.

Definition built : Out ColorCubeScene := ColorCubeScene_new raw rt 0%nat.

Definition step1 : Out ColorCubeScene :=
  render identity identity origin (value built) rt (cursor built).

Definition step2 : Out ColorCubeScene :=
  render identity identity origin (value step1) rt (cursor step1).

Definition step3 : Out ColorCubeScene :=
  render identity identity origin (value step2) rt (cursor step2).

(** The application of the run, and a runtime that rejects every
    submission ([ovrError_*] results are negative). *)
Definition raw_app : RiftApp :=
  mkRiftApp 0 0 0
    (mkArr2 (mkRenderDesc fov0 origin) (mkRenderDesc fov0 origin))
    (mkArr2 identity identity) zero_layer (mkArr2 origin origin)
    (mkUvec2 0 0) (mkUvec2 0 0).

Definition app : RiftApp := RiftApp_new rt raw_app.

Definition rejecting : Runtime := with_SubmitFrame rt (fun _ => -1000).

(** A runtime whose clock stands five seconds after the start. *)
Definition late : Runtime :=
  mkRuntime (rt_GetRenderDesc rt) (rt_Projection rt) (rt_GetFovTextureSize rt)
    (fun _ => 5000) (rt_rand rt) (rt_GetEyePoses rt)
    (rt_GetTextureSwapChainCurrentIndex rt) (rt_GetTextureSwapChainBufferGL rt)
    (rt_SubmitFrame rt) (rt_GetMirrorTextureBufferGL rt)
    (rt_GetPredictedDisplayTime rt) (rt_GetTrackingState rt) (rt_GetInputState rt)
    (rt_WindowShouldClose rt).

(** A particle half a unit beyond the wall at x = 10, moving outwards. *)
Definition beyond_wall : Particle :=
  mkParticle co2
    (set_col3 identity (mkVec4 (F32.lit 105 10) f0 (F32.of_Z (-15)) f1))
    (mkVec3 (F32.lit 2 100) f0 f0)
    (mkVec3 f0 f0 f1).

(** The scene of the constructor with the game lost. *)
Definition lost : ColorCubeScene := set_lose (value built) true.

End Demo.

(* ===================================================================== *)
(** ** Vocabulary of the further properties of the scene *)

Section SceneVocabulary.

Context {glm : GLM} {platform : Platform}.

(** A particle as the constructor, the spawn and the reset make it: a CO2
    at the chimney. *)
Definition at_chimney (p : Particle) : Prop :=
  model p = co2 /\ transform p = glm_scale chimney (vec3_splat (F32.lit 3 10)).

(** [q] is [p] one step later: moved and reflected, its rotation axis
    kept, and its model kept or, for a CO2, turned into O2. *)
Definition kept (p q : Particle) : Prop :=
  stepped p q /\ rotation q = rotation p /\
  (model q = model p \/ (model p = co2 /\ model q = o2)).

(** The states of the game. *)
Inductive GameState : Type := Playing | Won | Lost | WonAndLost.

Definition game_state (s : ColorCubeScene) : GameState :=
  match win s, lose s with
  | false, false => Playing
  | true, false => Won
  | false, true => Lost
  | true, true => WonAndLost
  end.

(** What holds of the flags and the counter between two steps: the counter
    counts the CO2 particles of a game that is not lost and is at most 10
    there, and a won game is not lost and has counter 0. *)
Definition won_clause (s : ColorCubeScene) : Prop :=
  win s = true -> lose s = false /\ co2Count s = 0.

Definition consistent (s : ColorCubeScene) : Prop :=
  counted 10 s /\ won_clause s.

End SceneVocabulary.

Section RenderVocabulary.

Context {glm : GLM} {platform : Platform}.

(** The scene [render] hands to [update]: the scene with what the
    controllers report and with the lasers laid along the hands. *)
Definition posed (s : ColorCubeScene) (rt : Runtime) (c : nat) : ColorCubeScene :=
  let s1 := value (getControllerData s rt c) in
  let s2 := set_leftLaser s1
              (set_transform (leftLaser s1)
                 (laser_transform glm_identity (at0 (handPoses s1)))) in
  set_rightLaser s2
    (set_transform (rightLaser s2) (laser_transform glm_identity (at1 (handPoses s2)))).

Definition is_draw (e : Event) : bool :=
  match e with Model_Draw _ => true | _ => false end.

End RenderVocabulary.

(** The commands that put a model on the screen: the upload of its matrix
    and its draw call. *)
Definition is_model_command (e : Event) : bool :=
  match e with
  | glUniformMatrix4fv u_model _ | Model_Draw _ => true
  | _ => false
  end.

Definition shown (p : Particle) : list Event :=
  [glUniformMatrix4fv u_model (transform p); Model_Draw (model p)].

(* ===================================================================== *)
(** ** Vocabulary of the further properties of the frame *)

(** The commands of the frame itself, as opposed to those of the scene it
    renders. *)
Definition is_frame_command (e : Event) : bool :=
  match e with
  | glfwPollEvents | glBindFramebuffer _ _ | glFramebufferTexture2D _ _ | glClear
  | glViewport _ _ _ _ | ovr_CommitTextureSwapChain | ovr_SubmitFrame _ _
  | glBlitFramebuffer _ _ _ _ _ _ _ _ | glfwSwapBuffers => true
  | _ => false
  end.

(** The frame indices of the submissions of a trace, in order. *)
Definition submitted_indices (evs : list Event) : list Z :=
  flat_map (fun e => match e with ovr_SubmitFrame f _ => [f] | _ => [] end) evs.

(** The blits of a trace, in order. *)
Definition is_blit (e : Event) : bool :=
  match e with glBlitFramebuffer _ _ _ _ _ _ _ _ => true | _ => false end.

(** Two applications with the same setup: they differ at most in the frame
    counter and in the poses and the sensor time of the layer. *)
Definition same_setup (a a' : RiftApp) : Prop :=
  _fbo a' = _fbo a /\ _mirrorFbo a' = _mirrorFbo a /\
  _eyeRenderDescs a' = _eyeRenderDescs a /\ _eyeProjections a' = _eyeProjections a /\
  _viewScaleDesc_HmdToEyeOffset a' = _viewScaleDesc_HmdToEyeOffset a /\
  _renderTargetSize a' = _renderTargetSize a /\ _mirrorSize a' = _mirrorSize a /\
  ColorTexture0 (_sceneLayer a') = ColorTexture0 (_sceneLayer a) /\
  Viewport (_sceneLayer a') = Viewport (_sceneLayer a) /\
  Fov (_sceneLayer a') = Fov (_sceneLayer a).

(* ===================================================================== *)
(** ** Vocabulary of the start and the end *)

Section StartVocabulary.

Context {glm : GLM} {platform : Platform}.

(** The checks the program makes while it starts, in its order, each with
    what it throws when the check fails. *)
Definition checks (b : Boot) : list (bool * string) :=
  [ (OVR_SUCCESS (boot_ovr_Initialize b), "Failed to initialize the Oculus SDK"%string);
    (negb (boot_glfwInit b =? 0), "Failed to initialize GLFW"%string);
    (OVR_SUCCESS (boot_ovr_Create b), "Unable to create HMD session"%string);
    (boot_glfwCreateWindow b, "Unable to create rendering window"%string);
    (0 =? boot_glewInit b, "Failed to initialize GLEW"%string);
    (OVR_SUCCESS (fst (boot_ovr_CreateTextureSwapChainGL b)),
     "Failed to create swap textures"%string);
    (OVR_SUCCESS (fst (boot_ovr_GetTextureSwapChainLength b)) &&
       negb (snd (boot_ovr_GetTextureSwapChainLength b) =? 0),
     "Unable to count swap chain textures"%string);
    (OVR_SUCCESS (boot_ovr_CreateMirrorTextureGL b),
     "Could not create mirror texture"%string) ].

Definition first_failure (b : Boot) : option string :=
  option_map snd (find (fun x => negb (fst x)) (checks b)).

(** What the program writes: to the debugger and to the console. *)
Definition is_message (x : Call) : bool :=
  match x with
  | OutputDebugStringA _ | command (std_out _) | command (std_err _) => true
  | _ => false
  end.

(** The commands of the frames among the calls. *)
Definition commands (l : list Call) : list Event :=
  flat_map (fun x => match x with command e => [e] | _ => [] end) l.

(** The calls that end something: the session, the window, GLFW, the SDK. *)
Definition is_closing (x : Call) : bool :=
  match x with
  | ovr_Destroy | glfwDestroyWindow | glfwTerminate | ovr_Shutdown => true
  | _ => false
  end.

(** The calls that bind a texture. *)
Definition is_glBindTexture (x : Call) : bool :=
  match x with glBindTexture _ => true | _ => false end.

(** What the program does not do. *)
Definition is_unexpected (x : Call) : bool :=
  match x with
  | glfwSetWindowPos _ _ | command (std_out _) => true
  | _ => false
  end.

(** What [initGl] adds to the application: the texture of the layer and
    the two framebuffers. *)
Definition prepared (b : Boot) (a : RiftApp) : RiftApp :=
  let a := set_sceneLayer a (set_ColorTexture0 (_sceneLayer a)
             (snd (boot_ovr_CreateTextureSwapChainGL b))) in
  set_mirrorFbo (set_fbo a (boot_glGenFramebuffers_fbo b))
    (boot_glGenFramebuffers_mirrorFbo b).

(** The application as the loop finds it after a start without failure. *)
Definition ready (b : Boot) (rt : Runtime) (raw : RiftApp) : RiftApp :=
  prepared b (RiftApp_new rt raw).

(** Calls among which nothing is written, nothing is closed and nothing
    unexpected happens. *)
Definition plain (l : list Call) : Prop :=
  filter is_message l = [] /\ filter is_closing l = [] /\ filter is_unexpected l = [].

(** The calls of [chain_textures]. *)
Definition chain_calls (rt : Runtime) (c : nat) (n : nat) (i : Z) : list Call :=
  flat_map (fun k =>
    [glBindTexture (rt_GetTextureSwapChainBufferGL rt (c + k)%nat (i + Z.of_nat k));
     glTexParameteri GL_TEXTURE_MIN_FILTER GL_LINEAR;
     glTexParameteri GL_TEXTURE_MAG_FILTER GL_LINEAR;
     glTexParameteri GL_TEXTURE_WRAP_S GL_CLAMP_TO_EDGE;
     glTexParameteri GL_TEXTURE_WRAP_T GL_CLAMP_TO_EDGE]) (seq 0 n).

(** The console of [WinMain]. *)
Definition console_calls : list Call :=
  [AllocConsole; freopen "conin$" "r" stdin; freopen "conout$" "w" stdout;
   freopen "conout$" "w" stderr].

(** What the start got as far as opening: GLFW, the session with the
    headset, the window. *)
Definition glfw_up (b : Boot) : bool :=
  OVR_SUCCESS (boot_ovr_Initialize b) && negb (boot_glfwInit b =? 0).

Definition session_up (b : Boot) : bool :=
  glfw_up b && OVR_SUCCESS (boot_ovr_Create b).

Definition window_up (b : Boot) : bool :=
  session_up b && boot_glfwCreateWindow b.

(** What the destructors of the application close, as far as the start
    had opened it: the session, the window, GLFW. *)
Definition teardown (b : Boot) : list Call :=
  (if session_up b then [ovr_Destroy] else []) ++
  (if window_up b then [glfwDestroyWindow] else []) ++
  (if glfw_up b then [glfwTerminate] else []).

(** The calls of [GlfwApp::run] before the loop, check by check: each list
    ends with the call whose result the check looks at; the length of the
    chain is only read. *)
Definition run_phases (b : Boot) (rt : Runtime) (a : RiftApp) (c : nat) : list (list Call) :=
  let size := _renderTargetSize a in
  let mirror := _mirrorSize a in
  [ [glfwWindowHint GLFW_DEPTH_BITS 16;
     glfwWindowHint GLFW_CONTEXT_VERSION_MAJOR 4;
     glfwWindowHint GLFW_CONTEXT_VERSION_MINOR 1;
     glfwWindowHint GLFW_OPENGL_PROFILE GLFW_OPENGL_CORE_PROFILE;
     glfwWindowHint GLFW_OPENGL_DEBUG_CONTEXT 1;
     glfwCreateWindow (MachInt.wrap_int (uv_x mirror)) (MachInt.wrap_int (uv_y mirror))
       "glfw"];
    [glfwSetWindowUserPointer; glfwSetKeyCallback; glfwSetMouseButtonCallback;
     glfwMakeContextCurrent; glewInit];
    [glGetError] ++
    (if boot_GLEW_KHR_debug b then [glGetIntegerv_CONTEXT_FLAGS] else []) ++
    [glfwSwapInterval 0;
     ovr_CreateTextureSwapChainGL (MachInt.wrap_int (uv_x size))
       (MachInt.wrap_int (uv_y size))];
    [];
    chain_calls rt c (Z.to_nat (snd (boot_ovr_GetTextureSwapChainLength b))) 0 ++
    [glBindTexture 0; glGenFramebuffers; glGenRenderbuffers;
     command (glBindFramebuffer GL_DRAW_FRAMEBUFFER (boot_glGenFramebuffers_fbo b));
     glBindRenderbuffer (boot_glGenRenderbuffers b);
     glRenderbufferStorage (MachInt.wrap_int (uv_x size)) (MachInt.wrap_int (uv_y size));
     glBindRenderbuffer 0;
     glFramebufferRenderbuffer (boot_glGenRenderbuffers b);
     command (glBindFramebuffer GL_DRAW_FRAMEBUFFER 0);
     ovr_CreateMirrorTextureGL (MachInt.wrap_int (uv_x mirror))
       (MachInt.wrap_int (uv_y mirror))] ].

(** The calls of the start of [WinMain], check by check, in the order of
    [checks]. *)
Definition start_phases (b : Boot) (rt : Runtime) (raw : RiftApp) (c : nat)
    : list (list Call) :=
  [ console_calls ++ [ovr_Initialize];
    [glfwInit];
    [glfwSetErrorCallback; ovr_Create] ] ++
  run_phases b rt (RiftApp_new rt raw) c.

(** The number of checks that pass before the first one that fails. *)
Fixpoint first_false (l : list bool) : nat :=
  match l with
  | [] => 0
  | x :: l' => if x then S (first_false l') else 0
  end.

Definition failed_index (b : Boot) : nat := first_false (map fst (checks b)).

(** A run with calls before it. *)
Definition after {A : Type} (l : list Call) (r : Run A) : Run A :=
  mkRun (outcome r) (process r) (position r) (l ++ calls r).

End StartVocabulary.

(* ===================================================================== *)
(** ** More data of the run *)

Module DemoMore.
Import GlmEval.

(** The lost scene of the run with a button held. *)
Definition lost_pressed : ColorCubeScene :=
  set_inputstate Demo.lost (mkInput (mkArr2 f0 f0) 1).


(** A start without a headset: [ovr_Create] fails. *)
Definition no_headset : Boot :=
  mkBoot 0 1 (-1000) true 0 false (0, 7) (0, 3) 1 2 0 3 Demo.raw.


(** A matrix with sixteen different elements. *)
Definition sixteen : ovr.ovrMatrix4f :=
  let f := F32.of_Z in
  ovr.mkMatrix4f (mkVec4 (f 0) (f 1) (f 2) (f 3)) (mkVec4 (f 4) (f 5) (f 6) (f 7))
    (mkVec4 (f 8) (f 9) (f 10) (f 11)) (mkVec4 (f 12) (f 13) (f 14) (f 15)).

End DemoMore.

(* ===================================================================== *)
(** ** Machine integers: facts *)

Lemma wrap_int_id z : in_int z -> wrap_int z = z.
Proof.
  unfold in_int, int_min, int_max, wrap_int. intros H.
  rewrite Z.mod_small; lia.
Qed.

Lemma wrap_int_range z : in_int (wrap_int z).
Proof.
  unfold in_int, int_min, int_max, wrap_int.
  pose proof (Z.mod_pos_bound (z + 2 ^ 31) (2 ^ 32) ltac:(lia)). lia.
Qed.

Lemma wrap_uint_id z : 0 <= z < 2 ^ 32 -> wrap_uint z = z.
Proof. unfold wrap_uint. intros H. apply Z.mod_small; lia. Qed.

(* ===================================================================== *)
(** ** Binary32 values as numbers *)

Section ExactFacts.

Lemma digits2_pos_bounds m :
  2 ^ (Z.pos (digits2_pos m) - 1) <= Z.pos m < 2 ^ Z.pos (digits2_pos m).
Proof.
  induction m as [m IH|m IH|]; cbn [digits2_pos].
  - rewrite Pos2Z.inj_succ.
    replace (Z.succ (Z.pos (digits2_pos m)) - 1) with (Z.succ (Z.pos (digits2_pos m) - 1))
      by lia.
    rewrite !Z.pow_succ_r by lia. lia.
  - rewrite Pos2Z.inj_succ.
    replace (Z.succ (Z.pos (digits2_pos m)) - 1) with (Z.succ (Z.pos (digits2_pos m) - 1))
      by lia.
    rewrite !Z.pow_succ_r by lia. lia.
  - cbn. lia.
Qed.

(** The mantissa and the exponent of a binary32 value: at most 24 bits,
    and exactly 24 unless the exponent is the smallest one. *)
Lemma binary32_bounds m e :
  bounded F32.prec F32.emax m e = true ->
  Z.pos m < 2 ^ 24 /\ -149 <= e /\ (-149 < e -> 2 ^ 23 <= Z.pos m).
Proof.
  unfold bounded, canonical_mantissa, fexp, emin, F32.prec, F32.emax.
  intros H. apply andb_prop in H. destruct H as [H _]. apply Z.eqb_eq in H.
  pose proof (digits2_pos_bounds m) as [Hl Hu].
  set (d := Z.pos (digits2_pos m)) in *.
  assert (Hd : 0 < d) by (unfold d; lia).
  split; [|split].
  - apply Z.lt_le_trans with (2 ^ d); [exact Hu|].
    apply Z.pow_le_mono_r; lia.
  - lia.
  - intros He. assert (d = 24) by lia.
    replace 23 with (d - 1) by lia. exact Hl.
Qed.

Lemma compare_cont_Eq m m2 : Pos.compare_cont Eq m m2 = (Z.pos m ?= Z.pos m2).
Proof. reflexivity. Qed.

(** Two positive values, the second a normal one below 1 ulp = 1. *)
Lemma compare_positive m e m2 e2 n :
  bounded F32.prec F32.emax m e = true ->
  2 ^ 23 <= Z.pos m2 < 2 ^ 24 -> -149 < e2 < 0 ->
  n * 2 ^ (- e2) = Z.pos m2 ->
  match e ?= e2 with
  | Lt => Lt
  | Gt => Gt
  | Eq => Pos.compare_cont Eq m m2
  end =
  (if 0 <=? e then Z.pos m * 2 ^ e ?= n else Z.pos m ?= n * 2 ^ (- e)).
Proof.
  intros Hb Hm2 He2 Hn.
  destruct (binary32_bounds m e Hb) as (Hm & He & Hnorm).
  assert (Hn0 : 0 < n).
  { assert (0 < 2 ^ (- e2)) by (apply Z.pow_pos_nonneg; lia). nia. }
  assert (Hn23 : 2 * n <= Z.pos m2).
  { rewrite <- Hn. replace (- e2) with (Z.succ (- e2 - 1)) by lia.
    rewrite Z.pow_succ_r by lia.
    assert (1 <= 2 ^ (- e2 - 1)) by (apply (Z.pow_le_mono_r 2 0); lia). nia. }
  destruct (Z.compare_spec e e2) as [E|E|E].
  - subst e. destruct (Z.leb_spec 0 e2) as [L|L]; [lia|].
    rewrite Hn. apply compare_cont_Eq.
  - destruct (Z.leb_spec 0 e) as [L|L]; [lia|].
    symmetry. apply Z.compare_lt_iff.
    replace (- e) with (Z.succ (- e2 + (e2 - e - 1))) by lia.
    rewrite Z.pow_succ_r, Z.pow_add_r by lia.
    assert (1 <= 2 ^ (e2 - e - 1)) by (apply (Z.pow_le_mono_r 2 0); lia).
    nia.
  - assert (Hmn : 2 ^ 23 <= Z.pos m) by (apply Hnorm; lia).
    destruct (Z.leb_spec 0 e) as [L|L].
    + symmetry. apply Z.compare_gt_iff.
      assert (1 <= 2 ^ e) by (apply (Z.pow_le_mono_r 2 0); lia). nia.
    + symmetry. apply Z.compare_gt_iff.
      assert (Hs : n * 2 ^ (- e) * 2 ^ (e - e2) = Z.pos m2).
      { rewrite <- Z.mul_assoc, <- Z.pow_add_r by lia.
        replace (- e + (e - e2)) with (- e2) by lia. exact Hn. }
      assert (2 <= 2 ^ (e - e2)) by (apply (Z.pow_le_mono_r 2 1); lia).
      assert (0 < n * 2 ^ (- e)).
      { assert (0 < 2 ^ (- e)) by (apply Z.pow_pos_nonneg; lia). nia. }
      nia.
Qed.

(** The comparison of binary32 against a normal value that is an integer
    is the comparison of the numbers. *)
Lemma SFcompare_exact x (s2 : bool) m2 e2 (n : Z) :
  is_binary32 x ->
  2 ^ 23 <= Z.pos m2 < 2 ^ 24 -> -149 < e2 < 0 ->
  (if s2 then - n else n) * 2 ^ (- e2) = Z.pos m2 ->
  SFcompare x (S754_finite s2 m2 e2) = compare_exact x n.
Proof.
  intros Hx Hm2 He2 Hn.
  assert (Hp : 0 < 2 ^ (- e2)) by (apply Z.pow_pos_nonneg; lia).
  assert (Hs : 0 < (if s2 then - n else n)) by nia.
  destruct x as [s|s| |s m e]; cbn [SFcompare compare_exact].
  - f_equal. destruct s2; symmetry.
    + apply Z.compare_gt_iff. lia.
    + apply Z.compare_lt_iff. lia.
  - destruct s2; reflexivity.
  - reflexivity.
  - f_equal. unfold is_binary32 in Hx. cbn [valid_binary] in Hx.
    destruct s, s2.
    + (* both negative *)
      pose proof (compare_positive m e m2 e2 (- n) Hx Hm2 He2 Hn) as C.
      destruct (Z.leb_spec 0 e) as [L|L].
      * replace (Z.neg m * 2 ^ e ?= n) with (CompOpp (Z.pos m * 2 ^ e ?= - n)).
        { rewrite <- C. destruct (e ?= e2); reflexivity. }
        rewrite <- Z.compare_antisym, <- (Z.compare_opp (Z.pos m * 2 ^ e) (- n)).
        f_equal; lia.
      * replace (Z.neg m ?= n * 2 ^ (- e)) with (CompOpp (Z.pos m ?= - n * 2 ^ (- e))).
        { rewrite <- C. destruct (e ?= e2); reflexivity. }
        rewrite <- Z.compare_antisym, <- (Z.compare_opp (Z.pos m) (- n * 2 ^ (- e))).
        f_equal; lia.
    + (* negative against positive *)
      symmetry. destruct (Z.leb_spec 0 e) as [L|L]; apply Z.compare_lt_iff.
      * assert (0 < 2 ^ e) by (apply Z.pow_pos_nonneg; lia).
        assert (Z.neg m < 0) by lia. nia.
      * assert (0 < 2 ^ (- e)) by (apply Z.pow_pos_nonneg; lia).
        assert (Z.neg m < 0) by lia. nia.
    + (* positive against negative *)
      symmetry. destruct (Z.leb_spec 0 e) as [L|L]; apply Z.compare_gt_iff.
      * assert (0 < 2 ^ e) by (apply Z.pow_pos_nonneg; lia).
        assert (0 < Z.pos m) by lia. nia.
      * assert (0 < 2 ^ (- e)) by (apply Z.pow_pos_nonneg; lia).
        assert (0 < Z.pos m) by lia. nia.
    + exact (compare_positive m e m2 e2 n Hx Hm2 He2 Hn).
Qed.

Lemma SFcompare_antisym x y : SFcompare y x = option_map CompOpp (SFcompare x y).
Proof.
  destruct x as [s|s| |s m e], y as [s'|s'| |s' m' e']; cbn [SFcompare option_map];
    try reflexivity; try (destruct s; reflexivity); try (destruct s'; reflexivity);
    try (destruct s, s'; reflexivity).
  destruct s, s'; try reflexivity; f_equal;
    rewrite (Z.compare_antisym e e'); destruct (e ?= e') eqn:E; cbn [CompOpp];
      try reflexivity;
      rewrite (Pos.compare_cont_antisym m m' Eq); cbn [CompOpp];
      destruct (Pos.compare_cont Eq m m'); reflexivity.
Qed.

(** The wall test of the program is the comparison of the numbers. *)
Lemma walls_exact lo hi x :
  (lo, hi) = (-10, 10) \/ (lo, hi) = (-25, -5) ->
  is_binary32 x ->
  (F32.ltb x (F32.of_Z lo) = true <-> below x lo) /\
  (F32.gtb x (F32.of_Z hi) = true <-> above x hi).
Proof.
  intros Hw Hx.
  assert (E : SFcompare x (F32.of_Z lo) = compare_exact x lo /\
              SFcompare x (F32.of_Z hi) = compare_exact x hi).
  { destruct Hw as [Hw|Hw]; injection Hw as -> ->; split;
      match goal with |- SFcompare x (F32.of_Z ?n) = _ =>
        let y := eval vm_compute in (F32.of_Z n) in change (F32.of_Z n) with y end;
      apply SFcompare_exact; try exact Hx; try (vm_compute; intuition congruence);
      reflexivity. }
  destruct E as [El Eh].
  unfold F32.ltb, F32.gtb, SFltb, below, above.
  rewrite (SFcompare_antisym x (F32.of_Z hi)), El, Eh.
  split.
  - destruct (compare_exact x lo) as [[| |]|]; split; intros H; try discriminate;
      reflexivity.
  - destruct (compare_exact x hi) as [[| |]|]; cbn [option_map CompOpp]; split;
      intros H; try discriminate; reflexivity.
Qed.

End ExactFacts.

(* ===================================================================== *)
(** ** The particle loop *)

Section ParticleFacts.

Context {glm : GLM} {platform : Platform}.

Lemma integrate_col3 p :
  col3 (transform (integrate p)) =
  vec4_add (col3 (transform p))
    (mkVec4 (v3x (velocity p)) (v3y (velocity p)) (v3z (velocity p)) (F32.of_Z 0)).
Proof. unfold integrate. cbn [transform set_transform]. now rewrite glm_rotate_col3. Qed.

Lemma integrate_model p : model (integrate p) = model p.
Proof. reflexivity. Qed.

Lemma integrate_velocity p : velocity (integrate p) = velocity p.
Proof. reflexivity. Qed.

Ltac split_ifs :=
  repeat match goal with |- context [if ?b then _ else _] => destruct b end.

Lemma check_walls_transform p : transform (check_walls p) = transform p.
Proof. unfold check_walls. split_ifs; reflexivity. Qed.

Lemma check_walls_model p : model (check_walls p) = model p.
Proof. unfold check_walls. split_ifs; reflexivity. Qed.

Lemma check_walls_velocity p :
  let pos := col3 (transform p) in
  velocity (check_walls p) =
  mkVec3 (reflected (-10) 10 (v4x pos) (v3x (velocity p)))
         (reflected (-10) 10 (v4y pos) (v3y (velocity p)))
         (reflected (-25) (-5) (v4z pos) (v3z (velocity p))).
Proof.
  unfold check_walls, reflected. cbn zeta.
  destruct (outside (-10) 10 (v4x (col3 (transform p))));
    destruct (outside (-10) 10 (v4y (col3 (transform p))));
    destruct (outside (-25) (-5) (v4z (col3 (transform p))));
    destruct p as [m t [vx vy vz] r]; reflexivity.
Qed.

(** [convert] touches neither the transform nor the velocity. *)
Lemma convert_motion s p rt c :
  transform (snd (value (convert s p rt c))) = transform p /\
  velocity (snd (value (convert s p rt c))) = velocity p.
Proof. unfold convert. split_ifs; split; reflexivity. Qed.

Lemma update_particle_stepped s p rt c :
  stepped p (snd (value (update_particle s p rt c))).
Proof.
  unfold update_particle, stepped. cbn zeta.
  destruct (convert_motion s (check_walls (integrate p)) rt c) as [Ht Hv].
  rewrite Ht, Hv, check_walls_transform, check_walls_velocity. cbn zeta.
  rewrite integrate_col3, integrate_velocity. split; reflexivity.
Qed.

Lemma particle_loop_stepped ps : forall s rt c,
  Forall2 stepped ps (snd (value (particle_loop s ps rt c))).
Proof.
  induction ps as [|p ps IH]; intros s rt c.
  - constructor.
  - cbn [particle_loop]. unfold bind at 1. cbn [value snd].
    unfold bind at 1. cbn [value snd ret].
    constructor; [apply update_particle_stepped | apply IH].
Qed.

Lemma reflected_bounces lo hi x v :
  (lo, hi) = (-10, 10) \/ (lo, hi) = (-25, -5) ->
  is_binary32 x -> bounces lo hi x v (reflected lo hi x v).
Proof.
  intros Hw Hx. destruct (walls_exact lo hi x Hw Hx) as [Hl Hh].
  unfold bounces, reflected, outside, flip.
  destruct (F32.ltb x (F32.of_Z lo)) eqn:El;
    destruct (F32.gtb x (F32.of_Z hi)) eqn:Eh; cbn [orb]; split; intros; try reflexivity.
  - exfalso. apply H. apply Hl. reflexivity.
  - exfalso. apply H. apply Hl. reflexivity.
  - exfalso. apply H0. apply Hh. reflexivity.
  - destruct H as [H|H].
    + apply Hl in H. discriminate.
    + apply Hh in H. discriminate.
Qed.

Lemma stepped_advanced p q : stepped p q -> advanced p q.
Proof.
  unfold stepped, advanced. cbn zeta. intros [Ht Hv]. rewrite Ht, Hv.
  cbn [v4x v4y v4z v3x v3y v3z vec4_add].
  split; [reflexivity|]. split; [reflexivity|]. split; [reflexivity|].
  split; [|split]; intros Hx; apply reflected_bounces; auto.
Qed.

Lemma reflected_on_wall lo hi x v :
  F32.ltb x (F32.of_Z lo) = false -> F32.gtb x (F32.of_Z hi) = false ->
  reflected lo hi x v = v.
Proof. unfold reflected, outside. intros -> ->. reflexivity. Qed.

(** C6.  In one step every particle of the scene is first moved by its
    velocity, coordinate by coordinate in binary32 arithmetic, and then
    has each velocity component multiplied by -1, on its own, exactly when
    the number the moved coordinate stands for is below the lower wall or
    above the upper wall of its axis: -10 and 10 for x and y, -25 and -5
    for z.  The room is closed: the binary32 values of the four walls are
    these integers, and a coordinate exactly on a wall reflects nothing.
    A particle at x = 10.5 with velocity.x = 0.02 is moved beyond 10 and
    leaves the step with velocity.x = -0.02. *)
Theorem C6_move_then_reflect :
  (forall s rt c,
      Forall2 advanced (particles s) (particles (value (update_particles s rt c)))) /\
  (compare_exact (F32.of_Z (-10)) (-10) = Some Eq /\
   compare_exact (F32.of_Z 10) 10 = Some Eq /\
   compare_exact (F32.of_Z (-25)) (-25) = Some Eq /\
   compare_exact (F32.of_Z (-5)) (-5) = Some Eq) /\
  (forall s p rt c,
      let q := snd (value (update_particle s p rt c)) in
      let t' := col3 (transform q) in
      (v4x t' = F32.of_Z (-10) \/ v4x t' = F32.of_Z 10 ->
       v3x (velocity q) = v3x (velocity p)) /\
      (v4y t' = F32.of_Z (-10) \/ v4y t' = F32.of_Z 10 ->
       v3y (velocity q) = v3y (velocity p)) /\
      (v4z t' = F32.of_Z (-25) \/ v4z t' = F32.of_Z (-5) ->
       v3z (velocity q) = v3z (velocity p))) /\
  (forall s p rt c,
      v4x (col3 (transform p)) = F32.lit 105 10 ->
      v3x (velocity p) = F32.lit 2 100 ->
      let q := snd (value (update_particle s p rt c)) in
      above (v4x (col3 (transform q))) 10 /\
      v3x (velocity q) = F32.neg (F32.lit 2 100)).
Proof.
  split; [|split; [|split]].
  - intros s rt c. unfold update_particles, bind. cbn [value ret particles set_particles].
    eapply Forall2_impl; [|apply particle_loop_stepped].
    intros p q. apply stepped_advanced.
  - split; [|split; [|split]]; vm_compute; reflexivity.
  - intros s p rt c. cbn zeta.
    destruct (update_particle_stepped s p rt c) as [Ht Hv]. cbv zeta in Ht, Hv.
    rewrite Hv, Ht. cbn [v3x v3y v3z].
    split; [|split]; intros [H|H]; rewrite H; apply reflected_on_wall;
      vm_compute; reflexivity.
  - intros s p rt c Hx Hv. cbn zeta.
    destruct (update_particle_stepped s p rt c) as [Ht Hvel].
    rewrite Ht, Hvel. cbn [v3x v4x vec4_add]. rewrite Hx, Hv.
    split; vm_compute; reflexivity.
Qed.

End ParticleFacts.

(* ===================================================================== *)
(** ** Conversion *)

Section ConversionFacts.

Context {glm : GLM} {platform : Platform}.

Lemma Model_eqb_eq a b : Model_eqb a b = true <-> a = b.
Proof. destruct a, b; simpl; split; intro H; congruence. Qed.

Lemma Model_eqb_refl m : Model_eqb m m = true.
Proof. destruct m; reflexivity. Qed.

Lemma Model_eqb_neq a b : a <> b -> Model_eqb a b = false.
Proof. destruct a, b; simpl; congruence. Qed.

Lemma convert_hit s p rt c :
  model p = co2 -> model (leftLaser s) = redLaser -> model (rightLaser s) = redLaser ->
  laser_hits (leftLaser s) p = true -> laser_hits (rightLaser s) p = true ->
  convert s p rt c =
  mkOut (set_co2Count (set_vibTimer s (rt_clock rt c)) (wrap_int (co2Count s - 1)),
         set_model p o2)
        (S c)
        [ovr_SetControllerVibration ovrControllerType_LTouch (F32.of_Z 0) (F32.of_Z 1);
         ovr_SetControllerVibration ovrControllerType_RTouch (F32.of_Z 0) (F32.of_Z 1)].
Proof.
  intros Hp Hl Hr Hhl Hhr. unfold convert.
  rewrite Hp, Hl, Hr, Hhl, Hhr. reflexivity.
Qed.

Lemma convert_miss s p rt c :
  Model_eqb (model p) co2 && Model_eqb (model (leftLaser s)) redLaser
    && Model_eqb (model (rightLaser s)) redLaser
    && (laser_hits (leftLaser s) p && laser_hits (rightLaser s) p) = false ->
  convert s p rt c = mkOut (s, p) c [].
Proof.
  unfold convert. intros H.
  destruct (Model_eqb (model p) co2 && Model_eqb (model (leftLaser s)) redLaser
            && Model_eqb (model (rightLaser s)) redLaser); [|reflexivity].
  cbn [andb] in H. rewrite H. reflexivity.
Qed.

Lemma convert_model s p rt c :
  model (snd (value (convert s p rt c))) = if converts s p then o2 else model p.
Proof.
  unfold convert, converts.
  destruct (Model_eqb (model p) co2 && Model_eqb (model (leftLaser s)) redLaser
            && Model_eqb (model (rightLaser s)) redLaser); [|reflexivity].
  destruct (laser_hits (leftLaser s) p && laser_hits (rightLaser s) p); reflexivity.
Qed.

(** C5.  A CO2 particle that, at its position of this step, is within 0.3
    of both laser lines while both lasers show the red model is converted in
    this step: its model becomes O2, the counter goes down by one and both
    controllers are told to vibrate.  Nothing else converts a particle: a
    conversion needs both red lasers and both hits.  A particle that is
    already O2 is only moved; the scene is left as it is and nothing is sent
    to the controllers, whatever the lasers hit. *)
Theorem C5_two_handed_conversion :
  (forall s p rt c,
      model p = co2 ->
      model (leftLaser s) = redLaser -> model (rightLaser s) = redLaser ->
      laser_hits (leftLaser s) (check_walls (integrate p)) = true ->
      laser_hits (rightLaser s) (check_walls (integrate p)) = true ->
      int_min < co2Count s <= int_max ->
      let r := update_particle s p rt c in
      model (snd (value r)) = o2 /\
      co2Count (fst (value r)) = co2Count s - 1 /\
      events r =
        [ovr_SetControllerVibration ovrControllerType_LTouch (F32.of_Z 0) (F32.of_Z 1);
         ovr_SetControllerVibration ovrControllerType_RTouch (F32.of_Z 0) (F32.of_Z 1)]) /\
  (forall s p rt c,
      model p = co2 ->
      model (snd (value (update_particle s p rt c))) = o2 ->
      model (leftLaser s) = redLaser /\ model (rightLaser s) = redLaser /\
      laser_hits (leftLaser s) (check_walls (integrate p)) = true /\
      laser_hits (rightLaser s) (check_walls (integrate p)) = true) /\
  (forall s p rt c,
      model p = o2 ->
      update_particle s p rt c = mkOut (s, check_walls (integrate p)) c [] /\
      model (check_walls (integrate p)) = o2).
Proof.
  split; [|split].
  - intros s p rt c Hp Hl Hr Hhl Hhr Hrange r. subst r. unfold update_particle.
    rewrite convert_hit; auto.
    + cbn [value events fst snd model set_model co2Count set_co2Count].
      repeat split. apply wrap_int_id. unfold in_int. lia.
    + now rewrite check_walls_model, integrate_model.
  - intros s p rt c Hp. unfold update_particle. rewrite convert_model.
    rewrite check_walls_model, integrate_model, Hp.
    destruct (converts s (check_walls (integrate p))) eqn:E; [|discriminate].
    intros _. unfold converts in E.
    apply andb_prop in E. destruct E as [E Hh].
    apply andb_prop in Hh. destruct Hh as [Hhl Hhr].
    apply andb_prop in E. destruct E as [E Hr].
    apply andb_prop in E. destruct E as [_ Hl].
    repeat split; try apply Model_eqb_eq; assumption.
  - intros s p rt c Hp. split.
    + unfold update_particle. apply convert_miss.
      rewrite check_walls_model, integrate_model, Hp. reflexivity.
    + now rewrite check_walls_model, integrate_model.
Qed.

End ConversionFacts.

(* ===================================================================== *)
(** ** The counter and the CO2 particles *)

Section CounterFacts.

Context {glm : GLM} {platform : Platform}.

Lemma count_co2_cons p ps :
  count_co2 (p :: ps) = (if Model_eqb (model p) co2 then 1 else 0) + count_co2 ps.
Proof.
  unfold count_co2. cbn [filter].
  destruct (Model_eqb (model p) co2); cbn [List.length]; lia.
Qed.

Lemma count_co2_app ps qs : count_co2 (ps ++ qs) = count_co2 ps + count_co2 qs.
Proof.
  induction ps as [|p ps IH]; [reflexivity|].
  cbn [app]. rewrite !count_co2_cons, IH. lia.
Qed.

Lemma count_co2_nonneg ps : 0 <= count_co2 ps.
Proof. unfold count_co2. lia. Qed.

Lemma count_co2_nil : count_co2 [] = 0.
Proof. reflexivity. Qed.

(** The two ways through the body of the loop. *)
Lemma update_particle_cases s p rt c :
  let q := check_walls (integrate p) in
  (converts s q = true /\ model p = co2 /\
   update_particle s p rt c =
     mkOut (set_co2Count (set_vibTimer s (rt_clock rt c)) (wrap_int (co2Count s - 1)),
            set_model q o2)
           (S c)
           [ovr_SetControllerVibration ovrControllerType_LTouch (F32.of_Z 0) (F32.of_Z 1);
            ovr_SetControllerVibration ovrControllerType_RTouch (F32.of_Z 0) (F32.of_Z 1)])
  \/
  (converts s q = false /\ model q = model p /\
   update_particle s p rt c = mkOut (s, q) c []).
Proof.
  cbn zeta. destruct (converts s (check_walls (integrate p))) eqn:E.
  - left. unfold converts in E.
    apply andb_prop in E. destruct E as [E Hh].
    apply andb_prop in Hh. destruct Hh as [Hhl Hhr].
    apply andb_prop in E. destruct E as [E Hr].
    apply andb_prop in E. destruct E as [Hp Hl].
    apply Model_eqb_eq in Hp, Hl, Hr.
    split; [reflexivity|]. split.
    + now rewrite check_walls_model, integrate_model in Hp.
    + unfold update_particle. now apply convert_hit.
  - right. split; [reflexivity|]. split.
    + now rewrite check_walls_model, integrate_model.
    + unfold update_particle. now apply convert_miss.
Qed.

Lemma particle_loop_cons s p rest rt c :
  particle_loop s (p :: rest) rt c =
  let o := update_particle s p rt c in
  let o' := particle_loop (fst (value o)) rest rt (cursor o) in
  mkOut (fst (value o'), snd (value o) :: snd (value o')) (cursor o')
        (events o ++ events o').
Proof.
  cbn [particle_loop]. unfold bind, ret. cbn [value cursor events].
  now rewrite app_nil_r.
Qed.

(** The loop changes the scene in [vibTimer] and [co2Count] only. *)
Lemma particle_loop_frame ps : forall s rt c,
  exists vt n,
    fst (value (particle_loop s ps rt c)) = set_co2Count (set_vibTimer s vt) n.
Proof.
  induction ps as [|p rest IH]; intros s rt c.
  - exists (vibTimer s), (co2Count s). destruct s; reflexivity.
  - rewrite particle_loop_cons. cbn zeta. cbn [value fst].
    destruct (update_particle_cases s p rt c) as [(_ & _ & E) | (_ & _ & E)];
      rewrite E; cbn [value cursor fst].
    + destruct (IH (set_co2Count (set_vibTimer s (rt_clock rt c))
                      (wrap_int (co2Count s - 1))) rt (S c)) as (vt & n & E').
      rewrite E'. exists vt, n. reflexivity.
    + apply IH.
Qed.

Lemma converts_frame s vt n p :
  converts (set_co2Count (set_vibTimer s vt) n) p = converts s p.
Proof. reflexivity. Qed.

(** Each conversion takes one from the counter and one from the CO2
    particles; nothing else in the loop changes either. *)
Lemma particle_loop_count ps : forall s rt c,
  count_co2 ps <= co2Count s <= int_max ->
  let r := value (particle_loop s ps rt c) in
  co2Count (fst r) - count_co2 (snd r) = co2Count s - count_co2 ps /\
  0 <= count_co2 (snd r) <= count_co2 ps.
Proof.
  induction ps as [|p rest IH]; intros s rt c H; cbn zeta.
  - cbn [particle_loop ret value fst snd]. rewrite count_co2_nil. lia.
  - rewrite particle_loop_cons. cbn zeta. cbn [value fst snd].
    rewrite (count_co2_cons p rest) in H |- *.
    pose proof (count_co2_nonneg rest) as Hn.
    destruct (update_particle_cases s p rt c) as [(_ & Hp & E) | (_ & Hq & E)];
      rewrite E; cbn [value cursor fst snd].
    + rewrite Hp in H |- *. cbn [Model_eqb] in H |- *.
      rewrite count_co2_cons. cbn [model set_model Model_eqb].
      assert (Hw : wrap_int (co2Count s - 1) = co2Count s - 1).
      { apply wrap_int_id. unfold in_int, int_min, int_max in *. lia. }
      specialize (IH (set_co2Count (set_vibTimer s (rt_clock rt c))
                        (wrap_int (co2Count s - 1))) rt (S c)).
      cbn [co2Count set_co2Count] in IH. rewrite Hw in IH.
      assert (Hb : count_co2 rest <= co2Count s - 1 <= int_max) by lia.
      specialize (IH Hb). cbn zeta in IH. rewrite Hw. lia.
    + rewrite count_co2_cons, Hq.
      assert (Hb : count_co2 rest <= co2Count s <= int_max)
        by (destruct (Model_eqb (model p) co2); lia).
      specialize (IH s rt c Hb).
      cbn zeta in IH. destruct (Model_eqb (model p) co2); lia.
Qed.

(** No CO2 particle, no conversion: the loop leaves the scene as it is. *)
Lemma particle_loop_no_co2 ps : forall s rt c,
  count_co2 ps = 0 ->
  fst (value (particle_loop s ps rt c)) = s /\
  cursor (particle_loop s ps rt c) = c /\
  events (particle_loop s ps rt c) = [] /\
  count_co2 (snd (value (particle_loop s ps rt c))) = 0.
Proof.
  induction ps as [|p rest IH]; intros s rt c H.
  - cbn [particle_loop ret value fst snd cursor events]. auto.
  - rewrite particle_loop_cons. cbn zeta. cbn [value fst snd cursor events].
    rewrite count_co2_cons in H. pose proof (count_co2_nonneg rest) as Hn.
    destruct (update_particle_cases s p rt c) as [(_ & Hp & E) | (_ & Hq & E)].
    + rewrite Hp in H. cbn [Model_eqb] in H. lia.
    + rewrite E. cbn [value cursor fst snd events].
      assert (Hr : count_co2 rest = 0) by (destruct (Model_eqb (model p) co2); lia).
      destruct (IH s rt c Hr) as (E1 & E2 & E3 & E4).
      rewrite E1, E2, E3, count_co2_cons, Hq, E4. repeat split.
      destruct (Model_eqb (model p) co2); lia.
Qed.

End CounterFacts.

(* ===================================================================== *)
(** ** The blocks after the loop *)

Section BlockFacts.

Context {glm : GLM} {platform : Platform}.

Lemma bind_eq {A B : Type} (m : M A) (f : A -> M B) rt c :
  bind m f rt c =
  mkOut (value (f (value (m rt c)) rt (cursor (m rt c))))
        (cursor (f (value (m rt c)) rt (cursor (m rt c))))
        (events (m rt c) ++ events (f (value (m rt c)) rt (cursor (m rt c)))).
Proof. reflexivity. Qed.

Lemma new_chimney_particle_co2 rt c :
  model (value (new_chimney_particle rt c)) = co2 /\
  events (new_chimney_particle rt c) = [].
Proof. split; reflexivity. Qed.

Lemma new_scattered_particle_co2 rt c :
  model (value (new_scattered_particle rt c)) = co2 /\
  events (new_scattered_particle rt c) = [].
Proof. split; reflexivity. Qed.

(** [n] pushes of CO2 particles. *)
Lemma push_new_co2 (mk : M Particle) :
  (forall rt c, model (value (mk rt c)) = co2 /\ events (mk rt c) = []) ->
  forall n ps rt c,
    exists new,
      value (push_new mk n ps rt c) = ps ++ new /\
      List.length new = n /\
      count_co2 new = Z.of_nat n /\
      events (push_new mk n ps rt c) = [].
Proof.
  intros Hmk n. induction n as [|n IH]; intros ps rt c.
  - exists []. cbn [push_new ret value events]. rewrite app_nil_r. auto.
  - cbn [push_new]. rewrite bind_eq. cbn [value events].
    destruct (Hmk rt c) as [Hm He].
    destruct (IH (ps ++ [value (mk rt c)]) rt (cursor (mk rt c)))
      as (new & E1 & E2 & E3 & E4).
    exists (value (mk rt c) :: new).
    rewrite E1, E4, He, <- app_assoc. cbn [app List.length].
    repeat split; try congruence.
    rewrite count_co2_cons, Hm, E3. cbn [Model_eqb]. lia.
Qed.

Lemma second_passed_iff now t :
  second_passed now t = (CLOCKS_PER_SEC <=? wrap_int (now - t)).
Proof.
  unfold second_passed. pose proof CLOCKS_PER_SEC_pos as Hpos.
  set (d := wrap_int (now - t)).
  destruct (Z.leb_spec CLOCKS_PER_SEC d) as [H | H].
  - apply Z.leb_le. destruct (Z.le_gt_cases 0 d) as [Hd | Hd]; [|lia].
    rewrite Z.quot_div_nonneg by lia.
    apply Z.div_le_lower_bound; lia.
  - apply Z.leb_gt. destruct (Z.le_gt_cases 0 d) as [Hd | Hd].
    + rewrite Z.quot_div_nonneg by lia.
      rewrite Z.div_small; lia.
    + assert (Hne : CLOCKS_PER_SEC <> 0) by lia.
      pose proof (Z.quot_opp_l d CLOCKS_PER_SEC Hne) as Ho.
      assert (0 <= Z.quot (- d) CLOCKS_PER_SEC) by (apply Z.quot_pos; lia).
      lia.
Qed.

(** The spawn block, the game not won. *)
Lemma spawn_playing s rt c :
  win s = false ->
  let now := rt_clock rt c in
  (second_passed now (timer s) = true ->
     value (spawn s rt c) =
       set_timer
         (set_co2Count
            (set_particles s
               (particles s ++ [value (new_chimney_particle rt (S c))]))
            (wrap_int (co2Count s + 1)))
         now /\
     events (spawn s rt c) = []) /\
  (second_passed now (timer s) = false ->
     value (spawn s rt c) = s /\ events (spawn s rt c) = []).
Proof.
  intros Hw. cbn zeta. unfold spawn. rewrite Hw. cbn [negb].
  rewrite !bind_eq. cbn beta. cbn [std_clock query value cursor events app].
  split; intros H; rewrite H.
  - split; reflexivity.
  - split; reflexivity.
Qed.

Lemma spawn_won s rt c :
  win s = true -> spawn s rt c = mkOut s c [].
Proof. intros H. unfold spawn. rewrite H. reflexivity. Qed.

Lemma loss_case_fires s rt c :
  10 < co2Count s -> lose s = false ->
  exists new,
    value (loss_case s rt c) = set_lose (set_particles s (particles s ++ new)) true /\
    List.length new = 100%nat /\ count_co2 new = 100 /\
    events (loss_case s rt c) = [].
Proof.
  intros H1 H2. unfold loss_case.
  apply Z.ltb_lt in H1. rewrite H1, H2. cbn [negb andb].
  destruct (push_new_co2 new_scattered_particle new_scattered_particle_co2
              100 (particles s) rt c) as (new & E1 & E2 & E3 & E4).
  exists new. unfold bind. cbn [value events ret]. rewrite E1, E4. auto.
Qed.

Lemma loss_case_idle s rt c :
  (10 <? co2Count s) && negb (lose s) = false ->
  loss_case s rt c = mkOut s c [].
Proof. intros H. unfold loss_case. rewrite H. reflexivity. Qed.

Lemma win_case_fires s rt c :
  co2Count s = 0 -> lose s = false ->
  win_case s rt c = mkOut (set_win s true) c [win_colour].
Proof.
  intros H1 H2. unfold win_case. rewrite H1, H2. reflexivity.
Qed.

Lemma win_case_idle s rt c :
  (co2Count s =? 0) && negb (lose s) = false ->
  win_case s rt c = mkOut s c [].
Proof. intros H. unfold win_case. rewrite H. reflexivity. Qed.

Lemma game_reset_fires s rt c :
  win s || lose s = true -> Buttons (inputstate s) <> 0 ->
  exists new,
    value (game_reset s rt c) =
      set_co2Count (set_particles (set_lose (set_win s false) false) new) 5 /\
    List.length new = 5%nat /\ count_co2 new = 5 /\
    events (game_reset s rt c) = [play_colour].
Proof.
  intros H1 H2. unfold game_reset.
  apply Z.eqb_neq in H2. rewrite H1, H2. cbn [negb andb].
  destruct (push_new_co2 new_chimney_particle new_chimney_particle_co2
              5 [] rt c) as (new & E1 & E2 & E3 & E4).
  exists new. unfold bind. cbn [value events ret particles set_particles].
  cbn [app] in E1. rewrite E1, E4. auto.
Qed.

Lemma game_reset_idle s rt c :
  (win s || lose s) && negb (Buttons (inputstate s) =? 0) = false ->
  game_reset s rt c = mkOut s c [].
Proof. intros H. unfold game_reset. rewrite H. reflexivity. Qed.

End BlockFacts.


(* ===================================================================== *)
(** ** The counter invariant *)

Section InvariantFacts.

Context {glm : GLM} {platform : Platform}.

Lemma value_bind {A B : Type} (m : M A) (f : A -> M B) rt c :
  value (bind m f rt c) = value (f (value (m rt c)) rt (cursor (m rt c))).
Proof. reflexivity. Qed.

Lemma cursor_bind {A B : Type} (m : M A) (f : A -> M B) rt c :
  cursor (bind m f rt c) = cursor (f (value (m rt c)) rt (cursor (m rt c))).
Proof. reflexivity. Qed.

Lemma events_bind {A B : Type} (m : M A) (f : A -> M B) rt c :
  events (bind m f rt c) =
  events (m rt c) ++ events (f (value (m rt c)) rt (cursor (m rt c))).
Proof. reflexivity. Qed.

(** The scene, the cursor and the trace of one [update], block by block. *)
Lemma update_value s rt c :
  value (update s rt c) =
  let c0 := cursor (haptic_check s rt c) in
  let o1 := update_particles s rt c0 in
  let o2 := spawn (update_lasers (value o1)) rt (cursor o1) in
  let o3 := loss_case (value o2) rt (cursor o2) in
  let o4 := win_case (value o3) rt (cursor o3) in
  value (game_reset (value o4) rt (cursor o4)).
Proof.
  unfold update. repeat (rewrite value_bind; cbn beta). reflexivity.
Qed.

Lemma update_events s rt c :
  events (update s rt c) =
  let o0 := haptic_check s rt c in
  let o1 := update_particles s rt (cursor o0) in
  let o2 := spawn (update_lasers (value o1)) rt (cursor o1) in
  let o3 := loss_case (value o2) rt (cursor o2) in
  let o4 := win_case (value o3) rt (cursor o3) in
  let o5 := game_reset (value o4) rt (cursor o4) in
  events o0 ++ events o1 ++ events o2 ++ events o3 ++ events o4 ++ events o5.
Proof.
  unfold update. repeat (rewrite events_bind; cbn beta). reflexivity.
Qed.

Lemma update_particles_eq s rt c :
  update_particles s rt c =
  let o := particle_loop s (particles s) rt c in
  mkOut (set_particles (fst (value o)) (snd (value o))) (cursor o) (events o).
Proof.
  unfold update_particles. rewrite bind_eq. cbn [ret value cursor events].
  now rewrite app_nil_r.
Qed.

(** What the loop leaves alone. *)
Lemma update_particles_frame s rt c :
  let s' := value (update_particles s rt c) in
  lose s' = lose s /\ win s' = win s /\ timer s' = timer s /\
  inputstate s' = inputstate s /\ leftLaser s' = leftLaser s /\
  rightLaser s' = rightLaser s /\ fingerTriggerPressed s' = fingerTriggerPressed s.
Proof.
  cbn zeta. rewrite update_particles_eq. cbn zeta. cbn [value].
  destruct (particle_loop_frame (particles s) s rt c) as (vt & n & E).
  rewrite E. repeat split; reflexivity.
Qed.

Lemma update_particles_counted s rt c :
  counted 10 s -> counted 10 (value (update_particles s rt c)).
Proof.
  intros H Hl.
  destruct (update_particles_frame s rt c) as (El & _).
  rewrite El in Hl. destruct (H Hl) as [Hc Hb].
  rewrite update_particles_eq. cbn zeta. cbn [value co2Count particles set_particles].
  assert (Hr : count_co2 (particles s) <= co2Count s <= int_max)
    by (unfold int_max; lia).
  pose proof (particle_loop_count (particles s) s rt c Hr) as Hcount.
  cbn zeta in Hcount. lia.
Qed.

Lemma spawn_frame s rt c :
  lose (value (spawn s rt c)) = lose s /\ win (value (spawn s rt c)) = win s /\
  inputstate (value (spawn s rt c)) = inputstate s.
Proof.
  destruct (win s) eqn:Hw.
  - rewrite (spawn_won s rt c Hw). cbn [value]. auto.
  - destruct (spawn_playing s rt c Hw) as [Hy Hn].
    destruct (second_passed (rt_clock rt c) (timer s)) eqn:E.
    + destruct (Hy eq_refl) as [-> _]. cbn. auto.
    + destruct (Hn eq_refl) as [-> _]. auto.
Qed.

Lemma spawn_counted s rt c :
  counted 10 s -> counted 11 (value (spawn s rt c)).
Proof.
  intros H Hl. destruct (spawn_frame s rt c) as (El & _).
  rewrite El in Hl. destruct (H Hl) as [Hc Hb].
  pose proof (count_co2_nonneg (particles s)) as Hn.
  destruct (win s) eqn:Hw.
  - rewrite (spawn_won s rt c Hw). cbn [value]. lia.
  - destruct (spawn_playing s rt c Hw) as [Hy Hno].
    destruct (second_passed (rt_clock rt c) (timer s)) eqn:E.
    + destruct (Hy eq_refl) as [-> _].
      cbn [co2Count particles set_timer set_co2Count set_particles].
      rewrite count_co2_app, count_co2_cons, count_co2_nil.
      destruct (new_chimney_particle_co2 rt (S c)) as [-> _]. cbn [Model_eqb].
      rewrite wrap_int_id by (unfold in_int, int_min, int_max; lia). lia.
    + destruct (Hno eq_refl) as [-> _]. lia.
Qed.

Lemma loss_case_counted s rt c :
  counted 11 s -> counted 10 (value (loss_case s rt c)).
Proof.
  intros H Hl.
  destruct ((10 <? co2Count s) && negb (lose s)) eqn:E.
  - apply andb_prop in E. destruct E as [E1 E2].
    apply Z.ltb_lt in E1. apply negb_true_iff in E2.
    destruct (loss_case_fires s rt c E1 E2) as (new & Ev & _).
    rewrite Ev in Hl. discriminate Hl.
  - rewrite (loss_case_idle s rt c E) in Hl |- *. cbn [value] in Hl |- *.
    destruct (H Hl) as [Hc _]. split; [exact Hc|].
    rewrite Hl in E. cbn [negb] in E. rewrite andb_true_r in E.
    apply Z.ltb_ge in E. exact E.
Qed.

Lemma win_case_counted b s rt c :
  counted b s -> counted b (value (win_case s rt c)).
Proof.
  intros H. unfold win_case.
  destruct ((co2Count s =? 0) && negb (lose s)); [|exact H].
  exact H.
Qed.

Lemma game_reset_counted s rt c :
  counted 10 s -> counted 10 (value (game_reset s rt c)).
Proof.
  intros H.
  destruct ((win s || lose s) && negb (Buttons (inputstate s) =? 0)) eqn:E.
  - apply andb_prop in E. destruct E as [E1 E2].
    apply negb_true_iff in E2. apply Z.eqb_neq in E2.
    destruct (game_reset_fires s rt c E1 E2) as (new & Ev & _ & Hc & _).
    rewrite Ev. intros _. cbn [co2Count particles set_co2Count set_particles].
    rewrite Hc. lia.
  - rewrite (game_reset_idle s rt c E). exact H.
Qed.

Lemma update_counted s rt c : counted 10 s -> counted 10 (value (update s rt c)).
Proof.
  intros H. unfold counted. rewrite update_value. cbn zeta.
  apply game_reset_counted, win_case_counted, loss_case_counted, spawn_counted.
  intros Hl. apply (update_particles_counted s rt _ H Hl).
Qed.

Lemma getControllerData_frame s rt c :
  let s' := value (getControllerData s rt c) in
  co2Count s' = co2Count s /\ particles s' = particles s /\
  lose s' = lose s /\ win s' = win s.
Proof.
  cbn zeta. unfold getControllerData.
  repeat (rewrite value_bind; cbn beta). cbn [ret value].
  destruct (OVR_SUCCESS _); repeat split; reflexivity.
Qed.

(** [render] ends with [update], on a scene that differs from the scene it
    was given in what the controllers report and in the laser transforms. *)
Lemma render_value projection modelview eyepos s rt c :
  exists s0 c0,
    value (render projection modelview eyepos s rt c) = value (update s0 rt c0) /\
    co2Count s0 = co2Count s /\ particles s0 = particles s /\ lose s0 = lose s /\
    win s0 = win s.
Proof.
  unfold render. repeat (rewrite value_bind; cbn beta).
  eexists _, _. split; [reflexivity|].
  destruct (getControllerData_frame s rt c) as (H1 & H2 & H3 & H4).
  cbn [co2Count particles lose win set_rightLaser set_leftLaser]. auto.
Qed.

Lemma new_counted raw rt c : counted 10 (value (ColorCubeScene_new raw rt c)).
Proof.
  intros _. unfold ColorCubeScene_new. repeat (rewrite value_bind; cbn beta).
  match goal with |- context [push_new ?mk 5 ?ps rt c] =>
    destruct (push_new_co2 mk new_chimney_particle_co2 5 ps rt c)
      as (new & E1 & _ & E3 & _) end.
  rewrite E1.
  cbn [value ret co2Count particles set_timer set_co2Count set_particles
       set_rightLaser set_leftLaser set_factoryParticle set_fingerTriggerPressed
       set_lose set_win app].
  rewrite E3. lia.
Qed.

Lemma reachable_counted s : reachable s -> counted 10 s.
Proof.
  induction 1 as [raw rt c | s projection modelview eyepos rt c Hr IH].
  - apply new_counted.
  - destruct (render_value projection modelview eyepos s rt c)
      as (s0 & c0 & E & E1 & E2 & E3 & _).
    rewrite E. apply update_counted.
    intros Hl. rewrite E1, E2. apply IH. congruence.
Qed.

(** C9.  In every reachable scene in which the game is not lost, the
    counter is the number of particles that show the CO2 model: the
    constructor and the reset make five of them and set it to 5, a
    conversion takes one from both, the spawn adds one to both.  The loss
    case is where the two part: it adds 100 CO2 particles, sets the lose
    flag and leaves the counter as it is. *)
Theorem C9_counter_is_co2_count :
  (forall s, reachable s -> lose s = false ->
             co2Count s = count_co2 (particles s)) /\
  (forall s rt c, 10 < co2Count s -> lose s = false ->
     let s' := value (loss_case s rt c) in
     lose s' = true /\ co2Count s' = co2Count s /\
     count_co2 (particles s') = count_co2 (particles s) + 100).
Proof.
  split.
  - intros s Hr Hl. apply (reachable_counted s Hr Hl).
  - intros s rt c H1 H2. cbn zeta.
    destruct (loss_case_fires s rt c H1 H2) as (new & E & _ & Hc & _).
    rewrite E. cbn [lose co2Count particles set_lose set_particles].
    rewrite count_co2_app, Hc. auto.
Qed.

End InvariantFacts.

(* ===================================================================== *)
(** ** Spawning *)

Section SpawnFacts.

Context {glm : GLM} {platform : Platform}.

Lemma spawn_fires s rt c :
  win s = false ->
  CLOCKS_PER_SEC <= wrap_int (rt_clock rt c - timer s) ->
  exists p,
    model p = co2 /\
    value (spawn s rt c) =
      set_timer (set_co2Count (set_particles s (particles s ++ [p]))
                              (wrap_int (co2Count s + 1)))
                (rt_clock rt c) /\
    events (spawn s rt c) = [].
Proof.
  intros Hw H. destruct (spawn_playing s rt c Hw) as [Hy _].
  rewrite second_passed_iff in Hy. apply Z.leb_le in H.
  destruct (Hy H) as [Ev Ee].
  exists (value (new_chimney_particle rt (S c))). repeat split; assumption.
Qed.

Lemma spawn_waits s rt c :
  win s = false ->
  wrap_int (rt_clock rt c - timer s) < CLOCKS_PER_SEC ->
  value (spawn s rt c) = s /\ events (spawn s rt c) = [].
Proof.
  intros Hw H. destruct (spawn_playing s rt c Hw) as [_ Hn].
  rewrite second_passed_iff in Hn. apply Z.leb_gt in H. exact (Hn H).
Qed.

Lemma update_particles_length s rt c :
  List.length (particles (value (update_particles s rt c))) = List.length (particles s).
Proof.
  rewrite update_particles_eq. cbn zeta. cbn [value particles set_particles].
  symmetry. eapply Forall2_length. apply particle_loop_stepped.
Qed.

Lemma update_lasers_frame s :
  co2Count (update_lasers s) = co2Count s /\ particles (update_lasers s) = particles s /\
  lose (update_lasers s) = lose s /\ win (update_lasers s) = win s /\
  timer (update_lasers s) = timer s /\ inputstate (update_lasers s) = inputstate s.
Proof. repeat split; reflexivity. Qed.

(** C7.  The spawn block in the playing game (neither won nor lost): when
    the clock it reads is at least [CLOCKS_PER_SEC] ticks, one second, past
    the spawn timer, it appends exactly one particle, a CO2, adds one to the
    counter and sets the timer to the clock it read; before that it changes
    nothing.  Seen over a whole step of a playing scene whose counter is at
    most 9 (so that the new particle does not lose the game): the step ends
    with one particle more and the game still playing. *)
Theorem C7_spawn_once_per_second :
  (forall s rt c,
      win s = false -> lose s = false ->
      in_int (rt_clock rt c - timer s) ->
      int_min <= co2Count s < int_max ->
      let now := rt_clock rt c in
      let s' := value (spawn s rt c) in
      (CLOCKS_PER_SEC <= now - timer s ->
         (exists p, model p = co2 /\ particles s' = particles s ++ [p]) /\
         co2Count s' = co2Count s + 1 /\ timer s' = now) /\
      (now - timer s < CLOCKS_PER_SEC -> s' = s)) /\
  (forall s rt c,
      win s = false -> lose s = false ->
      co2Count s = count_co2 (particles s) -> co2Count s <= 9 ->
      (forall k, CLOCKS_PER_SEC <= wrap_int (rt_clock rt k - timer s)) ->
      let s' := value (update s rt c) in
      List.length (particles s') = S (List.length (particles s)) /\
      win s' = false /\ lose s' = false).
Proof.
  split.
  - intros s rt c Hw _ Hin Hc now s'. subst now s'.
    rewrite <- (wrap_int_id _ Hin). split; intros H.
    + destruct (spawn_fires s rt c Hw H) as (p & Hp & Ev & _).
      rewrite Ev. cbn [particles co2Count timer set_timer set_co2Count set_particles].
      repeat split; [exists p; auto|].
      apply wrap_int_id. unfold in_int, int_max in *. lia.
    + apply (spawn_waits s rt c Hw H).
  - intros s rt c Hw Hl Hc Hb Hk s'. subst s'. rewrite update_value. cbn zeta.
    set (c0 := cursor (haptic_check s rt c)).
    set (o1 := update_particles s rt c0).
    destruct (update_particles_frame s rt c0) as (Hl1 & Hw1 & Ht1 & Hi1 & _).
    fold o1 in Hl1, Hw1, Ht1, Hi1.
    assert (Hcnt : counted 10 (value o1)).
    { apply update_particles_counted. intros _. lia. }
    destruct (Hcnt ltac:(congruence)) as [Hc1 _].
    assert (Hle : co2Count (value o1) <= 9).
    { subst o1. rewrite update_particles_eq. cbn zeta.
      cbn [value co2Count set_particles].
      assert (Hr : count_co2 (particles s) <= co2Count s <= int_max)
        by (unfold int_max; lia).
      pose proof (particle_loop_count (particles s) s rt c0 Hr) as Hcount.
      cbn zeta in Hcount. lia. }
    pose proof (count_co2_nonneg (particles (value o1))) as Hn1.
    set (s2 := update_lasers (value o1)).
    destruct (spawn_fires s2 rt (cursor o1)) as (p & Hp & Ev & _).
    { subst s2. cbn [win update_lasers set_rightLaser set_leftLaser]. congruence. }
    { subst s2. cbn [timer update_lasers set_rightLaser set_leftLaser].
      rewrite Ht1. apply Hk. }
    set (o2 := spawn s2 rt (cursor o1)) in *.
    assert (Hw3 : wrap_int (co2Count s2 + 1) = co2Count (value o1) + 1).
    { subst s2. cbn [co2Count update_lasers set_rightLaser set_leftLaser].
      apply wrap_int_id. unfold in_int, int_min, int_max. lia. }
    rewrite Hw3 in Ev.
    rewrite (loss_case_idle (value o2) rt (cursor o2)).
    2:{ rewrite Ev. cbn [co2Count set_timer set_co2Count].
        apply andb_false_iff. left. apply Z.ltb_ge. lia. }
    cbn [value cursor].
    rewrite (win_case_idle (value o2) rt (cursor o2)).
    2:{ rewrite Ev. cbn [co2Count set_timer set_co2Count].
        apply andb_false_iff. left. apply Z.eqb_neq. lia. }
    cbn [value cursor].
    rewrite (game_reset_idle (value o2) rt (cursor o2)).
    2:{ rewrite Ev. subst s2.
        cbn [win lose set_timer set_co2Count set_particles update_lasers
             set_rightLaser set_leftLaser].
        rewrite Hw1, Hl1, Hw, Hl. reflexivity. }
    cbn [value]. rewrite Ev. subst s2.
    cbn [particles win lose set_timer set_co2Count set_particles update_lasers
         set_rightLaser set_leftLaser].
    rewrite length_app. cbn [List.length]. subst o1.
    rewrite update_particles_length, Hw1, Hl1. repeat split; auto. lia.
Qed.

(** C10.  The spawn block asks for the win flag only.  With the game lost
    and not won it spawns as in the playing game: a second past the timer it
    appends one CO2 particle, adds one to the counter and resets the timer.
    Over a whole step of a lost game, no button pressed: the step ends with
    one particle more, a CO2 at the end of the list, and the game still
    lost; so the particles keep growing until a reset. *)
Theorem C10_spawn_ignores_lose :
  (forall s rt c,
      win s = false -> lose s = true ->
      in_int (rt_clock rt c - timer s) ->
      int_min <= co2Count s < int_max ->
      CLOCKS_PER_SEC <= rt_clock rt c - timer s ->
      let s' := value (spawn s rt c) in
      (exists p, model p = co2 /\ particles s' = particles s ++ [p]) /\
      co2Count s' = co2Count s + 1 /\ timer s' = rt_clock rt c /\ lose s' = true) /\
  (forall s rt c,
      win s = false -> lose s = true -> Buttons (inputstate s) = 0 ->
      (forall k, CLOCKS_PER_SEC <= wrap_int (rt_clock rt k - timer s)) ->
      let s' := value (update s rt c) in
      List.length (particles s') = S (List.length (particles s)) /\
      (exists p rest, model p = co2 /\ particles s' = rest ++ [p]) /\
      win s' = false /\ lose s' = true).
Proof.
  split.
  - intros s rt c Hw Hl Hin Hc H s'. subst s'.
    rewrite <- (wrap_int_id _ Hin) in H.
    destruct (spawn_fires s rt c Hw H) as (p & Hp & Ev & _).
    rewrite Ev. cbn [particles co2Count timer lose set_timer set_co2Count set_particles].
    repeat split; [exists p; auto| |assumption].
    apply wrap_int_id. unfold in_int, int_max in *. lia.
  - intros s rt c Hw Hl Hb Hk s'. subst s'. rewrite update_value. cbn zeta.
    set (c0 := cursor (haptic_check s rt c)).
    set (o1 := update_particles s rt c0).
    destruct (update_particles_frame s rt c0) as (Hl1 & Hw1 & Ht1 & Hi1 & _).
    fold o1 in Hl1, Hw1, Ht1, Hi1.
    set (s2 := update_lasers (value o1)).
    destruct (spawn_fires s2 rt (cursor o1)) as (p & Hp & Ev & _).
    { subst s2. cbn [win update_lasers set_rightLaser set_leftLaser]. congruence. }
    { subst s2. cbn [timer update_lasers set_rightLaser set_leftLaser].
      rewrite Ht1. apply Hk. }
    set (o2 := spawn s2 rt (cursor o1)) in *.
    assert (Hl2 : lose (value o2) = true).
    { rewrite Ev. subst s2.
      cbn [lose set_timer set_co2Count set_particles update_lasers
           set_rightLaser set_leftLaser]. congruence. }
    rewrite (loss_case_idle (value o2) rt (cursor o2)).
    2:{ rewrite Hl2. apply andb_false_r. }
    cbn [value cursor].
    rewrite (win_case_idle (value o2) rt (cursor o2)).
    2:{ rewrite Hl2. apply andb_false_r. }
    cbn [value cursor].
    rewrite (game_reset_idle (value o2) rt (cursor o2)).
    2:{ rewrite Ev. subst s2.
        cbn [inputstate set_timer set_co2Count set_particles update_lasers
             set_rightLaser set_leftLaser].
        rewrite Hi1, Hb. apply andb_false_r. }
    cbn [value]. rewrite Ev. subst s2.
    cbn [particles win lose set_timer set_co2Count set_particles update_lasers
         set_rightLaser set_leftLaser].
    rewrite length_app. cbn [List.length]. subst o1.
    rewrite update_particles_length, Hw1, Hl1.
    repeat split; auto; [lia|].
    exists p, (particles (value (update_particles s rt c0))). auto.
Qed.

End SpawnFacts.

(* ===================================================================== *)
(** ** Winning and the haptic feedback *)

Section WinHapticFacts.

Context {glm : GLM} {platform : Platform}.



Lemma repeat_start_pair_S n :
  List.concat (repeat start_pair (S n)) = start_pair ++ List.concat (repeat start_pair n).
Proof. reflexivity. Qed.

(** The trace of the loop: one [start_pair] for each conversion. *)
Lemma particle_loop_events ps : forall s rt c,
  events (particle_loop s ps rt c) =
  List.concat (repeat start_pair (conversions ps (snd (value (particle_loop s ps rt c))))) /\
  count_co2 (snd (value (particle_loop s ps rt c))) <= count_co2 ps.
Proof.
  unfold conversions.
  induction ps as [|p rest IH]; intros s rt c.
  - cbn [particle_loop ret value snd events]. rewrite count_co2_nil. split; [reflexivity|lia].
  - rewrite particle_loop_cons. cbn zeta. cbn [value snd events].
    rewrite !count_co2_cons.
    destruct (update_particle_cases s p rt c) as [(_ & Hp & E) | (_ & Hq & E)];
      rewrite E; cbn [value cursor fst snd events model set_model].
    + destruct (IH (set_co2Count (set_vibTimer s (rt_clock rt c))
                      (wrap_int (co2Count s - 1))) rt (S c)) as [IHe IHc].
      rewrite IHe, Hp. cbn [Model_eqb]. split; [|lia].
      pose proof (count_co2_nonneg
        (snd (value (particle_loop
           (set_co2Count (set_vibTimer s (rt_clock rt c)) (wrap_int (co2Count s - 1)))
           rest rt (S c))))) as Hn.
      match goal with |- _ = List.concat (repeat _ (Z.to_nat ?z)) =>
        replace z with (Z.succ (count_co2 rest - count_co2 (snd (value (particle_loop
           (set_co2Count (set_vibTimer s (rt_clock rt c)) (wrap_int (co2Count s - 1)))
           rest rt (S c)))))) by lia end.
      rewrite Z2Nat.inj_succ by lia. rewrite repeat_start_pair_S. reflexivity.
    + destruct (IH s rt c) as [IHe IHc]. rewrite IHe, Hq. cbn [app]. split; [|lia].
      f_equal. f_equal. f_equal. lia.
Qed.

Lemma spawn_events s rt c : events (spawn s rt c) = [].
Proof.
  destruct (win s) eqn:Hw.
  - now rewrite (spawn_won s rt c Hw).
  - destruct (spawn_playing s rt c Hw) as [Hy Hn].
    destruct (second_passed (rt_clock rt c) (timer s)).
    + apply (Hy eq_refl).
    + apply (Hn eq_refl).
Qed.

Lemma loss_case_events s rt c : events (loss_case s rt c) = [].
Proof.
  destruct ((10 <? co2Count s) && negb (lose s)) eqn:E.
  - apply andb_prop in E. destruct E as [E1 E2].
    apply Z.ltb_lt in E1. apply negb_true_iff in E2.
    destruct (loss_case_fires s rt c E1 E2) as (new & _ & _ & _ & Ee). exact Ee.
  - now rewrite (loss_case_idle s rt c E).
Qed.

Lemma win_case_vibration s rt c : filter is_vibration (events (win_case s rt c)) = [].
Proof.
  unfold win_case. destruct ((co2Count s =? 0) && negb (lose s)); reflexivity.
Qed.

Lemma game_reset_vibration s rt c : filter is_vibration (events (game_reset s rt c)) = [].
Proof.
  destruct ((win s || lose s) && negb (Buttons (inputstate s) =? 0)) eqn:E.
  - apply andb_prop in E. destruct E as [E1 E2].
    apply negb_true_iff in E2. apply Z.eqb_neq in E2.
    destruct (game_reset_fires s rt c E1 E2) as (new & _ & _ & _ & Ee).
    rewrite Ee. reflexivity.
  - now rewrite (game_reset_idle s rt c E).
Qed.


Lemma haptic_check_vibration s rt c :
  filter is_vibration (events (haptic_check s rt c)) = events (haptic_check s rt c).
Proof.
  unfold haptic_check.
  destruct (at0 (fingerTriggerPressed s)); [|reflexivity].
  destruct (at1 (fingerTriggerPressed s)); [|reflexivity].
  cbn [negb]. rewrite events_bind. cbn [std_clock query value cursor events app].
  destruct (cooldown_over (rt_clock rt c) (vibTimer s)); reflexivity.
Qed.


(** C4.  The win case of a step: when the counter is 0 and the game is not
    lost, the win flag is set and the clear colour of the won game is sent,
    whether or not the flag was set before; otherwise the block does nothing.
    So a won scene (counter 0, no CO2 particle, not lost) stays won through
    a step without a button, and that step runs the win case again: it sends
    the clear colour once more. *)
Theorem C4_win_case :
  (forall s rt c,
      co2Count s = 0 -> lose s = false ->
      win_case s rt c = mkOut (set_win s true) c [win_colour]) /\
  (forall s rt c,
      co2Count s <> 0 \/ lose s = true ->
      win_case s rt c = mkOut s c []) /\
  (forall s rt c,
      win s = true -> lose s = false -> co2Count s = 0 ->
      count_co2 (particles s) = 0 -> Buttons (inputstate s) = 0 ->
      let o := update s rt c in
      win (value o) = true /\ lose (value o) = false /\ co2Count (value o) = 0 /\
      count_co2 (particles (value o)) = 0 /\
      events o = events (haptic_check s rt c) ++ [win_colour]).
Proof.
  split; [|split].
  - apply win_case_fires.
  - intros s rt c H. apply win_case_idle. destruct H as [H | H].
    + apply Z.eqb_neq in H. rewrite H. reflexivity.
    + rewrite H. apply andb_false_r.
  - intros s rt c Hw Hl Hc Hn Hb o. subst o.
    rewrite update_value, update_events. cbn zeta.
    set (c0 := cursor (haptic_check s rt c)).
    assert (E1 : update_particles s rt c0 =
                 mkOut (set_particles s (snd (value (particle_loop s (particles s) rt c0))))
                       c0 []).
    { rewrite update_particles_eq. cbn zeta.
      destruct (particle_loop_no_co2 (particles s) s rt c0 Hn) as (-> & -> & -> & _).
      reflexivity. }
    destruct (particle_loop_no_co2 (particles s) s rt c0 Hn) as (_ & _ & _ & Hn').
    rewrite E1. cbn [value cursor events].
    set (s1 := set_particles s (snd (value (particle_loop s (particles s) rt c0)))).
    rewrite (spawn_won (update_lasers s1) rt c0) by exact Hw. cbn [value cursor events].
    rewrite (loss_case_idle (update_lasers s1) rt c0).
    2:{ cbn [co2Count update_lasers set_rightLaser set_leftLaser s1 set_particles].
        rewrite Hc. reflexivity. }
    cbn [value cursor events].
    rewrite (win_case_fires (update_lasers s1) rt c0) by assumption.
    cbn [value cursor events].
    rewrite (game_reset_idle (set_win (update_lasers s1) true) rt c0).
    2:{ cbn [inputstate set_win update_lasers set_rightLaser set_leftLaser s1 set_particles].
        rewrite Hb. apply andb_false_r. }
    cbn [value events app].
    repeat split; auto.
Qed.

End WinHapticFacts.

(* ===================================================================== *)
(** ** What a frame shows *)

Section FrameFacts.

Context {glm : GLM} {platform : Platform}.

Lemma observed_app a b : observed (a ++ b) = observed a ++ observed b.
Proof. apply flat_map_app. Qed.

Lemma observed_start_pairs n : observed (List.concat (repeat start_pair n)) = [].
Proof.
  induction n as [|n IH]; [reflexivity|].
  rewrite repeat_start_pair_S, observed_app, IH. reflexivity.
Qed.

Lemma haptic_check_observed s rt c : observed (events (haptic_check s rt c)) = [].
Proof.
  unfold haptic_check.
  destruct (at0 (fingerTriggerPressed s)); [|reflexivity].
  destruct (at1 (fingerTriggerPressed s)); [|reflexivity].
  cbn [negb]. rewrite events_bind. cbn [std_clock query value cursor events app].
  destruct (cooldown_over (rt_clock rt c) (vibTimer s)); reflexivity.
Qed.

Lemma win_case_observed s rt c : observed (events (win_case s rt c)) = [].
Proof.
  unfold win_case. destruct ((co2Count s =? 0) && negb (lose s)); reflexivity.
Qed.

Lemma game_reset_observed s rt c : observed (events (game_reset s rt c)) = [].
Proof.
  destruct ((win s || lose s) && negb (Buttons (inputstate s) =? 0)) eqn:E.
  - apply andb_prop in E. destruct E as [E1 E2].
    apply negb_true_iff in E2. apply Z.eqb_neq in E2.
    destruct (game_reset_fires s rt c E1 E2) as (new & _ & _ & _ & Ee).
    rewrite Ee. reflexivity.
  - now rewrite (game_reset_idle s rt c E).
Qed.

(** The scene's step sets no viewport, hands no matrix to the shader,
    submits nothing and writes nothing. *)
Lemma update_observed s rt c : observed (events (update s rt c)) = [].
Proof.
  rewrite update_events. cbn zeta.
  rewrite !observed_app, haptic_check_observed, spawn_events, loss_case_events,
    win_case_observed, game_reset_observed.
  rewrite update_particles_eq. cbn zeta. cbn [events].
  destruct (particle_loop_events (particles s) s rt (cursor (haptic_check s rt c)))
    as [-> _].
  rewrite observed_start_pairs. reflexivity.
Qed.

Lemma draw_particles_observed ps : forall rt c,
  observed (events (draw_particles ps rt c)) = [].
Proof.
  induction ps as [|p ps IH]; intros rt c; [reflexivity|].
  cbn [draw_particles]. repeat (rewrite events_bind; cbn beta).
  rewrite !observed_app, IH. reflexivity.
Qed.

Lemma getControllerData_events s rt c : events (getControllerData s rt c) = [].
Proof.
  unfold getControllerData. repeat (rewrite events_bind; cbn beta). reflexivity.
Qed.

(** Of all a frame shows, [render] shows the two matrices it is given. *)
Lemma render_observed projection modelview eyepos s rt c :
  observed (events (render projection modelview eyepos s rt c)) =
  [saw_projection projection; saw_view modelview].
Proof.
  unfold render. repeat (rewrite events_bind; cbn beta).
  rewrite !observed_app, getControllerData_events, draw_particles_observed,
    update_observed.
  reflexivity.
Qed.

Lemma viewport_eta (vp : ovrRecti) :
  mkRecti (mkVector2i (v2i_x (Pos vp)) (v2i_y (Pos vp)))
          (mkSizei (sz_w (Size vp)) (sz_h (Size vp))) = vp.
Proof. destruct vp as [[x y] [w h]]. reflexivity. Qed.

Section DrawFacts.

Context {Derived : Type}.
Variable renderScene : mat4 -> mat4 -> vec3 -> Derived -> M Derived.

Lemma draw_run st rt c :
  draw renderScene st rt c =
  let a := fst st in
  let got := rt_GetEyePoses rt c in
  let curTexId := rt_GetTextureSwapChainBufferGL rt (S (S c))
                    (rt_GetTextureSwapChainCurrentIndex rt (S c)) in
  let vl := at0 (Viewport (_sceneLayer a)) in
  let vr := at1 (Viewport (_sceneLayer a)) in
  let ol := left_call renderScene st rt c in
  let or := right_call renderScene st rt c in
  let m := _mirrorSize a in
  mkOut (set_sceneLayer a (frame_layer a got), value or)
        (S (S (cursor or)))
        (glBindFramebuffer GL_DRAW_FRAMEBUFFER (_fbo a) ::
         glFramebufferTexture2D GL_DRAW_FRAMEBUFFER curTexId ::
         glClear ::
         glViewport (v2i_x (Pos vl)) (v2i_y (Pos vl)) (sz_w (Size vl)) (sz_h (Size vl)) ::
         ((events ol ++ []) ++
          glViewport (v2i_x (Pos vr)) (v2i_y (Pos vr)) (sz_w (Size vr)) (sz_h (Size vr)) ::
          (events or ++ [])) ++
         [glFramebufferTexture2D GL_DRAW_FRAMEBUFFER 0;
          glBindFramebuffer GL_DRAW_FRAMEBUFFER 0;
          ovr_CommitTextureSwapChain;
          ovr_SubmitFrame (frame a) (frame_layer a got);
          glBindFramebuffer GL_READ_FRAMEBUFFER (_mirrorFbo a);
          glFramebufferTexture2D GL_READ_FRAMEBUFFER
            (rt_GetMirrorTextureBufferGL rt (S (cursor or)));
          glBlitFramebuffer 0 0 (wrap_int (uv_x m)) (wrap_int (uv_y m))
                            0 (wrap_int (uv_y m)) (wrap_int (uv_x m)) 0;
          glBindFramebuffer GL_READ_FRAMEBUFFER 0]).
Proof. reflexivity. Qed.

Lemma draw_observed st rt c :
  observed (events (draw renderScene st rt c)) =
  saw_viewport (at0 (Viewport (_sceneLayer (fst st)))) ::
  observed (events (left_call renderScene st rt c)) ++
  saw_viewport (at1 (Viewport (_sceneLayer (fst st)))) ::
  observed (events (right_call renderScene st rt c)) ++
  [saw_submit (frame (fst st)) (frame_layer (fst st) (rt_GetEyePoses rt c))].
Proof.
  rewrite draw_run. cbn zeta. cbn [events].
  change (?a :: ?b :: ?c :: ?d :: ?l) with ([a; b; c; d] ++ l).
  rewrite !observed_app, !app_nil_r.
  cbn [observed flat_map observe app].
  rewrite !viewport_eta.
  repeat (rewrite <- app_assoc; cbn [app]).
  reflexivity.
Qed.

Lemma draw_value st rt c :
  value (draw renderScene st rt c) =
  (set_sceneLayer (fst st) (frame_layer (fst st) (rt_GetEyePoses rt c)),
   value (right_call renderScene st rt c)).
Proof. rewrite draw_run. reflexivity. Qed.

End DrawFacts.

End FrameFacts.

(* ===================================================================== *)
(** ** The frame of ExampleApp *)

Section ExampleAppFacts.

Context {glm : GLM} {platform : Platform}.

Lemma ExampleApp_draw_observed st rt c :
  let a := fst st in
  let poses := fst (rt_GetEyePoses rt c) in
  observed (events (ExampleApp_draw st rt c)) =
  [saw_viewport (at0 (Viewport (_sceneLayer a)));
   saw_projection (at0 (_eyeProjections a));
   saw_view (glm_inverse (toGlm (at0 poses)));
   saw_viewport (at1 (Viewport (_sceneLayer a)));
   saw_projection (at1 (_eyeProjections a));
   saw_view (glm_inverse (toGlm (at1 poses)));
   saw_submit (frame a) (frame_layer a (rt_GetEyePoses rt c))].
Proof.
  cbn zeta. unfold ExampleApp_draw. rewrite draw_observed.
  unfold right_call, left_call, ExampleApp_renderScene. cbn zeta.
  rewrite !render_observed. reflexivity.
Qed.

(** C1.  The layer a frame submits carries, for each eye, the pose the
    runtime predicted for that eye in this frame, and the view matrix the
    scene is rendered with for that eye is the inverse of the matrix of that
    same pose: left with left, right with right. *)
Theorem C1_pose_round_trip (st : RiftApp * ColorCubeScene) rt c :
  let poses := fst (rt_GetEyePoses rt c) in
  let o := ExampleApp_draw st rt c in
  let layer := _sceneLayer (fst (value o)) in
  (forall eye, get_eye (RenderPose layer) eye = get_eye poses eye) /\
  filter is_submit (observed (events o)) = [saw_submit (frame (fst st)) layer] /\
  observed (events o) =
  [saw_viewport (at0 (Viewport layer));
   saw_projection (at0 (_eyeProjections (fst st)));
   saw_view (glm_inverse (toGlm (get_eye (RenderPose layer) ovrEye_Left)));
   saw_viewport (at1 (Viewport layer));
   saw_projection (at1 (_eyeProjections (fst st)));
   saw_view (glm_inverse (toGlm (get_eye (RenderPose layer) ovrEye_Right)));
   saw_submit (frame (fst st)) layer].
Proof.
  cbn zeta. rewrite ExampleApp_draw_observed. cbn zeta.
  unfold ExampleApp_draw. rewrite draw_value.
  cbn [fst _sceneLayer set_sceneLayer frame_layer RenderPose Viewport get_eye at0 at1
       filter is_submit].
  split; [|split]; reflexivity.
Qed.

(** *** The layout *)

Lemma RiftApp_new_layout rt raw :
  valid_size (eye_size rt ovrEye_Left) -> valid_size (eye_size rt ovrEye_Right) ->
  let a := RiftApp_new rt raw in
  let sl := eye_size rt ovrEye_Left in
  let sr := eye_size rt ovrEye_Right in
  Viewport (_sceneLayer a) =
    mkArr2 (mkRecti (mkVector2i 0 0) sl) (mkRecti (mkVector2i (sz_w sl) 0) sr) /\
  _renderTargetSize a = mkUvec2 (sz_w sl + sz_w sr) (Z.max (sz_h sl) (sz_h sr)).
Proof.
  unfold valid_size, int_max. intros [Hwl Hhl] [Hwr Hhr]. cbn zeta.
  unfold RiftApp_new, RiftApp_eye.
  cbn [_sceneLayer _renderTargetSize _eyeRenderDescs Viewport set_Viewport set_Fov
       get_eye set_eye uv_x uv_y at0 at1 zero_layer].
  fold (eye_size rt ovrEye_Left). fold (eye_size rt ovrEye_Right).
  set (sl := eye_size rt ovrEye_Left) in *. set (sr := eye_size rt ovrEye_Right) in *.
  assert (E0 : wrap_int 0 = 0) by reflexivity.
  assert (E1 : wrap_uint (0 + sz_w sl) = sz_w sl) by (apply wrap_uint_id; lia).
  assert (E2 : wrap_uint (sz_h sl) = sz_h sl) by (apply wrap_uint_id; lia).
  assert (E3 : wrap_uint (sz_h sr) = sz_h sr) by (apply wrap_uint_id; lia).
  assert (E4 : wrap_int (sz_w sl) = sz_w sl)
    by (apply wrap_int_id; unfold in_int, int_min, int_max; lia).
  assert (E5 : wrap_uint (sz_w sl + sz_w sr) = sz_w sl + sz_w sr)
    by (apply wrap_uint_id; lia).
  rewrite E0, E1, E2, E3, E4, E5.
  rewrite (Z.max_r 0 (sz_h sl)) by lia. split; reflexivity.
Qed.

End ExampleAppFacts.

(* ===================================================================== *)
(** ** The run loop *)

Section LoopFacts.

Context {glm : GLM} {platform : Platform}.

Lemma run_frame_events st rt c :
  events (run_loop ExampleApp_renderScene 0 st rt c) = [] /\
  events (run_frame ExampleApp_renderScene st rt c) =
  glfwPollEvents ::
  events (ExampleApp_draw (set_frame (fst st) (wrap_uint (frame (fst st) + 1)), snd st) rt c)
  ++ [glfwSwapBuffers].
Proof.
  split; [reflexivity|].
  unfold run_frame. repeat (rewrite events_bind; cbn beta).
  cbn [emit ret events app]. reflexivity.
Qed.

Lemma run_frame_app st rt c :
  let a := fst (value (run_frame ExampleApp_renderScene st rt c)) in
  Viewport (_sceneLayer a) = Viewport (_sceneLayer (fst st)) /\
  _eyeProjections a = _eyeProjections (fst st) /\
  _renderTargetSize a = _renderTargetSize (fst st).
Proof.
  cbn zeta. unfold run_frame. repeat (rewrite value_bind; cbn beta).
  cbn [ret value]. rewrite draw_value. repeat split; reflexivity.
Qed.

Lemma run_frame_observed st rt c :
  filter (fun o => is_viewport o || is_projection o)
         (observed (events (run_frame ExampleApp_renderScene st rt c))) =
    eye_steps (fst st) /\
  frames_of (events (run_frame ExampleApp_renderScene st rt c)) = 1%nat /\
  filter is_log (observed (events (run_frame ExampleApp_renderScene st rt c))) = [].
Proof.
  destruct (run_frame_events st rt c) as [_ E]. unfold frames_of. rewrite E.
  change (glfwPollEvents :: ?l) with ([glfwPollEvents] ++ l).
  rewrite !observed_app, ExampleApp_draw_observed. cbn zeta.
  repeat split; reflexivity.
Qed.

Lemma run_loop_S fuel st rt c :
  run_loop ExampleApp_renderScene (S fuel) st rt c =
  if rt_WindowShouldClose rt c then mkOut (true, st) (S c) []
  else
    let o := run_frame ExampleApp_renderScene st rt (S c) in
    let o' := run_loop ExampleApp_renderScene fuel (value o) rt (cursor o) in
    mkOut (value o') (cursor o') (events o ++ events o').
Proof.
  cbn [run_loop]. rewrite bind_eq. cbn [query value cursor events app].
  destruct (rt_WindowShouldClose rt c); [reflexivity|].
  rewrite bind_eq. reflexivity.
Qed.

Lemma repeat_concat_S {A : Type} (l : list A) n :
  List.concat (repeat l (S n)) = l ++ List.concat (repeat l n).
Proof. reflexivity. Qed.

Lemma frames_of_app a b : frames_of (a ++ b) = (frames_of a + frames_of b)%nat.
Proof. unfold frames_of. now rewrite observed_app, filter_app, length_app. Qed.

(** The frames of a run, eye by eye. *)
Lemma run_loop_observed fuel : forall st rt c,
  let evs := events (ExampleApp_run_loop fuel st rt c) in
  filter (fun o => is_viewport o || is_projection o) (observed evs) =
    List.concat (repeat (eye_steps (fst st)) (frames_of evs)) /\
  (frames_of evs <= fuel)%nat /\
  ((forall k, rt_WindowShouldClose rt k = false) -> frames_of evs = fuel) /\
  filter is_log (observed evs) = [].
Proof.
  induction fuel as [|fuel IH]; intros st rt c; cbn zeta.
  - repeat split; auto.
  - unfold ExampleApp_run_loop. rewrite run_loop_S.
    destruct (rt_WindowShouldClose rt c) eqn:Hc.
    + repeat split; auto with arith.
      intros H. rewrite H in Hc. discriminate.
    + cbn zeta. cbn [events].
      destruct (run_frame_observed st rt (S c)) as (E1 & E2 & E3).
      destruct (run_frame_app st rt (S c)) as (Hv & Hp & _).
      remember (run_frame ExampleApp_renderScene st rt (S c)) as o eqn:Ho.
      clear Ho.
      destruct (IH (value o) rt (cursor o)) as (I1 & I2 & I3 & I4).
      unfold ExampleApp_run_loop in I1, I2, I3, I4.
      remember (run_loop ExampleApp_renderScene fuel (value o) rt (cursor o))
        as o' eqn:Ho' in *.
      clear Ho' IH.
      assert (Hs : eye_steps (fst (value o)) = eye_steps (fst st)).
      { unfold eye_steps. rewrite Hv, Hp. reflexivity. }
      rewrite Hs in I1.
      rewrite frames_of_app, E2, !observed_app, !filter_app, E1, I1, E3, I4.
      cbn [plus]. rewrite repeat_concat_S.
      repeat split; auto with arith.
Qed.


(** C2.  The constructor lays the two eyes side by side in one render
    target: the left viewport at the origin, the right viewport to its
    right, each of the size recommended for its eye; the target is as wide
    as both together and as high as the higher one.  No pixel is in both
    viewports, both lie within the target, their columns cover the width of
    the target and their rows its height; when the eyes are equally high,
    every pixel of the target is in one of them.  And whatever the number of
    frames of a run, each frame goes through exactly two eyes, the left one
    first: it sets the left viewport and renders with the left projection,
    then sets the right viewport and renders with the right projection. *)
Theorem C2_two_eyes_side_by_side :
  (forall rt raw,
      valid_size (eye_size rt ovrEye_Left) -> valid_size (eye_size rt ovrEye_Right) ->
      let a := RiftApp_new rt raw in
      let vl := at0 (Viewport (_sceneLayer a)) in
      let vr := at1 (Viewport (_sceneLayer a)) in
      let W := uv_x (_renderTargetSize a) in
      let H := uv_y (_renderTargetSize a) in
      Size vl = eye_size rt ovrEye_Left /\ Size vr = eye_size rt ovrEye_Right /\
      W = sz_w (Size vl) + sz_w (Size vr) /\
      H = Z.max (sz_h (Size vl)) (sz_h (Size vr)) /\
      (forall x y, ~ (in_rect vl x y /\ in_rect vr x y)) /\
      (forall x y, in_rect vl x y \/ in_rect vr x y -> 0 <= x < W /\ 0 <= y < H) /\
      (forall x, 0 <= x < W <-> x_range vl x \/ x_range vr x) /\
      (forall y, 0 <= y < H <-> y_range vl y \/ y_range vr y) /\
      (sz_h (Size vl) = sz_h (Size vr) ->
       forall x y, 0 <= x < W /\ 0 <= y < H -> in_rect vl x y \/ in_rect vr x y)) /\
  (forall fuel st rt c,
      let evs := events (ExampleApp_run_loop fuel st rt c) in
      filter (fun o => is_viewport o || is_projection o) (observed evs) =
        List.concat (repeat (eye_steps (fst st)) (frames_of evs)) /\
      (frames_of evs <= fuel)%nat /\
      ((forall k, rt_WindowShouldClose rt k = false) -> frames_of evs = fuel)).
Proof.
  split.
  - intros rt raw Hl Hr. cbn zeta.
    destruct (RiftApp_new_layout rt raw Hl Hr) as [Ev Es]. cbn zeta in Ev, Es.
    rewrite Ev, Es. cbn [at0 at1 Size Pos uv_x uv_y].
    unfold valid_size in Hl, Hr. unfold in_rect, x_range, y_range.
    cbn [at0 at1 Size Pos v2i_x v2i_y].
    destruct (eye_size rt ovrEye_Left) as [wl hl].
    destruct (eye_size rt ovrEye_Right) as [wr hr].
    cbn [sz_w sz_h] in *.
    repeat split; try lia.
  - intros fuel st rt c.
    destruct (run_loop_observed fuel st rt c) as (H1 & H2 & H3 & _).
    cbn zeta in *. auto.
Qed.

End LoopFacts.

(* ===================================================================== *)
(** ** The answer to the submission *)

Section SubmitFacts.

Context {glm : GLM} {platform : Platform}.
Variables rt rt' : Runtime.
Hypothesis Hagree : agree rt rt'.

Lemma alike_ret {A : Type} (a : A) : alike rt rt' (ret a).
Proof. intros c. reflexivity. Qed.

Lemma alike_emit e : alike rt rt' (emit e).
Proof. intros c. reflexivity. Qed.

Lemma alike_bind {A B : Type} (m : M A) (f : A -> M B) :
  alike rt rt' m -> (forall a, alike rt rt' (f a)) -> alike rt rt' (bind m f).
Proof.
  intros Hm Hf c. rewrite !bind_eq, <- (Hm c), <- (Hf (value (m rt c))). reflexivity.
Qed.

(** A query whose answer is not looked at. *)
Lemma alike_bind_query_ignored {A B : Type} (q : Runtime -> nat -> A) (k : M B) :
  alike rt rt' k -> alike rt rt' (bind (query q) (fun _ => k)).
Proof.
  intros Hk c. rewrite !bind_eq. cbn [query value cursor events].
  rewrite <- (Hk (S c)). reflexivity.
Qed.

Lemma alike_query {A : Type} (q : Runtime -> nat -> A) :
  (forall c, q rt c = q rt' c) -> alike rt rt' (query q).
Proof. intros H c. unfold query. now rewrite H. Qed.

Lemma alike_if {A : Type} (b : bool) (m1 m2 : M A) :
  alike rt rt' m1 -> alike rt rt' m2 -> alike rt rt' (if b then m1 else m2).
Proof. destruct b; auto. Qed.

Create HintDb alike discriminated.
#[local] Hint Constants Opaque : alike.
#[local] Hint Resolve alike_ret alike_emit alike_if : alike.

Ltac alike_steps :=
  repeat first
    [ solve [auto 1 with alike nocore]
    | apply alike_if
    | apply alike_bind; [|intros ?] ].

Lemma alike_std_clock : alike rt rt' std_clock.
Proof. apply alike_query, (agree_clock _ _ Hagree). Qed.

Lemma alike_rand : alike rt rt' rand.
Proof. apply alike_query, (agree_rand _ _ Hagree). Qed.

#[local] Hint Resolve alike_std_clock alike_rand : alike.

Lemma alike_rand_vec3 a b c d e f : alike rt rt' (rand_vec3 a b c d e f).
Proof. unfold rand_vec3, rand_fmod. alike_steps. Qed.

#[local] Hint Resolve alike_rand_vec3 : alike.

Lemma alike_new_chimney_particle : alike rt rt' new_chimney_particle.
Proof.
  unfold new_chimney_particle, random_velocity, random_rotation. alike_steps.
Qed.

Lemma alike_new_scattered_particle : alike rt rt' new_scattered_particle.
Proof.
  unfold new_scattered_particle, random_velocity, random_rotation. alike_steps.
Qed.

#[local] Hint Resolve alike_new_chimney_particle alike_new_scattered_particle : alike.

Lemma alike_push_new mk n : alike rt rt' mk -> forall ps, alike rt rt' (push_new mk n ps).
Proof.
  intros Hmk. induction n as [|n IH]; intros ps; cbn [push_new].
  - apply alike_ret.
  - apply alike_bind; [exact Hmk|]. intros p. apply IH.
Qed.

#[local] Hint Resolve alike_push_new : alike.

Lemma alike_haptic_check s : alike rt rt' (haptic_check s).
Proof. unfold haptic_check, stop_vibration. alike_steps. Qed.

Lemma alike_update_particle s p : alike rt rt' (update_particle s p).
Proof. unfold update_particle, convert, start_vibration. alike_steps. Qed.

Lemma alike_particle_loop ps : forall s, alike rt rt' (particle_loop s ps).
Proof.
  induction ps as [|p ps IH]; intros s; cbn [particle_loop].
  - apply alike_ret.
  - apply alike_bind; [apply alike_update_particle|]. intros sp.
    apply alike_bind; [apply IH|]. intros sr. apply alike_ret.
Qed.

#[local] Hint Resolve alike_haptic_check alike_particle_loop : alike.

Lemma alike_update s : alike rt rt' (update s).
Proof.
  unfold update, update_particles, spawn, loss_case, win_case, game_reset.
  alike_steps.
Qed.

Lemma alike_draw_particles ps : alike rt rt' (draw_particles ps).
Proof.
  induction ps as [|p ps IH]; cbn [draw_particles]; alike_steps.
Qed.

Lemma alike_getControllerData s : alike rt rt' (getControllerData s).
Proof.
  unfold getControllerData.
  apply alike_bind; [apply alike_query, (agree_DisplayTime _ _ Hagree)|]. intros t.
  apply alike_bind.
  { apply alike_query. intros c. apply (agree_TrackingState _ _ Hagree). }
  intros hands. apply alike_bind.
  { apply alike_query. intros c. apply (agree_InputState _ _ Hagree). }
  intros ri. apply alike_ret.
Qed.

#[local] Hint Resolve alike_update alike_draw_particles alike_getControllerData : alike.

Lemma alike_render projection modelview eyepos s :
  alike rt rt' (render projection modelview eyepos s).
Proof. unfold render. alike_steps. Qed.

Lemma alike_ExampleApp_draw st : alike rt rt' (ExampleApp_draw st).
Proof.
  unfold ExampleApp_draw, draw.
  apply alike_bind; [apply alike_query, (agree_GetEyePoses _ _ Hagree)|]. intros got.
  apply alike_bind; [apply alike_query, (agree_CurrentIndex _ _ Hagree)|]. intros i.
  apply alike_bind.
  { apply alike_query. intros c. apply (agree_BufferGL _ _ Hagree). }
  intros tex.
  do 3 (apply alike_bind; [apply alike_emit|]; intros _).
  apply alike_bind.
  { unfold for_each_eye, draw_eye, ExampleApp_renderScene.
    alike_steps; apply alike_render. }
  intros st'.
  do 4 (apply alike_bind; [apply alike_emit|]; intros _).
  apply alike_bind_query_ignored.
  apply alike_bind; [apply alike_query, (agree_MirrorBufferGL _ _ Hagree)|]. intros m.
  alike_steps.
Qed.

Lemma alike_ExampleApp_run_loop fuel : forall st, alike rt rt' (ExampleApp_run_loop fuel st).
Proof.
  unfold ExampleApp_run_loop.
  induction fuel as [|fuel IH]; intros st; cbn [run_loop].
  - apply alike_ret.
  - apply alike_bind; [apply alike_query, (agree_ShouldClose _ _ Hagree)|]. intros b.
    apply alike_if; [apply alike_ret|].
    apply alike_bind; [|intros st'; apply IH].
    unfold run_frame.
    apply alike_bind; [apply alike_emit|]. intros _.
    apply alike_bind; [apply alike_ExampleApp_draw|]. intros st''.
    alike_steps.
Qed.

End SubmitFacts.

(* ===================================================================== *)
(** ** A rejected submission *)

Section RejectedSubmission.

Context {glm : GLM} {platform : Platform}.

Lemma agree_with_SubmitFrame rt f : agree rt (with_SubmitFrame rt f).
Proof. constructor; reflexivity. Qed.

Lemma ExampleApp_draw_end st rt c :
  exists before mirrorTextureId,
    events (ExampleApp_draw st rt c) =
    before ++
    [ovr_CommitTextureSwapChain;
     ovr_SubmitFrame (frame (fst st)) (frame_layer (fst st) (rt_GetEyePoses rt c));
     glBindFramebuffer GL_READ_FRAMEBUFFER (_mirrorFbo (fst st));
     glFramebufferTexture2D GL_READ_FRAMEBUFFER mirrorTextureId;
     glBlitFramebuffer 0 0 (wrap_int (uv_x (_mirrorSize (fst st))))
                       (wrap_int (uv_y (_mirrorSize (fst st))))
                       0 (wrap_int (uv_y (_mirrorSize (fst st))))
                       (wrap_int (uv_x (_mirrorSize (fst st)))) 0;
     glBindFramebuffer GL_READ_FRAMEBUFFER 0].
Proof.
  unfold ExampleApp_draw. rewrite draw_run. cbn zeta. cbn [events].
  match goal with
  | |- context [?a :: ?b :: ?d :: ?e :: ?X ++ ?t1 :: ?t2 :: _] =>
      generalize X; intros inner;
      exists (a :: b :: d :: e :: inner ++ [t1; t2])
  end.
  eexists. repeat rewrite <- app_comm_cons. rewrite <- app_assoc. reflexivity.
Qed.

(** C3.  The answer of the compositor to the submission of a frame is not
    looked at.  Whatever it is, success or not, the frame and the run are
    the same: the same state, the same queries and the same commands; each
    frame submits exactly once, writes nothing to the console and goes on
    with the mirror blit, and the loop goes on with the next frame. *)
Theorem C3_submission_answer_unused :
  (forall rt f st c,
      ExampleApp_draw st (with_SubmitFrame rt f) c = ExampleApp_draw st rt c) /\
  (forall rt f fuel st c,
      ExampleApp_run_loop fuel st (with_SubmitFrame rt f) c =
      ExampleApp_run_loop fuel st rt c) /\
  (forall st rt c,
      frames_of (events (ExampleApp_draw st rt c)) = 1%nat /\
      filter is_log (observed (events (ExampleApp_draw st rt c))) = [] /\
      exists before mirrorTextureId,
        events (ExampleApp_draw st rt c) =
        before ++
        [ovr_CommitTextureSwapChain;
         ovr_SubmitFrame (frame (fst st)) (frame_layer (fst st) (rt_GetEyePoses rt c));
         glBindFramebuffer GL_READ_FRAMEBUFFER (_mirrorFbo (fst st));
         glFramebufferTexture2D GL_READ_FRAMEBUFFER mirrorTextureId;
         glBlitFramebuffer 0 0 (wrap_int (uv_x (_mirrorSize (fst st))))
                           (wrap_int (uv_y (_mirrorSize (fst st))))
                           0 (wrap_int (uv_y (_mirrorSize (fst st))))
                           (wrap_int (uv_x (_mirrorSize (fst st)))) 0;
         glBindFramebuffer GL_READ_FRAMEBUFFER 0]) /\
  (forall fuel st rt c,
      filter is_log (observed (events (ExampleApp_run_loop fuel st rt c))) = []).
Proof.
  split; [|split; [|split]].
  - intros rt f st c. symmetry.
    apply (alike_ExampleApp_draw rt _ (agree_with_SubmitFrame rt f)).
  - intros rt f fuel st c. symmetry.
    apply (alike_ExampleApp_run_loop rt _ (agree_with_SubmitFrame rt f)).
  - intros st rt c. unfold frames_of. rewrite ExampleApp_draw_observed. cbn zeta.
    repeat split. apply ExampleApp_draw_end.
  - intros fuel st rt c. apply (run_loop_observed fuel st rt c).
Qed.

End RejectedSubmission.

(* ===================================================================== *)
(** ** The properties on the run *)

Module OnTheRun.
Import GlmEval.

(** C2 on the device of the run: two eyes of 1344 by 1600. *)
Lemma C2_witness :
  let a := Demo.app in
  let vl := at0 (Viewport (_sceneLayer a)) in
  let vr := at1 (Viewport (_sceneLayer a)) in
  let W := uv_x (_renderTargetSize a) in
  let H := uv_y (_renderTargetSize a) in
  Size vl = eye_size Demo.rt ovrEye_Left /\ Size vr = eye_size Demo.rt ovrEye_Right /\
  W = sz_w (Size vl) + sz_w (Size vr) /\
  H = Z.max (sz_h (Size vl)) (sz_h (Size vr)) /\
  (forall x y, ~ (in_rect vl x y /\ in_rect vr x y)) /\
  (forall x y, in_rect vl x y \/ in_rect vr x y -> 0 <= x < W /\ 0 <= y < H) /\
  (forall x, 0 <= x < W <-> x_range vl x \/ x_range vr x) /\
  (forall y, 0 <= y < H <-> y_range vl y \/ y_range vr y) /\
  (sz_h (Size vl) = sz_h (Size vr) ->
   forall x y, 0 <= x < W /\ 0 <= y < H -> in_rect vl x y \/ in_rect vr x y).
Proof.
  apply (proj1 C2_two_eyes_side_by_side Demo.rt Demo.raw_app);
    unfold valid_size, int_max; simpl; lia.
Defined.

(** C3 refuted as stated: every submission of the frame is rejected, and
    the frame writes nothing to the console; its trace is the trace of the
    frame whose submissions succeed. *)
Lemma C3_counterexample :
  let frame_of rt := ExampleApp_draw (Demo.app, value Demo.built) rt (cursor Demo.built) in
  (forall k, OVR_SUCCESS (rt_SubmitFrame Demo.rejecting k) = false) /\
  (forall k, OVR_SUCCESS (rt_SubmitFrame Demo.rt k) = true) /\
  filter is_log (observed (events (frame_of Demo.rejecting))) = [] /\
  events (frame_of Demo.rejecting) = events (frame_of Demo.rt).
Proof.
  cbn zeta. split; [intros k; reflexivity|]. split; [intros k; reflexivity|].
  split; vm_compute; reflexivity.
Qed.

(** C4 refuted as stated: the game is won at the end of the second step of
    the run, which sent the clear colour of the won game; the third step
    starts in the won game and sends it again. *)
Lemma C4_counterexample :
  win (value Demo.step2) = true /\
  filter is_clear_colour (events Demo.step2) = [win_colour] /\
  filter is_clear_colour (events Demo.step3) = [win_colour].
Proof. split; [|split]; vm_compute; reflexivity. Qed.

(** C4 on the run: the step after the won game. *)
Lemma C4_witness :
  let s := value Demo.step2 in
  let o := update s Demo.rt (cursor Demo.step2) in
  win (value o) = true /\ lose (value o) = false /\ co2Count (value o) = 0 /\
  count_co2 (particles (value o)) = 0 /\
  events o = events (haptic_check s Demo.rt (cursor Demo.step2)) ++ [win_colour].
Proof.
  apply (proj2 (proj2 C4_win_case)); vm_compute; reflexivity.
Defined.

(** C5 on the run: the first particle in the second step, both lasers red
    and on it. *)
Lemma C5_witness :
  let s := value Demo.step1 in
  let p := nth 0 (particles s) Demo.blank in
  let r := update_particle s p Demo.rt (cursor Demo.step1) in
  model (snd (value r)) = o2 /\ co2Count (fst (value r)) = co2Count s - 1 /\
  events r = start_pair.
Proof.
  assert (Ec : co2Count (value Demo.step1) = 5) by (vm_compute; reflexivity).
  apply (proj1 C5_two_handed_conversion); try (vm_compute; reflexivity).
  rewrite Ec. unfold int_min, int_max. lia.
Defined.

(** C6 on a particle at x = 10.5 with velocity.x = 0.02. *)
Lemma C6_witness :
  let q := snd (value (update_particle Demo.raw Demo.beyond_wall Demo.rt 0%nat)) in
  above (v4x (col3 (transform q))) 10 /\
  v3x (velocity q) = F32.neg (F32.lit 2 100).
Proof.
  apply (proj2 (proj2 (proj2 C6_move_then_reflect)) Demo.raw Demo.beyond_wall Demo.rt 0%nat);
    reflexivity.
Defined.

(** C7 on the scene of the constructor, five seconds later. *)
Lemma C7_witness :
  let s := value Demo.built in
  let s' := value (spawn s Demo.late 0%nat) in
  (exists p, model p = co2 /\ particles s' = particles s ++ [p]) /\
  co2Count s' = co2Count s + 1 /\ timer s' = 5000.
Proof.
  assert (Et : timer (value Demo.built) = 30) by (vm_compute; reflexivity).
  assert (Ec : co2Count (value Demo.built) = 5) by (vm_compute; reflexivity).
  refine (proj1 (proj1 C7_spawn_once_per_second (value Demo.built) Demo.late 0%nat _ _ _ _) _).
  - vm_compute; reflexivity.
  - vm_compute; reflexivity.
  - cbn [rt_clock Demo.late]. rewrite Et. unfold in_int, int_min, int_max. lia.
  - rewrite Ec. unfold int_min, int_max. lia.
  - cbn [rt_clock Demo.late CLOCKS_PER_SEC windows]. rewrite Et. lia.
Defined.



(** C9 on the run: after the second step. *)
Lemma C9_witness :
  co2Count (value Demo.step2) = count_co2 (particles (value Demo.step2)).
Proof.
  apply (proj1 C9_counter_is_co2_count).
  - unfold Demo.step2, Demo.step1, Demo.built.
    apply reach_render, reach_render, reach_new.
  - vm_compute; reflexivity.
Defined.

(** C10 on the lost scene, five seconds later. *)
Lemma C10_witness :
  let s' := value (update Demo.lost Demo.late 0%nat) in
  List.length (particles s') = S (List.length (particles Demo.lost)) /\
  (exists p rest, model p = co2 /\ particles s' = rest ++ [p]) /\
  win s' = false /\ lose s' = true.
Proof.
  assert (Et : timer Demo.lost = 30) by (vm_compute; reflexivity).
  apply (proj2 C10_spawn_ignores_lose); try (vm_compute; reflexivity).
  intros k. cbn [rt_clock Demo.late CLOCKS_PER_SEC windows]. rewrite Et.
  vm_compute. discriminate.
Defined.

End OnTheRun.

(* ===================================================================== *)
(** ** Further properties of the scene: reset and the states of the game *)

Section ResetFacts.

Context {glm : GLM} {platform : Platform}.

Lemma new_chimney_particle_at_chimney rt c : at_chimney (value (new_chimney_particle rt c)).
Proof. split; reflexivity. Qed.

Lemma push_new_Forall (mk : M Particle) (P : Particle -> Prop) :
  (forall rt c, P (value (mk rt c))) ->
  forall n ps rt c,
    exists new,
      value (push_new mk n ps rt c) = ps ++ new /\
      List.length new = n /\ Forall P new.
Proof.
  intros Hmk n. induction n as [|n IH]; intros ps rt c.
  - exists []. cbn [push_new ret value]. rewrite app_nil_r. auto.
  - cbn [push_new]. rewrite value_bind.
    destruct (IH (ps ++ [value (mk rt c)]) rt (cursor (mk rt c))) as (new & E1 & E2 & E3).
    exists (value (mk rt c) :: new).
    rewrite E1, <- app_assoc. cbn [app List.length]. repeat split; auto.
Qed.

Lemma game_reset_value s rt c :
  win s || lose s = true -> Buttons (inputstate s) <> 0 ->
  exists new,
    value (game_reset s rt c) =
      set_co2Count (set_particles (set_lose (set_win s false) false) new) 5 /\
    List.length new = 5%nat /\ Forall at_chimney new.
Proof.
  intros H1 H2. unfold game_reset.
  apply Z.eqb_neq in H2. rewrite H1, H2. cbn [negb andb].
  destruct (push_new_Forall new_chimney_particle at_chimney
              new_chimney_particle_at_chimney 5 [] rt c) as (new & E1 & E2 & E3).
  exists new. rewrite !value_bind. cbn [ret value particles set_particles].
  cbn [app] in E1. rewrite E1. auto.
Qed.

(** The flags when the step reaches the reset block. *)
Lemma before_reset_flags s rt c :
  let c0 := cursor (haptic_check s rt c) in
  let o1 := update_particles s rt c0 in
  let o2 := spawn (update_lasers (value o1)) rt (cursor o1) in
  let o3 := loss_case (value o2) rt (cursor o2) in
  let o4 := win_case (value o3) rt (cursor o3) in
  (win s = true -> win (value o4) = true) /\
  (lose s = true -> lose (value o4) = true) /\
  inputstate (value o4) = inputstate s /\
  timer (value o2) = timer (value o4).
Proof.
  cbn zeta.
  set (c0 := cursor (haptic_check s rt c)).
  destruct (update_particles_frame s rt c0) as (Hl1 & Hw1 & _ & Hi1 & _).
  remember (update_particles s rt c0) as o1 eqn:E1. clear E1.
  destruct (spawn_frame (update_lasers (value o1)) rt (cursor o1)) as (Hl2 & Hw2 & Hi2).
  remember (spawn (update_lasers (value o1)) rt (cursor o1)) as o2 eqn:E2. clear E2.
  cbn [lose win inputstate update_lasers set_rightLaser set_leftLaser] in Hl2, Hw2, Hi2.
  assert (H3 : win (value (loss_case (value o2) rt (cursor o2))) = win (value o2) /\
               (lose (value o2) = true ->
                lose (value (loss_case (value o2) rt (cursor o2))) = true) /\
               inputstate (value (loss_case (value o2) rt (cursor o2))) = inputstate (value o2) /\
               timer (value (loss_case (value o2) rt (cursor o2))) = timer (value o2)).
  { destruct ((10 <? co2Count (value o2)) && negb (lose (value o2))) eqn:E.
    - apply andb_prop in E. destruct E as [Ea Eb].
      apply Z.ltb_lt in Ea. apply negb_true_iff in Eb.
      destruct (loss_case_fires (value o2) rt (cursor o2) Ea Eb) as (new & Ev & _).
      rewrite Ev. repeat split; reflexivity.
    - rewrite (loss_case_idle (value o2) rt (cursor o2) E). repeat split; auto. }
  destruct H3 as (Hw3 & Hl3 & Hi3 & Ht3).
  remember (loss_case (value o2) rt (cursor o2)) as o3 eqn:E3. clear E3.
  assert (H4 : (win (value o3) = true -> win (value (win_case (value o3) rt (cursor o3))) = true) /\
               lose (value (win_case (value o3) rt (cursor o3))) = lose (value o3) /\
               inputstate (value (win_case (value o3) rt (cursor o3))) = inputstate (value o3) /\
               timer (value (win_case (value o3) rt (cursor o3))) = timer (value o3)).
  { unfold win_case. destruct ((co2Count (value o3) =? 0) && negb (lose (value o3)));
      repeat split; auto. }
  destruct H4 as (Hw4 & Hl4 & Hi4 & Ht4).
  repeat split.
  - intros H. apply Hw4. congruence.
  - intros H. rewrite Hl4. apply Hl3. congruence.
  - congruence.
  - congruence.
Qed.

Lemma reset_facts :
  (forall s rt c,
      win s = true \/ lose s = true -> Buttons (inputstate s) <> 0 ->
      let o := update s rt c in
      win (value o) = false /\ lose (value o) = false /\ co2Count (value o) = 5 /\
      List.length (particles (value o)) = 5%nat /\
      Forall at_chimney (particles (value o)) /\
      exists before, events o = before ++ [play_colour]) /\
  (forall s rt c,
      Buttons (inputstate s) = 0 \/ (win s = false /\ lose s = false) ->
      game_reset s rt c = mkOut s c []) /\
  (forall s rt c,
      let s' := value (game_reset s rt c) in
      timer s' = timer s /\ vibTimer s' = vibTimer s /\
      leftLaser s' = leftLaser s /\ rightLaser s' = rightLaser s).
Proof.
  split; [|split].
  - intros s rt c Hwl Hb o. subst o.
    rewrite update_value, update_events. cbn zeta.
    destruct (before_reset_flags s rt c) as (Hw & Hl & Hi & _). cbn zeta in Hw, Hl, Hi.
    set (c0 := cursor (haptic_check s rt c)) in *.
    remember (update_particles s rt c0) as o1 eqn:E1. clear E1.
    remember (spawn (update_lasers (value o1)) rt (cursor o1)) as o2 eqn:E2. clear E2.
    remember (loss_case (value o2) rt (cursor o2)) as o3 eqn:E3. clear E3.
    remember (win_case (value o3) rt (cursor o3)) as o4 eqn:E4. clear E4.
    assert (Hwl4 : win (value o4) || lose (value o4) = true).
    { destruct Hwl as [H | H].
      - rewrite (Hw H). reflexivity.
      - rewrite (Hl H). apply orb_true_r. }
    assert (Hb4 : Buttons (inputstate (value o4)) <> 0) by (rewrite Hi; exact Hb).
    destruct (game_reset_value (value o4) rt (cursor o4) Hwl4 Hb4) as (new & Ev & Hn & Hf).
    destruct (game_reset_fires (value o4) rt (cursor o4) Hwl4 Hb4) as (new' & _ & _ & _ & Ee).
    rewrite Ev, Ee.
    cbn [win lose co2Count particles set_co2Count set_particles set_lose set_win].
    repeat split; auto.
    eexists. rewrite !app_assoc. reflexivity.
  - intros s rt c H. apply game_reset_idle. destruct H as [H | [H1 H2]].
    + rewrite H. apply andb_false_r.
    + rewrite H1, H2. reflexivity.
  - intros s rt c. cbn zeta.
    destruct ((win s || lose s) && negb (Buttons (inputstate s) =? 0)) eqn:E.
    + apply andb_prop in E. destruct E as [Ea Eb].
      apply negb_true_iff in Eb. apply Z.eqb_neq in Eb.
      destruct (game_reset_value s rt c Ea Eb) as (new & Ev & _).
      rewrite Ev. repeat split; reflexivity.
    + rewrite (game_reset_idle s rt c E). repeat split; reflexivity.
Qed.

(** X1.  Reset.  A button pressed in a won or lost game starts a new one
    in the same step: the step ends with neither flag set, the counter at 5
    and exactly five particles, each a CO2 at the chimney, and the last
    thing it sends is the clear colour of the playing game.  Without a
    button, or when the game is neither won nor lost, the reset block does
    nothing; and it never touches the spawn timer, the haptic timer or the
    lasers. *)
Theorem X1_reset :
  (forall s rt c,
      win s = true \/ lose s = true -> Buttons (inputstate s) <> 0 ->
      let o := update s rt c in
      win (value o) = false /\ lose (value o) = false /\ co2Count (value o) = 5 /\
      List.length (particles (value o)) = 5%nat /\
      Forall at_chimney (particles (value o)) /\
      exists before, events o = before ++ [play_colour]) /\
  (forall s rt c,
      Buttons (inputstate s) = 0 \/ (win s = false /\ lose s = false) ->
      game_reset s rt c = mkOut s c []) /\
  (forall s rt c,
      let s' := value (game_reset s rt c) in
      timer s' = timer s /\ vibTimer s' = vibTimer s /\
      leftLaser s' = leftLaser s /\ rightLaser s' = rightLaser s).
Proof. exact reset_facts. Qed.


End ResetFacts.

Section StateFacts.

Context {glm : GLM} {platform : Platform}.

Lemma update_particles_won s rt c :
  consistent s -> won_clause (value (update_particles s rt c)).
Proof.
  intros [Hc Hw] Hwin.
  destruct (update_particles_frame s rt c) as (Hl1 & Hw1 & _).
  rewrite Hw1 in Hwin. destruct (Hw Hwin) as [Hl H0]. split; [congruence|].
  destruct (Hc Hl) as [Hcnt _].
  rewrite update_particles_eq. cbn zeta. cbn [value co2Count set_particles].
  assert (Hr : count_co2 (particles s) <= co2Count s <= int_max)
    by (unfold int_max; lia).
  pose proof (particle_loop_count (particles s) s rt c Hr) as Hcount.
  cbn zeta in Hcount. lia.
Qed.

Lemma spawn_won_clause s rt c : won_clause s -> won_clause (value (spawn s rt c)).
Proof.
  intros H Hwin. destruct (spawn_frame s rt c) as (_ & Hw & _).
  rewrite Hw in Hwin. rewrite (spawn_won s rt c Hwin). exact (H Hwin).
Qed.

Lemma loss_case_won_clause s rt c : won_clause s -> won_clause (value (loss_case s rt c)).
Proof.
  intros H Hwin.
  destruct ((10 <? co2Count s) && negb (lose s)) eqn:E.
  - apply andb_prop in E. destruct E as [Ea Eb].
    apply Z.ltb_lt in Ea. apply negb_true_iff in Eb.
    destruct (loss_case_fires s rt c Ea Eb) as (new & Ev & _).
    rewrite Ev in Hwin. cbn [win set_lose set_particles] in Hwin.
    destruct (H Hwin) as [_ H0]. lia.
  - rewrite (loss_case_idle s rt c E) in Hwin |- *. exact (H Hwin).
Qed.

Lemma win_case_won_clause s rt c : won_clause s -> won_clause (value (win_case s rt c)).
Proof.
  intros H. unfold win_case.
  destruct ((co2Count s =? 0) && negb (lose s)) eqn:E; [|exact H].
  apply andb_prop in E. destruct E as [Ea Eb].
  apply Z.eqb_eq in Ea. apply negb_true_iff in Eb.
  intros _. split; assumption.
Qed.

Lemma game_reset_won_clause s rt c : won_clause s -> won_clause (value (game_reset s rt c)).
Proof.
  intros H.
  destruct ((win s || lose s) && negb (Buttons (inputstate s) =? 0)) eqn:E.
  - apply andb_prop in E. destruct E as [Ea Eb].
    apply negb_true_iff in Eb. apply Z.eqb_neq in Eb.
    destruct (game_reset_value s rt c Ea Eb) as (new & Ev & _).
    rewrite Ev. intros Hwin. discriminate Hwin.
  - rewrite (game_reset_idle s rt c E). exact H.
Qed.

Lemma update_consistent s rt c : consistent s -> consistent (value (update s rt c)).
Proof.
  intros H. split; [apply update_counted, H|].
  rewrite update_value. cbn zeta.
  apply game_reset_won_clause, win_case_won_clause, loss_case_won_clause,
    spawn_won_clause.
  pose proof (update_particles_won s rt (cursor (haptic_check s rt c)) H) as Hw.
  exact Hw.
Qed.

Lemma reachable_consistent s : reachable s -> consistent s.
Proof.
  induction 1 as [raw rt c | s projection modelview eyepos rt c Hr IH].
  - split; [apply new_counted|].
    intros Hwin. exfalso. revert Hwin.
    unfold ColorCubeScene_new. repeat (rewrite value_bind; cbn beta).
    cbn [ret value win set_timer set_co2Count set_particles set_rightLaser
         set_leftLaser set_factoryParticle set_fingerTriggerPressed set_lose set_win].
    discriminate.
  - destruct (render_value projection modelview eyepos s rt c)
      as (s0 & c0 & E & E1 & E2 & E3 & E4).
    rewrite E. apply update_consistent.
    destruct IH as [Hc Hw]. split.
    + intros Hl. rewrite E1, E2. apply Hc. congruence.
    + intros Hwin. rewrite E1, E3. apply Hw. congruence.
Qed.

(** X2.  The states the game can be in.  In every reachable scene the game
    is playing, won or lost, never won and lost at once.  While it is not
    lost, the counter is between 0 and 10 and so is the number of CO2
    particles; in a won game both are 0. *)
Theorem X2_game_states s :
  reachable s ->
  game_state s <> WonAndLost /\
  (lose s = false -> 0 <= co2Count s <= 10 /\ count_co2 (particles s) = co2Count s) /\
  (win s = true -> co2Count s = 0 /\ count_co2 (particles s) = 0).
Proof.
  intros Hr. destruct (reachable_consistent s Hr) as [Hc Hw].
  pose proof (count_co2_nonneg (particles s)) as Hn.
  split; [|split].
  - unfold game_state. destruct (win s) eqn:E1, (lose s) eqn:E2; try discriminate.
    destruct (Hw E1) as [Hl' _]. congruence.
  - intros Hl. destruct (Hc Hl). lia.
  - intros Hwin. destruct (Hw Hwin) as [Hl H0]. destruct (Hc Hl). lia.
Qed.

End StateFacts.

Section TerminalFacts.

Context {glm : GLM} {platform : Platform}.

(** A step of a lost game, no button pressed. *)
Lemma lost_step s rt c :
  lose s = true -> Buttons (inputstate s) = 0 ->
  lose (value (update s rt c)) = true /\ win (value (update s rt c)) = win s.
Proof.
  intros Hl Hb. rewrite update_value. cbn zeta.
  set (c0 := cursor (haptic_check s rt c)).
  destruct (update_particles_frame s rt c0) as (Hl1 & Hw1 & _ & Hi1 & _).
  remember (update_particles s rt c0) as o1 eqn:E1. clear E1.
  destruct (spawn_frame (update_lasers (value o1)) rt (cursor o1)) as (Hl2 & Hw2 & Hi2).
  remember (spawn (update_lasers (value o1)) rt (cursor o1)) as o2 eqn:E2. clear E2.
  cbn [lose win inputstate update_lasers set_rightLaser set_leftLaser] in Hl2, Hw2, Hi2.
  assert (Hl2' : lose (value o2) = true) by congruence.
  rewrite (loss_case_idle (value o2) rt (cursor o2))
    by (rewrite Hl2'; apply andb_false_r).
  cbn [value cursor].
  rewrite (win_case_idle (value o2) rt (cursor o2))
    by (rewrite Hl2'; apply andb_false_r).
  cbn [value cursor].
  rewrite (game_reset_idle (value o2) rt (cursor o2))
    by (rewrite Hi2, Hi1, Hb; apply andb_false_r).
  cbn [value]. split; congruence.
Qed.

(** A step of a won game, no button pressed. *)
Lemma won_step s rt c :
  consistent s -> win s = true -> Buttons (inputstate s) = 0 ->
  let s' := value (update s rt c) in
  win s' = true /\ lose s' = false /\
  List.length (particles s') = List.length (particles s).
Proof.
  intros [Hc Hw] Hwin Hb. cbn zeta. destruct (Hw Hwin) as [Hl H0].
  destruct (Hc Hl) as [Hcnt _].
  assert (Hn : count_co2 (particles s) = 0) by lia.
  rewrite update_value. cbn zeta.
  set (c0 := cursor (haptic_check s rt c)).
  assert (E1 : update_particles s rt c0 =
               mkOut (set_particles s (snd (value (particle_loop s (particles s) rt c0))))
                     c0 []).
  { rewrite update_particles_eq. cbn zeta.
    destruct (particle_loop_no_co2 (particles s) s rt c0 Hn) as (-> & -> & -> & _).
    reflexivity. }
  pose proof (update_particles_length s rt c0) as Hlen.
  rewrite E1 in Hlen |- *. cbn [value cursor] in Hlen |- *.
  set (s1 := set_particles s (snd (value (particle_loop s (particles s) rt c0)))) in *.
  rewrite (spawn_won (update_lasers s1) rt c0) by exact Hwin. cbn [value cursor].
  rewrite (loss_case_idle (update_lasers s1) rt c0).
  2:{ cbn [co2Count update_lasers set_rightLaser set_leftLaser s1 set_particles].
      rewrite H0. reflexivity. }
  cbn [value cursor].
  rewrite (win_case_fires (update_lasers s1) rt c0) by assumption.
  cbn [value cursor].
  rewrite (game_reset_idle (set_win (update_lasers s1) true) rt c0).
  2:{ cbn [inputstate set_win update_lasers set_rightLaser set_leftLaser s1 set_particles].
      rewrite Hb. apply andb_false_r. }
  cbn [value]. repeat split; auto.
Qed.

(** X3.  Won and Lost are left through the reset only.  From a reachable
    won scene a step without a button ends won, with no particle added; from
    a reachable lost scene it ends lost; with a button pressed either ends
    playing. *)
Theorem X3_terminal_states s rt c :
  reachable s ->
  let s' := value (update s rt c) in
  (game_state s = Won ->
   game_state s' = (if Buttons (inputstate s) =? 0 then Won else Playing) /\
   (Buttons (inputstate s) = 0 ->
    List.length (particles s') = List.length (particles s))) /\
  (game_state s = Lost ->
   game_state s' = (if Buttons (inputstate s) =? 0 then Lost else Playing)).
Proof.
  intros Hr. cbn zeta. pose proof (reachable_consistent s Hr) as Hcons.
  unfold game_state.
  split; intros Hs.
  - destruct (win s) eqn:Hw, (lose s) eqn:Hl; try discriminate Hs.
    destruct (Z.eqb_spec (Buttons (inputstate s)) 0) as [Hb | Hb].
    + destruct (won_step s rt c Hcons Hw Hb) as (E1 & E2 & E3). cbn zeta in E1, E2, E3.
      rewrite E1, E2. auto.
    + destruct (proj1 reset_facts s rt c (or_introl Hw) Hb) as (E1 & E2 & _).
      cbn zeta in E1, E2. rewrite E1, E2. split; [reflexivity|]. intros H. contradiction.
  - destruct (win s) eqn:Hw, (lose s) eqn:Hl; try discriminate Hs.
    destruct (Z.eqb_spec (Buttons (inputstate s)) 0) as [Hb | Hb].
    + destruct (lost_step s rt c Hl Hb) as (E1 & E2). rewrite E1, E2, Hw. reflexivity.
    + destruct (proj1 reset_facts s rt c (or_intror Hl) Hb) as (E1 & E2 & _).
      cbn zeta in E1, E2. rewrite E1, E2. reflexivity.
Qed.

End TerminalFacts.

Section KeptFacts.

Context {glm : GLM} {platform : Platform}.

Lemma check_walls_rotation p : rotation (check_walls p) = rotation p.
Proof.
  unfold check_walls.
  repeat match goal with |- context [if ?b then _ else _] => destruct b end;
    reflexivity.
Qed.

Lemma update_particle_kept s p rt c : kept p (snd (value (update_particle s p rt c))).
Proof.
  split; [apply update_particle_stepped|].
  destruct (update_particle_cases s p rt c) as [(_ & Hp & E) | (_ & Hq & E)];
    rewrite E; cbn [value snd rotation model set_model].
  - rewrite check_walls_rotation. split; [reflexivity|]. right. auto.
  - rewrite check_walls_rotation. split; [reflexivity|]. left. exact Hq.
Qed.

Lemma particle_loop_kept ps : forall s rt c,
  Forall2 kept ps (snd (value (particle_loop s ps rt c))).
Proof.
  induction ps as [|p ps IH]; intros s rt c.
  - constructor.
  - rewrite particle_loop_cons. cbn zeta. cbn [value snd].
    constructor; [apply update_particle_kept | apply IH].
Qed.

(** What the spawn block and the loss case add. *)
Lemma spawn_adds s rt c :
  exists added,
    particles (value (spawn s rt c)) = particles s ++ added /\
    Forall at_chimney added /\ (List.length added <= 1)%nat.
Proof.
  destruct (win s) eqn:Hw.
  - rewrite (spawn_won s rt c Hw). exists []. rewrite app_nil_r. auto.
  - destruct (spawn_playing s rt c Hw) as [Hy Hn].
    destruct (second_passed (rt_clock rt c) (timer s)).
    + destruct (Hy eq_refl) as [-> _]. eexists [_]. split; [reflexivity|].
      split; [|auto]. constructor; [|constructor]. apply new_chimney_particle_at_chimney.
    + destruct (Hn eq_refl) as [-> _]. exists []. rewrite app_nil_r. auto.
Qed.

Lemma loss_case_adds s rt c :
  exists added,
    particles (value (loss_case s rt c)) = particles s ++ added /\
    Forall (fun p => model p = co2) added /\
    (List.length added = 0 \/ List.length added = 100)%nat.
Proof.
  destruct ((10 <? co2Count s) && negb (lose s)) eqn:E.
  - unfold loss_case. rewrite E.
    destruct (push_new_Forall new_scattered_particle (fun p => model p = co2)
                (fun rt c => proj1 (new_scattered_particle_co2 rt c))
                100 (particles s) rt c) as (new & E1 & E2 & E3).
    exists new. rewrite !value_bind. cbn [ret value particles set_lose set_particles].
    rewrite E1. auto.
  - rewrite (loss_case_idle s rt c E). exists []. rewrite app_nil_r. auto.
Qed.

Lemma win_case_particles s rt c : particles (value (win_case s rt c)) = particles s.
Proof.
  unfold win_case. destruct ((co2Count s =? 0) && negb (lose s)); reflexivity.
Qed.

(** X4.  A step without a button removes nothing and reorders nothing:
    every particle keeps its place in the list, moved and reflected, with
    its rotation axis, and with its model, but that a CO2 may have become
    an O2; in particular an O2 stays an O2.  What the step adds comes at the
    end of the list and is CO2: nothing, the one particle of the spawn, the
    hundred of the loss case, or both. *)
Theorem X4_particles_are_kept s rt c :
  Buttons (inputstate s) = 0 ->
  exists moved added,
    particles (value (update s rt c)) = moved ++ added /\
    Forall2 kept (particles s) moved /\
    Forall (fun p => model p = co2) added /\
    In (List.length added) [0; 1; 100; 101]%nat.
Proof.
  intros Hb. rewrite update_value. cbn zeta.
  destruct (before_reset_flags s rt c) as (_ & _ & Hi4 & _). cbn zeta in Hi4.
  set (c0 := cursor (haptic_check s rt c)) in *.
  assert (Hk : Forall2 kept (particles s) (particles (value (update_particles s rt c0)))).
  { rewrite update_particles_eq. cbn zeta. cbn [value particles set_particles].
    apply particle_loop_kept. }
  set (o1 := update_particles s rt c0) in *. clearbody o1.
  destruct (spawn_adds (update_lasers (value o1)) rt (cursor o1)) as (a1 & Ea1 & Hf1 & Hn1).
  cbn [particles update_lasers set_rightLaser set_leftLaser] in Ea1.
  set (o2 := spawn (update_lasers (value o1)) rt (cursor o1)) in *. clearbody o2.
  destruct (loss_case_adds (value o2) rt (cursor o2)) as (a2 & Ea2 & Hf2 & Hn2).
  set (o3 := loss_case (value o2) rt (cursor o2)) in *. clearbody o3.
  pose proof (win_case_particles (value o3) rt (cursor o3)) as Ew.
  set (o4 := win_case (value o3) rt (cursor o3)) in *. clearbody o4.
  rewrite (game_reset_idle (value o4) rt (cursor o4))
    by (rewrite Hi4, Hb; apply andb_false_r).
  cbn [value]. exists (particles (value o1)), (a1 ++ a2).
  rewrite Ew, Ea2, Ea1, app_assoc. split; [reflexivity|]. split; [exact Hk|].
  split.
  - apply Forall_app. split; [|exact Hf2].
    eapply Forall_impl; [|exact Hf1]. intros p [Hp _]. exact Hp.
  - rewrite length_app.
    destruct a1 as [|x [|y a1]]; cbn [List.length] in Hn1 |- *;
      [| |exfalso; lia]; destruct Hn2 as [-> | ->]; cbn; auto 6.
Qed.

End KeptFacts.

Section LaserFacts.

Context {glm : GLM} {platform : Platform}.

Lemma converts_needs_red s p :
  model (leftLaser s) <> redLaser \/ model (rightLaser s) <> redLaser ->
  converts s p = false.
Proof.
  intros H. unfold converts.
  destruct H as [H | H]; apply Model_eqb_neq in H; rewrite H;
    rewrite ?andb_false_r; reflexivity.
Qed.

(** With a laser that is not red the loop converts nothing. *)
Lemma particle_loop_idle_lasers ps : forall s rt c,
  model (leftLaser s) <> redLaser \/ model (rightLaser s) <> redLaser ->
  fst (value (particle_loop s ps rt c)) = s /\
  events (particle_loop s ps rt c) = [] /\
  map model (snd (value (particle_loop s ps rt c))) = map model ps.
Proof.
  induction ps as [|p rest IH]; intros s rt c H.
  - cbn [particle_loop ret value fst snd events map]. auto.
  - rewrite particle_loop_cons. cbn zeta. cbn [value fst snd events].
    destruct (update_particle_cases s p rt c) as [(Hc & _) | (_ & Hq & E)].
    + rewrite (converts_needs_red s _ H) in Hc. discriminate.
    + rewrite E. cbn [value cursor fst snd events].
      destruct (IH s rt c H) as (E1 & E2 & E3).
      rewrite E1, E2. cbn [map app]. rewrite E3, Hq. auto.
Qed.

Lemma game_reset_lasers s rt c :
  leftLaser (value (game_reset s rt c)) = leftLaser s /\
  rightLaser (value (game_reset s rt c)) = rightLaser s /\
  inputstate (value (game_reset s rt c)) = inputstate s.
Proof.
  destruct ((win s || lose s) && negb (Buttons (inputstate s) =? 0)) eqn:E.
  - apply andb_prop in E. destruct E as [Ea Eb].
    apply negb_true_iff in Eb. apply Z.eqb_neq in Eb.
    destruct (game_reset_value s rt c Ea Eb) as (new & Ev & _).
    rewrite Ev. repeat split; reflexivity.
  - rewrite (game_reset_idle s rt c E). repeat split; reflexivity.
Qed.

Lemma win_case_lasers s rt c :
  leftLaser (value (win_case s rt c)) = leftLaser s /\
  rightLaser (value (win_case s rt c)) = rightLaser s /\
  inputstate (value (win_case s rt c)) = inputstate s.
Proof.
  unfold win_case. destruct ((co2Count s =? 0) && negb (lose s));
    repeat split; reflexivity.
Qed.

Lemma loss_case_lasers s rt c :
  leftLaser (value (loss_case s rt c)) = leftLaser s /\
  rightLaser (value (loss_case s rt c)) = rightLaser s /\
  inputstate (value (loss_case s rt c)) = inputstate s.
Proof.
  destruct ((10 <? co2Count s) && negb (lose s)) eqn:E.
  - apply andb_prop in E. destruct E as [Ea Eb].
    apply Z.ltb_lt in Ea. apply negb_true_iff in Eb.
    destruct (loss_case_fires s rt c Ea Eb) as (new & Ev & _).
    rewrite Ev. repeat split; reflexivity.
  - rewrite (loss_case_idle s rt c E). repeat split; reflexivity.
Qed.

Lemma spawn_lasers s rt c :
  leftLaser (value (spawn s rt c)) = leftLaser s /\
  rightLaser (value (spawn s rt c)) = rightLaser s /\
  inputstate (value (spawn s rt c)) = inputstate s.
Proof.
  destruct (win s) eqn:Hw.
  - rewrite (spawn_won s rt c Hw). repeat split; reflexivity.
  - destruct (spawn_playing s rt c Hw) as [Hy Hn].
    destruct (second_passed (rt_clock rt c) (timer s)).
    + destruct (Hy eq_refl) as [-> _]. repeat split; reflexivity.
    + destruct (Hn eq_refl) as [-> _]. repeat split; reflexivity.
Qed.

(** The lasers after a step: coloured by the triggers the scene holds,
    where the scene had them. *)
Lemma update_lasers_after s rt c :
  let s' := value (update s rt c) in
  inputstate s' = inputstate s /\
  leftLaser s' =
    set_model (leftLaser s) (laser_model (at0 (IndexTrigger (inputstate s)))) /\
  rightLaser s' =
    set_model (rightLaser s) (laser_model (at1 (IndexTrigger (inputstate s)))).
Proof.
  cbn zeta. rewrite update_value. cbn zeta.
  set (c0 := cursor (haptic_check s rt c)).
  destruct (update_particles_frame s rt c0) as (_ & _ & _ & Hi1 & Hll & Hrl & _).
  set (o1 := update_particles s rt c0) in *. clearbody o1.
  destruct (spawn_lasers (update_lasers (value o1)) rt (cursor o1)) as (L2 & R2 & I2).
  cbn [leftLaser rightLaser inputstate update_lasers set_rightLaser set_leftLaser] in L2, R2, I2.
  set (o2 := spawn (update_lasers (value o1)) rt (cursor o1)) in *. clearbody o2.
  destruct (loss_case_lasers (value o2) rt (cursor o2)) as (L3 & R3 & I3).
  set (o3 := loss_case (value o2) rt (cursor o2)) in *. clearbody o3.
  destruct (win_case_lasers (value o3) rt (cursor o3)) as (L4 & R4 & I4).
  set (o4 := win_case (value o3) rt (cursor o3)) in *. clearbody o4.
  destruct (game_reset_lasers (value o4) rt (cursor o4)) as (L5 & R5 & I5).
  rewrite L5, R5, I5, L4, R4, I4, L3, R3, I3, L2, R2, I2, Hi1, Hll, Hrl.
  repeat split; reflexivity.
Qed.

End LaserFacts.

Section RenderFacts.

Context {glm : GLM} {platform : Platform}.

Lemma draw_particles_cursor ps : forall rt c, cursor (draw_particles ps rt c) = c.
Proof.
  induction ps as [|p ps IH]; intros rt c; [reflexivity|].
  cbn [draw_particles]. repeat (rewrite cursor_bind; cbn beta).
  cbn [emit cursor]. apply IH.
Qed.

Lemma getControllerData_cursor s rt c : cursor (getControllerData s rt c) = S (S (S c)).
Proof. reflexivity. Qed.

(** [render] ends with the step of the posed scene. *)
Lemma render_posed projection modelview eyepos s rt c :
  value (render projection modelview eyepos s rt c) =
  value (update (posed s rt c) rt (S (S (S c)))) /\
  events (render projection modelview eyepos s rt c) =
  [glUseProgram (shaderProg s);
   glUniformMatrix4fv u_projection projection;
   glUniformMatrix4fv u_view modelview;
   glUniform3f u_eyepos eyepos;
   glUniformMatrix4fv u_model (transform (leftLaser (posed s rt c)));
   Model_Draw (model (leftLaser s));
   glUniformMatrix4fv u_model (transform (rightLaser (posed s rt c)));
   Model_Draw (model (rightLaser s));
   glUniformMatrix4fv u_model (transform (factoryParticle s));
   Model_Draw (model (factoryParticle s))] ++
  events (draw_particles (particles s) rt (S (S (S c)))) ++
  events (update (posed s rt c) rt (S (S (S c)))).
Proof.
  destruct (getControllerData_frame s rt c) as (_ & Hp & _). cbn zeta in Hp.
  assert (Hg : shaderProg (value (getControllerData s rt c)) = shaderProg s /\
               leftLaser (value (getControllerData s rt c)) = leftLaser s /\
               rightLaser (value (getControllerData s rt c)) = rightLaser s /\
               factoryParticle (value (getControllerData s rt c)) = factoryParticle s).
  { unfold getControllerData. repeat (rewrite value_bind; cbn beta). cbn [ret value].
    destruct (OVR_SUCCESS _); repeat split; reflexivity. }
  destruct Hg as (Hs & Hl & Hr & Hf).
  split.
  - unfold render. repeat (rewrite value_bind; cbn beta).
    repeat (rewrite cursor_bind; cbn beta). cbn [emit cursor].
    rewrite draw_particles_cursor. reflexivity.
  - unfold render. repeat (rewrite events_bind; cbn beta).
    repeat (rewrite cursor_bind; cbn beta). cbn [emit cursor events].
    rewrite draw_particles_cursor, getControllerData_events.
    change (cursor (getControllerData s rt c)) with (S (S (S c))).
    match goal with
    | |- context [events (update ?st rt ?cc)] => set (U := events (update st rt cc))
    end.
    cbn [app particles set_rightLaser set_leftLaser model set_transform
         factoryParticle shaderProg leftLaser rightLaser].
    rewrite Hp, Hs, Hl, Hr, Hf. reflexivity.
Qed.

End RenderFacts.

Section RenderTheorems.

Context {glm : GLM} {platform : Platform}.

Lemma update_no_model_command s rt c :
  filter is_model_command (events (update s rt c)) = [].
Proof.
  rewrite update_events. cbn zeta.
  rewrite !filter_app, spawn_events, loss_case_events.
  assert (H0 : filter is_model_command (events (haptic_check s rt c)) = []).
  { unfold haptic_check.
    destruct (at0 (fingerTriggerPressed s)); [|reflexivity].
    destruct (at1 (fingerTriggerPressed s)); [|reflexivity].
    cbn [negb]. rewrite events_bind. cbn [std_clock query value cursor events app].
    destruct (cooldown_over (rt_clock rt c) (vibTimer s)); reflexivity. }
  assert (H1 : forall n, filter is_model_command (List.concat (repeat start_pair n)) = []).
  { induction n as [|n IH]; [reflexivity|].
    rewrite repeat_start_pair_S, filter_app, IH. reflexivity. }
  assert (H4 : forall s rt c, filter is_model_command (events (win_case s rt c)) = []).
  { intros s0 rt0 c0. unfold win_case.
    destruct ((co2Count s0 =? 0) && negb (lose s0)); reflexivity. }
  assert (H5 : forall s rt c, filter is_model_command (events (game_reset s rt c)) = []).
  { intros s0 rt0 c0.
    destruct ((win s0 || lose s0) && negb (Buttons (inputstate s0) =? 0)) eqn:E.
    - apply andb_prop in E. destruct E as [Ea Eb].
      apply negb_true_iff in Eb. apply Z.eqb_neq in Eb.
      destruct (game_reset_fires s0 rt0 c0 Ea Eb) as (new & _ & _ & _ & Ee).
      rewrite Ee. reflexivity.
    - now rewrite (game_reset_idle s0 rt0 c0 E). }
  rewrite H0, H4, H5. rewrite update_particles_eq. cbn zeta. cbn [events].
  destruct (particle_loop_events (particles s) s rt (cursor (haptic_check s rt c)))
    as [-> _].
  rewrite H1. reflexivity.
Qed.

Lemma draw_particles_events ps : forall rt c,
  events (draw_particles ps rt c) = flat_map shown ps.
Proof.
  induction ps as [|p ps IH]; intros rt c; [reflexivity|].
  cbn [draw_particles]. repeat (rewrite events_bind; cbn beta).
  cbn [emit events flat_map shown app]. rewrite IH. reflexivity.
Qed.

Lemma filter_model_command_shown ps :
  filter is_model_command (flat_map shown ps) = flat_map shown ps.
Proof.
  induction ps as [|p ps IH]; [reflexivity|].
  cbn [flat_map shown app filter is_model_command]. rewrite IH. reflexivity.
Qed.

(** X6.  [render] shows the scene as it is before the step it ends with:
    it uploads a matrix and draws a model for the left laser, the right
    laser, the factory and then each particle in the order of the list, one
    draw per particle, with the models and the particle matrices the scene
    had when [render] was called; only the two laser matrices are new, laid
    along the hands of this call.  What the step converts or adds is drawn
    by the next call. *)
Theorem X6_render_draws_before_stepping projection modelview eyepos s rt c :
  filter is_model_command (events (render projection modelview eyepos s rt c)) =
  flat_map shown
    (set_transform (leftLaser s) (transform (leftLaser (posed s rt c))) ::
     set_transform (rightLaser s) (transform (rightLaser (posed s rt c))) ::
     factoryParticle s :: particles s).
Proof.
  destruct (render_posed projection modelview eyepos s rt c) as [_ E]. rewrite E.
  rewrite !filter_app, update_no_model_command, draw_particles_events,
    filter_model_command_shown, app_nil_r.
  reflexivity.
Qed.

Lemma haptic_check_events_cases s rt c :
  events (haptic_check s rt c) = [] \/ events (haptic_check s rt c) = stop_pair.
Proof.
  unfold haptic_check.
  destruct (at0 (fingerTriggerPressed s)); [|right; reflexivity].
  destruct (at1 (fingerTriggerPressed s)); [|right; reflexivity].
  cbn [negb]. rewrite events_bind. cbn [std_clock query value cursor events app].
  destruct (cooldown_over (rt_clock rt c) (vibTimer s)); [right|left]; reflexivity.
Qed.

Lemma update_idle_lasers s rt c :
  model (leftLaser s) <> redLaser \/ model (rightLaser s) <> redLaser ->
  let o1 := update_particles s rt (cursor (haptic_check s rt c)) in
  map model (particles (value o1)) = map model (particles s) /\
  co2Count (value o1) = co2Count s /\
  filter is_vibration (events (update s rt c)) = events (haptic_check s rt c).
Proof.
  intros H. cbn zeta. rewrite update_particles_eq. cbn zeta.
  cbn [value particles co2Count set_particles].
  destruct (particle_loop_idle_lasers (particles s) s rt (cursor (haptic_check s rt c)) H)
    as (E1 & E2 & E3).
  rewrite E1, E3. repeat split.
  rewrite update_events. cbn zeta.
  rewrite !filter_app, haptic_check_vibration, spawn_events, loss_case_events,
    win_case_vibration, game_reset_vibration.
  rewrite update_particles_eq. cbn zeta. cbn [events]. rewrite E2.
  cbn [filter app]. now rewrite app_nil_r.
Qed.

Lemma render_vibration projection modelview eyepos s rt c :
  filter is_vibration (events (render projection modelview eyepos s rt c)) =
  filter is_vibration (events (update (posed s rt c) rt (S (S (S c))))).
Proof.
  destruct (render_posed projection modelview eyepos s rt c) as [_ E]. rewrite E.
  rewrite !filter_app, draw_particles_events.
  assert (H : forall ps, filter is_vibration (flat_map shown ps) = []).
  { induction ps as [|p ps IH]; [reflexivity|].
    cbn [flat_map shown app filter is_vibration]. exact IH. }
  rewrite H. reflexivity.
Qed.

(** X5.  A trigger acts one step late.  The colour of a laser is set at
    the end of a step, from the trigger read in the [render] that ran the
    step, and the conversion test of a step looks at the colours it finds: a
    step that starts with a laser that is not red converts no particle,
    leaves the counter and asks for no vibration, whatever the triggers and
    the hands.  The constructor makes both lasers green, so the first
    [render] of a scene converts nothing. *)
Theorem X5_trigger_acts_one_step_late :
  (forall projection modelview eyepos s rt c,
      let s' := value (render projection modelview eyepos s rt c) in
      let hands := rt_GetTrackingState rt (S c) (rt_GetPredictedDisplayTime rt c) in
      inputstate s' = snd (rt_GetInputState rt (S (S c)) (inputstate s)) /\
      model (leftLaser s') = laser_model (at0 (IndexTrigger (inputstate s'))) /\
      model (rightLaser s') = laser_model (at1 (IndexTrigger (inputstate s'))) /\
      transform (leftLaser s') = laser_transform glm_identity (at0 hands) /\
      transform (rightLaser s') = laser_transform glm_identity (at1 hands)) /\
  (forall s rt c,
      model (leftLaser s) <> redLaser \/ model (rightLaser s) <> redLaser ->
      let o1 := update_particles s rt (cursor (haptic_check s rt c)) in
      map model (particles (value o1)) = map model (particles s) /\
      co2Count (value o1) = co2Count s /\
      filter is_vibration (events (update s rt c)) = events (haptic_check s rt c)) /\
  (forall raw rt c projection modelview eyepos rt' c',
      let s0 := value (ColorCubeScene_new raw rt c) in
      let o := render projection modelview eyepos s0 rt' c' in
      model (leftLaser s0) = greenLaser /\ model (rightLaser s0) = greenLaser /\
      (filter is_vibration (events o) = [] \/ filter is_vibration (events o) = stop_pair)).
Proof.
  split; [|split].
  - intros projection modelview eyepos s rt c. cbn zeta.
    destruct (render_posed projection modelview eyepos s rt c) as [E _]. rewrite E.
    destruct (update_lasers_after (posed s rt c) rt (S (S (S c)))) as (Hi & Hl & Hr).
    cbn zeta in Hi, Hl, Hr. rewrite Hi, Hl, Hr.
    unfold posed, getControllerData. repeat (rewrite value_bind; cbn beta).
    cbn [ret value query].
    destruct (OVR_SUCCESS _); repeat split; reflexivity.
  - apply update_idle_lasers.
  - intros raw rt c projection modelview eyepos rt' c'. cbn zeta.
    assert (Hg : model (leftLaser (value (ColorCubeScene_new raw rt c))) = greenLaser /\
                 model (rightLaser (value (ColorCubeScene_new raw rt c))) = greenLaser).
    { unfold ColorCubeScene_new. repeat (rewrite value_bind; cbn beta).
      cbn [ret value]. split; reflexivity. }
    destruct Hg as [Hl Hr]. split; [exact Hl|]. split; [exact Hr|].
    rewrite render_vibration.
    set (s0 := value (ColorCubeScene_new raw rt c)) in *.
    assert (Hp : model (leftLaser (posed s0 rt' c')) <> redLaser \/
                 model (rightLaser (posed s0 rt' c')) <> redLaser).
    { left. unfold posed, getControllerData. repeat (rewrite value_bind; cbn beta).
      cbn [ret value]. destruct (OVR_SUCCESS _);
        cbn [leftLaser set_rightLaser set_leftLaser model set_transform
             set_fingerTriggerPressed set_inputstate set_handPoses];
        rewrite Hl; discriminate. }
    destruct (update_idle_lasers (posed s0 rt' c') rt' (S (S (S c'))) Hp) as (_ & _ & E).
    rewrite E. apply haptic_check_events_cases.
Qed.

End RenderTheorems.

(* ===================================================================== *)
(** ** Further properties of the frame *)

Section ProtocolFacts.

Context {glm : GLM} {platform : Platform}.

Lemma update_no_frame_command s rt c :
  filter is_frame_command (events (update s rt c)) = [].
Proof.
  rewrite update_events. cbn zeta.
  rewrite !filter_app, spawn_events, loss_case_events.
  assert (H0 : filter is_frame_command (events (haptic_check s rt c)) = []).
  { destruct (haptic_check_events_cases s rt c) as [-> | ->]; reflexivity. }
  assert (H1 : forall n, filter is_frame_command (List.concat (repeat start_pair n)) = []).
  { induction n as [|n IH]; [reflexivity|].
    rewrite repeat_start_pair_S, filter_app, IH. reflexivity. }
  assert (H4 : forall s rt c, filter is_frame_command (events (win_case s rt c)) = []).
  { intros s0 rt0 c0. unfold win_case.
    destruct ((co2Count s0 =? 0) && negb (lose s0)); reflexivity. }
  assert (H5 : forall s rt c, filter is_frame_command (events (game_reset s rt c)) = []).
  { intros s0 rt0 c0.
    destruct ((win s0 || lose s0) && negb (Buttons (inputstate s0) =? 0)) eqn:E.
    - apply andb_prop in E. destruct E as [Ea Eb].
      apply negb_true_iff in Eb. apply Z.eqb_neq in Eb.
      destruct (game_reset_fires s0 rt0 c0 Ea Eb) as (new & _ & _ & _ & Ee).
      rewrite Ee. reflexivity.
    - now rewrite (game_reset_idle s0 rt0 c0 E). }
  rewrite H0, H4, H5. rewrite update_particles_eq. cbn zeta. cbn [events].
  destruct (particle_loop_events (particles s) s rt (cursor (haptic_check s rt c)))
    as [-> _].
  rewrite H1. reflexivity.
Qed.

Lemma render_no_frame_command projection modelview eyepos s rt c :
  filter is_frame_command (events (render projection modelview eyepos s rt c)) = [].
Proof.
  destruct (render_posed projection modelview eyepos s rt c) as [_ E]. rewrite E.
  rewrite !filter_app, update_no_frame_command, draw_particles_events.
  assert (H : forall ps, filter is_frame_command (flat_map shown ps) = []).
  { induction ps as [|p ps IH]; [reflexivity|].
    cbn [flat_map shown app filter is_frame_command]. exact IH. }
  rewrite H. reflexivity.
Qed.

Lemma run_frame_commands st rt c :
  let a := fst st in
  let vl := at0 (Viewport (_sceneLayer a)) in
  let vr := at1 (Viewport (_sceneLayer a)) in
  let m := _mirrorSize a in
  let n := wrap_uint (frame a + 1) in
  exists mirrorTextureId,
    filter is_frame_command (events (run_frame ExampleApp_renderScene st rt c)) =
    [glfwPollEvents;
     glBindFramebuffer GL_DRAW_FRAMEBUFFER (_fbo a);
     glFramebufferTexture2D GL_DRAW_FRAMEBUFFER
       (rt_GetTextureSwapChainBufferGL rt (S (S c))
          (rt_GetTextureSwapChainCurrentIndex rt (S c)));
     glClear;
     glViewport (v2i_x (Pos vl)) (v2i_y (Pos vl)) (sz_w (Size vl)) (sz_h (Size vl));
     glViewport (v2i_x (Pos vr)) (v2i_y (Pos vr)) (sz_w (Size vr)) (sz_h (Size vr));
     glFramebufferTexture2D GL_DRAW_FRAMEBUFFER 0;
     glBindFramebuffer GL_DRAW_FRAMEBUFFER 0;
     ovr_CommitTextureSwapChain;
     ovr_SubmitFrame n
       (frame_layer (set_frame a n) (rt_GetEyePoses rt c));
     glBindFramebuffer GL_READ_FRAMEBUFFER (_mirrorFbo a);
     glFramebufferTexture2D GL_READ_FRAMEBUFFER mirrorTextureId;
     glBlitFramebuffer 0 0 (wrap_int (uv_x m)) (wrap_int (uv_y m))
                       0 (wrap_int (uv_y m)) (wrap_int (uv_x m)) 0;
     glBindFramebuffer GL_READ_FRAMEBUFFER 0;
     glfwSwapBuffers].
Proof.
  cbn zeta. destruct (run_frame_events st rt c) as [_ E]. rewrite E.
  unfold ExampleApp_draw. rewrite draw_run. cbn zeta. cbn [events fst snd].
  eexists.
  unfold right_call, left_call, ExampleApp_renderScene. cbn zeta.
  repeat (cbn [filter is_frame_command app]; rewrite ?filter_app).
  rewrite !render_no_frame_command.
  cbn [filter is_frame_command app frame set_frame _fbo _mirrorFbo _mirrorSize
       _sceneLayer Viewport].
  reflexivity.
Qed.

(** X7.  The protocol of a frame.  Every turn of the loop goes through the
    same steps in the same order: poll the events; bind the framebuffer,
    attach the swap-chain texture the runtime names as the current one, and
    clear; the left viewport, then the right one (the scene is rendered
    after each); detach the texture and unbind; commit the swap chain, and
    only then submit the layer, with the frame counter just incremented;
    bind the mirror, blit it upside down and unbind; swap the buffers.  The
    scene sends none of these commands. *)
Theorem X7_frame_protocol st rt c :
  let a := fst st in
  let vl := at0 (Viewport (_sceneLayer a)) in
  let vr := at1 (Viewport (_sceneLayer a)) in
  let m := _mirrorSize a in
  let n := wrap_uint (frame a + 1) in
  exists mirrorTextureId,
    filter is_frame_command (events (run_frame ExampleApp_renderScene st rt c)) =
    [glfwPollEvents;
     glBindFramebuffer GL_DRAW_FRAMEBUFFER (_fbo a);
     glFramebufferTexture2D GL_DRAW_FRAMEBUFFER
       (rt_GetTextureSwapChainBufferGL rt (S (S c))
          (rt_GetTextureSwapChainCurrentIndex rt (S c)));
     glClear;
     glViewport (v2i_x (Pos vl)) (v2i_y (Pos vl)) (sz_w (Size vl)) (sz_h (Size vl));
     glViewport (v2i_x (Pos vr)) (v2i_y (Pos vr)) (sz_w (Size vr)) (sz_h (Size vr));
     glFramebufferTexture2D GL_DRAW_FRAMEBUFFER 0;
     glBindFramebuffer GL_DRAW_FRAMEBUFFER 0;
     ovr_CommitTextureSwapChain;
     ovr_SubmitFrame n
       (frame_layer (set_frame a n) (rt_GetEyePoses rt c));
     glBindFramebuffer GL_READ_FRAMEBUFFER (_mirrorFbo a);
     glFramebufferTexture2D GL_READ_FRAMEBUFFER mirrorTextureId;
     glBlitFramebuffer 0 0 (wrap_int (uv_x m)) (wrap_int (uv_y m))
                       0 (wrap_int (uv_y m)) (wrap_int (uv_x m)) 0;
     glBindFramebuffer GL_READ_FRAMEBUFFER 0;
     glfwSwapBuffers].
Proof. exact (run_frame_commands st rt c). Qed.


End ProtocolFacts.

Section RunFacts.

Context {glm : GLM} {platform : Platform}.

Lemma submitted_indices_app a b :
  submitted_indices (a ++ b) = submitted_indices a ++ submitted_indices b.
Proof. apply flat_map_app. Qed.

Lemma submitted_indices_filter l :
  submitted_indices (filter is_frame_command l) = submitted_indices l.
Proof.
  induction l as [|e l IH]; [reflexivity|].
  destruct e; cbn [filter is_frame_command submitted_indices flat_map app];
    fold (submitted_indices l);
    fold (submitted_indices (filter is_frame_command l)); rewrite ?IH; reflexivity.
Qed.

Lemma filter_blit_filter l :
  filter is_blit (filter is_frame_command l) = filter is_blit l.
Proof.
  induction l as [|e l IH]; [reflexivity|].
  destruct e; cbn [filter is_frame_command is_blit]; rewrite ?IH; reflexivity.
Qed.

Lemma frames_of_indices l : frames_of l = List.length (submitted_indices l).
Proof.
  unfold frames_of, observed, submitted_indices.
  induction l as [|e l IH]; [reflexivity|].
  cbn [flat_map]. rewrite filter_app, !length_app, IH.
  destruct e as [| | | | | | |u m| | | | | | | | |]; try reflexivity.
  destruct u; reflexivity.
Qed.

(** What one turn of the loop does to the application. *)
Lemma run_frame_setup st rt c :
  let o := run_frame ExampleApp_renderScene st rt c in
  same_setup (fst st) (fst (value o)) /\
  frame (fst (value o)) = wrap_uint (frame (fst st) + 1) /\
  submitted_indices (events o) = [wrap_uint (frame (fst st) + 1)] /\
  filter is_blit (events o) =
    [glBlitFramebuffer 0 0 (wrap_int (uv_x (_mirrorSize (fst st))))
       (wrap_int (uv_y (_mirrorSize (fst st))))
       0 (wrap_int (uv_y (_mirrorSize (fst st))))
       (wrap_int (uv_x (_mirrorSize (fst st)))) 0].
Proof.
  cbn zeta.
  destruct (run_frame_commands st rt c) as (mid & E). cbn zeta in E.
  rewrite <- submitted_indices_filter, <- filter_blit_filter, E.
  split; [|split; [|split; reflexivity]].
  - unfold run_frame. repeat (rewrite value_bind; cbn beta). cbn [ret value].
    rewrite draw_value. unfold same_setup. repeat split; reflexivity.
  - unfold run_frame. repeat (rewrite value_bind; cbn beta). cbn [ret value].
    rewrite draw_value. reflexivity.
Qed.

Lemma same_setup_refl a : same_setup a a.
Proof. unfold same_setup. repeat split; reflexivity. Qed.

Lemma same_setup_trans a b d : same_setup a b -> same_setup b d -> same_setup a d.
Proof.
  unfold same_setup.
  intros (A1 & A2 & A3 & A4 & A5 & A6 & A7 & A8 & A9 & A10)
         (B1 & B2 & B3 & B4 & B5 & B6 & B7 & B8 & B9 & B10).
  repeat split; congruence.
Qed.

Lemma wrap_uint_succ f i :
  wrap_uint (wrap_uint (f + 1) + Z.of_nat i) = wrap_uint (f + Z.of_nat (S i)).
Proof.
  unfold wrap_uint. rewrite Zplus_mod_idemp_l. f_equal. lia.
Qed.

Lemma run_loop_frames fuel : forall st rt c,
  let o := ExampleApp_run_loop fuel st rt c in
  let k := frames_of (events o) in
  let m := _mirrorSize (fst st) in
  same_setup (fst st) (fst (snd (value o))) /\
  submitted_indices (events o) =
    map (fun i => wrap_uint (frame (fst st) + Z.of_nat i)) (seq 1 k) /\
  (0 <= frame (fst st) < 2 ^ 32 ->
   frame (fst (snd (value o))) = wrap_uint (frame (fst st) + Z.of_nat k)) /\
  filter is_blit (events o) =
    repeat (glBlitFramebuffer 0 0 (wrap_int (uv_x m)) (wrap_int (uv_y m))
                              0 (wrap_int (uv_y m)) (wrap_int (uv_x m)) 0) k /\
  (fst (value o) = true -> rt_WindowShouldClose rt (Nat.pred (cursor o)) = true).
Proof.
  induction fuel as [|fuel IH]; intros st rt c; cbn zeta.
  - cbn [ExampleApp_run_loop run_loop ret value events cursor fst snd].
    split; [apply same_setup_refl|]. split; [reflexivity|]. split.
    + intros H. cbn [frames_of observed flat_map filter List.length Z.of_nat].
      rewrite Z.add_0_r. symmetry. apply wrap_uint_id. exact H.
    + split; [reflexivity|discriminate].
  - unfold ExampleApp_run_loop. rewrite run_loop_S.
    destruct (rt_WindowShouldClose rt c) eqn:Hc.
    + cbn [value events cursor fst snd Nat.pred].
      split; [apply same_setup_refl|]. split; [reflexivity|]. split.
      * intros H. cbn [frames_of observed flat_map filter List.length Z.of_nat].
        rewrite Z.add_0_r. symmetry. apply wrap_uint_id. exact H.
      * split; [reflexivity|]. intros _. exact Hc.
    + cbn zeta. cbn [value events cursor].
      destruct (run_frame_setup st rt (S c)) as (S1 & F1 & I1 & B1). cbn zeta in *.
      destruct (run_frame_observed st rt (S c)) as (_ & K1 & _).
      remember (run_frame ExampleApp_renderScene st rt (S c)) as o eqn:Ho. clear Ho.
      destruct (IH (value o) rt (cursor o)) as (S2 & I2 & F2 & B2 & C2).
      unfold ExampleApp_run_loop in S2, I2, F2, B2, C2.
      remember (run_loop ExampleApp_renderScene fuel (value o) rt (cursor o))
        as o' eqn:Ho' in *.
      clear Ho' IH.
      destruct S1 as (A1 & A2 & A3 & A4 & A5 & A6 & A7 & A8 & A9 & A10).
      rewrite A7 in B2.
      rewrite frames_of_app, K1, submitted_indices_app, filter_app, I1, I2, B1, B2.
      cbn [plus seq map repeat app].
      split; [eapply same_setup_trans; [|exact S2]; unfold same_setup; auto 12|].
      split.
      * f_equal.
        rewrite <- (seq_shift _ 1), map_map. apply map_ext. intros i.
        rewrite F1. apply wrap_uint_succ.
      * split; [|split; [reflexivity|exact C2]].
        intros H. rewrite F2, F1.
        -- apply wrap_uint_succ.
        -- rewrite F1. unfold wrap_uint. apply Z.mod_pos_bound. lia.
Qed.

End RunFacts.

Section RunTheorems.

Context {glm : GLM} {platform : Platform}.

Lemma run_loop_exit fuel : forall st rt c,
  let o := ExampleApp_run_loop fuel st rt c in
  fst (value o) = false -> frames_of (events o) = fuel.
Proof.
  induction fuel as [|fuel IH]; intros st rt c; cbn zeta.
  - reflexivity.
  - unfold ExampleApp_run_loop. rewrite run_loop_S.
    destruct (rt_WindowShouldClose rt c) eqn:Hc.
    + cbn [value fst]. discriminate.
    + cbn zeta. cbn [value events]. intros H.
      destruct (run_frame_observed st rt (S c)) as (_ & K1 & _).
      remember (run_frame ExampleApp_renderScene st rt (S c)) as o eqn:Ho. clear Ho.
      specialize (IH (value o) rt (cursor o)). cbn zeta in IH.
      unfold ExampleApp_run_loop in IH.
      rewrite frames_of_app, K1, (IH H). reflexivity.
Qed.

(** X8.  The frame index.  The index handed to the compositor is
    incremented before each frame is drawn, as an unsigned 32 bit number:
    the frames of a run are submitted under consecutive indices, starting
    one above the index the application had, and the application is left
    with the index of its last frame.  An application that starts at 0, as
    the constructor leaves it, submits its frames as 1, 2, 3, ...; one that
    stands at the largest index submits its next frame as 0. *)
Theorem X8_frame_indices fuel st rt c :
  0 <= frame (fst st) < 2 ^ 32 ->
  let o := ExampleApp_run_loop fuel st rt c in
  let k := frames_of (events o) in
  submitted_indices (events o) =
    map (fun i => wrap_uint (frame (fst st) + Z.of_nat i)) (seq 1 k) /\
  frame (fst (snd (value o))) = wrap_uint (frame (fst st) + Z.of_nat k) /\
  (frame (fst st) = 0 -> Z.of_nat fuel < 2 ^ 32 ->
   submitted_indices (events o) = map Z.of_nat (seq 1 k)) /\
  (frame (fst st) = 2 ^ 32 - 1 -> (1 <= k)%nat ->
   hd_error (submitted_indices (events o)) = Some 0).
Proof.
  intros Hf. cbn zeta.
  destruct (run_loop_frames fuel st rt c) as (_ & I & F & _). cbn zeta in I, F.
  destruct (run_loop_observed fuel st rt c) as (_ & Hk & _). cbn zeta in Hk.
  remember (ExampleApp_run_loop fuel st rt c) as o eqn:Ho. clear Ho.
  split; [exact I|]. split; [exact (F Hf)|]. split.
  - intros H0 Hfuel. rewrite I, H0. apply map_ext_in. intros i Hi.
    apply in_seq in Hi. apply wrap_uint_id. lia.
  - intros Hmax Hk1. rewrite I, Hmax.
    destruct (frames_of (events o)) as [|k]; [lia|]. reflexivity.
Qed.

(** X9.  What a run leaves alone, and how it ends.  Whatever the number of
    frames, the application keeps the framebuffers, the eye descriptions
    and projections, the eye offsets, the size of the render target and of
    the mirror, and the texture, viewports and fields of view of its layer:
    a frame only writes the frame index, the sample time and the poses of
    the layer.  Every frame copies the same rectangle of the mirror
    texture to the window, upside down.  The loop is left with the flag set
    only after the window answered that it should close, at the last
    question of the run; and it stops without the flag only when it has
    drawn as many frames as it was given turns. *)
Theorem X9_run_keeps_setup fuel st rt c :
  let o := ExampleApp_run_loop fuel st rt c in
  let k := frames_of (events o) in
  let m := _mirrorSize (fst st) in
  same_setup (fst st) (fst (snd (value o))) /\
  filter is_blit (events o) =
    repeat (glBlitFramebuffer 0 0 (wrap_int (uv_x m)) (wrap_int (uv_y m))
                              0 (wrap_int (uv_y m)) (wrap_int (uv_x m)) 0) k /\
  (fst (value o) = true -> rt_WindowShouldClose rt (Nat.pred (cursor o)) = true) /\
  (fst (value o) = false -> k = fuel).
Proof.
  cbn zeta.
  destruct (run_loop_frames fuel st rt c) as (S1 & _ & _ & B & C). cbn zeta in *.
  pose proof (run_loop_exit fuel st rt c) as E. cbn zeta in E.
  remember (ExampleApp_run_loop fuel st rt c) as o eqn:Ho. clear Ho.
  split; [exact S1|]. split; [exact B|]. split; [exact C|exact E].
Qed.

(** X10.  The mirror is a quarter of the render target.  For an application
    built by the constructor over eye sizes that are not negative, every
    frame of a run copies to the window the rectangle whose width is a
    quarter of the two eye widths together and whose height is a quarter of
    the higher eye, both rounded down, with the rows swapped. *)
Theorem X10_mirror_quarter fuel rt raw scene c :
  valid_size (eye_size rt ovrEye_Left) -> valid_size (eye_size rt ovrEye_Right) ->
  let sl := eye_size rt ovrEye_Left in
  let sr := eye_size rt ovrEye_Right in
  let w := (sz_w sl + sz_w sr) / 4 in
  let h := Z.max (sz_h sl) (sz_h sr) / 4 in
  let o := ExampleApp_run_loop fuel (RiftApp_new rt raw, scene) rt c in
  _mirrorSize (fst (snd (value o))) = mkUvec2 w h /\
  filter is_blit (events o) =
    repeat (glBlitFramebuffer 0 0 w h 0 h w 0) (frames_of (events o)).
Proof.
  intros Vl Vr. cbn zeta.
  destruct (RiftApp_new_layout rt raw Vl Vr) as (_ & T). cbn zeta in T.
  assert (M : _mirrorSize (RiftApp_new rt raw) =
              mkUvec2 (uv_x (_renderTargetSize (RiftApp_new rt raw)) / 4)
                      (uv_y (_renderTargetSize (RiftApp_new rt raw)) / 4))
    by reflexivity.
  rewrite T in M. cbn [uv_x uv_y] in M.
  destruct (run_loop_frames fuel (RiftApp_new rt raw, scene) rt c)
    as (S1 & _ & _ & B & _). cbn zeta in S1, B. cbn [fst] in S1, B.
  remember (ExampleApp_run_loop fuel (RiftApp_new rt raw, scene) rt c) as o eqn:Ho.
  clear Ho.
  destruct S1 as (_ & _ & _ & _ & _ & _ & A7 & _).
  rewrite M in A7, B. cbn [uv_x uv_y] in B.
  unfold valid_size, int_max in Vl, Vr.
  assert (Ew : wrap_int ((sz_w (eye_size rt ovrEye_Left) +
                          sz_w (eye_size rt ovrEye_Right)) / 4) =
               (sz_w (eye_size rt ovrEye_Left) + sz_w (eye_size rt ovrEye_Right)) / 4).
  { apply wrap_int_id. unfold in_int, int_min, int_max.
    split; [apply Z.le_trans with 0; [lia|apply Z.div_pos; lia]|].
    apply Z.lt_le_pred. apply Z.div_lt_upper_bound; lia. }
  assert (Eh : wrap_int (Z.max (sz_h (eye_size rt ovrEye_Left))
                               (sz_h (eye_size rt ovrEye_Right)) / 4) =
               Z.max (sz_h (eye_size rt ovrEye_Left))
                     (sz_h (eye_size rt ovrEye_Right)) / 4).
  { apply wrap_int_id. unfold in_int, int_min, int_max.
    split; [apply Z.le_trans with 0; [lia|apply Z.div_pos; lia]|].
    apply Z.lt_le_pred. apply Z.div_lt_upper_bound; lia. }
  rewrite Ew, Eh in B. split; [exact A7|exact B].
Qed.

End RunTheorems.

(* ===================================================================== *)
(** ** The conversions *)

Section ConversionFacts.

Lemma wrap_int_uint z : wrap_int (wrap_uint z) = wrap_int z.
Proof.
  unfold wrap_int, wrap_uint.
  rewrite <- (Zplus_mod_idemp_l (z mod 2 ^ 32)), Z.mod_mod by lia.
  rewrite Zplus_mod_idemp_l. reflexivity.
Qed.

Lemma wrap_uint_int z : wrap_uint (wrap_int z) = wrap_uint z.
Proof.
  unfold wrap_int, wrap_uint.
  rewrite <- (Z.add_opp_r _ (2 ^ 31)).
  rewrite <- (Zplus_mod_idemp_l ((z + 2 ^ 31) mod 2 ^ 32)), Z.mod_mod by lia.
  rewrite Zplus_mod_idemp_l. f_equal. lia.
Qed.

(** X11.  Matrices there and back.  [ovr::toGlm] and [ovr::fromGlm] on
    matrices are inverse to each other, whatever the sixteen floats are
    (infinities and NaNs included), and neither moves an element: row [r],
    column [c] of the one matrix is row [r], column [c] of the other. *)
Theorem X11_matrix_round_trip :
  (forall om, ovr.fromGlm_mat4 (ovr.toGlm_Matrix4f om) = om) /\
  (forall m, ovr.toGlm_Matrix4f (ovr.fromGlm_mat4 m) = m) /\
  (forall om r c, (r < 4)%nat -> (c < 4)%nat ->
     ovr.mat4_at (ovr.toGlm_Matrix4f om) r c = ovr.M_at om r c) /\
  (forall m r c, (r < 4)%nat -> (c < 4)%nat ->
     ovr.M_at (ovr.fromGlm_mat4 m) r c = ovr.mat4_at m r c).
Proof.
  split; [|split; [|split]].
  - intros [[a0 a1 a2 a3] [b0 b1 b2 b3] [c0 c1 c2 c3] [d0 d1 d2 d3]]. reflexivity.
  - intros [[a0 a1 a2 a3] [b0 b1 b2 b3] [c0 c1 c2 c3] [d0 d1 d2 d3]]. reflexivity.
  - intros [[a0 a1 a2 a3] [b0 b1 b2 b3] [c0 c1 c2 c3] [d0 d1 d2 d3]] r c Hr Hc.
    destruct r as [|[|[|[|r]]]]; [| | | |lia];
      (destruct c as [|[|[|[|c]]]]; [| | | |lia]); reflexivity.
  - intros [[a0 a1 a2 a3] [b0 b1 b2 b3] [c0 c1 c2 c3] [d0 d1 d2 d3]] r c Hr Hc.
    destruct r as [|[|[|[|r]]]]; [| | | |lia];
      (destruct c as [|[|[|[|c]]]]; [| | | |lia]); reflexivity.
Qed.

(** X12.  Sizes there and back.  [toGlm] turns the two [int]s of an
    [ovrSizei] into [unsigned]s and [fromGlm] turns them back: every size
    survives the round trip, a negative one too, and so does every
    [uvec2]; a size that is not negative is not changed on the way, while a
    negative extent becomes an unsigned one of at least 2^31. *)
Theorem X12_size_round_trip :
  (forall s, in_int (sz_w s) -> in_int (sz_h s) ->
     ovr.fromGlm_uvec2 (ovr.toGlm_Sizei s) = s) /\
  (forall v, 0 <= uv_x v < 2 ^ 32 -> 0 <= uv_y v < 2 ^ 32 ->
     ovr.toGlm_Sizei (ovr.fromGlm_uvec2 v) = v) /\
  (forall s, valid_size s -> ovr.toGlm_Sizei s = mkUvec2 (sz_w s) (sz_h s)) /\
  (forall s, in_int (sz_w s) -> sz_w s < 0 ->
     uv_x (ovr.toGlm_Sizei s) = sz_w s + 2 ^ 32 /\ 2 ^ 31 <= uv_x (ovr.toGlm_Sizei s)).
Proof.
  split; [|split; [|split]].
  - intros [w h] Hw Hh. unfold ovr.fromGlm_uvec2, ovr.toGlm_Sizei. cbn [uv_x uv_y sz_w sz_h] in *.
    rewrite !wrap_int_uint, !wrap_int_id by assumption. reflexivity.
  - intros [x y] Hx Hy. unfold ovr.fromGlm_uvec2, ovr.toGlm_Sizei. cbn [uv_x uv_y sz_w sz_h] in *.
    rewrite !wrap_uint_int, !wrap_uint_id by assumption. reflexivity.
  - intros [w h] [Hw Hh]. unfold ovr.toGlm_Sizei, int_max in *. cbn [sz_w sz_h] in *.
    rewrite !wrap_uint_id by lia. reflexivity.
  - intros [w h] Hw Hn. unfold ovr.toGlm_Sizei, in_int, int_min, int_max, wrap_uint in *.
    cbn [sz_w sz_h uv_x] in *.
    assert (E : w mod 2 ^ 32 = w + 2 ^ 32).
    { symmetry. apply (Z.mod_unique w (2 ^ 32) (-1)); lia. }
    rewrite E. lia.
Qed.

End ConversionFacts.

(* ===================================================================== *)
(** ** The keys *)

Section KeyFacts.

(** X13.  What the keys do.  A key event makes the program do something
    only when it is a press, and only for two keys: pressing R recentres
    the tracking origin and does not reach the handler of the base class,
    pressing Escape asks the window to close; a release or a repeat, of
    these keys too, and every other key do nothing.  The scancode and the
    modifiers play no part. *)
Theorem X13_keys key scancode action mods :
  (KeyCallback key scancode action mods = [ovr_RecenterTrackingOrigin] <->
   action = GLFW_PRESS /\ key = GLFW_KEY_R) /\
  (KeyCallback key scancode action mods = [glfwSetWindowShouldClose 1] <->
   action = GLFW_PRESS /\ key = GLFW_KEY_ESCAPE) /\
  (KeyCallback key scancode action mods = [] <->
   action <> GLFW_PRESS \/ (key <> GLFW_KEY_R /\ key <> GLFW_KEY_ESCAPE)) /\
  (forall scancode' mods',
     KeyCallback key scancode' action mods' = KeyCallback key scancode action mods).
Proof.
  unfold KeyCallback, RiftApp_onKey, GlfwApp_onKey, GLFW_PRESS, GLFW_KEY_R,
    GLFW_KEY_ESCAPE.
  destruct (Z.eqb_spec 1 action) as [Ha|Ha];
    destruct (Z.eqb_spec key 82) as [Hr|Hr];
    destruct (Z.eqb_spec key 256) as [He|He];
    cbn [andb negb]; repeat split; try intros; try discriminate; try lia;
    try reflexivity; try congruence.
Qed.

End KeyFacts.
(* ===================================================================== *)
(** ** Starting and stopping *)

Section StartFacts.

Local Open Scope w_scope.

Context {glm : GLM} {platform : Platform}.

Lemma wbind_returned {A B : Type} (m : W A) (f : A -> W B) b rt p c a p' c' l :
  m b rt p c = mkRun (Returned a) p' c' l ->
  wbind m f b rt p c = after l (f a b rt p' c').
Proof. intros H. unfold wbind. rewrite H. reflexivity. Qed.

Lemma wbind_thrown {A B : Type} (m : W A) (f : A -> W B) b rt p c what p' c' l :
  m b rt p c = mkRun (Thrown what) p' c' l ->
  wbind m f b rt p c = mkRun (Thrown what) p' c' l.
Proof. intros H. unfold wbind. rewrite H. reflexivity. Qed.

Lemma wbind_assoc {A B C : Type} (m : W A) (f : A -> W B) (g : B -> W C) b rt p c :
  wbind (wbind m f) g b rt p c = wbind m (fun x => wbind (f x) g) b rt p c.
Proof.
  unfold wbind. cbv zeta.
  destruct (outcome (m b rt p c)) as [a|what| |]; cbn [outcome process position calls];
    try reflexivity.
  destruct (outcome (f a b rt (process (m b rt p c)) (position (m b rt p c))))
    as [a'|what| |]; cbn [outcome process position calls]; try reflexivity.
  rewrite app_assoc. reflexivity.
Qed.

Lemma after_after {A : Type} l l' (r : Run A) : after l (after l' r) = after (l ++ l') r.
Proof. unfold after. cbn [outcome process position calls]. now rewrite app_assoc. Qed.

Lemma chain_calls_S rt c n i :
  chain_calls rt c (S n) i =
  [glBindTexture (rt_GetTextureSwapChainBufferGL rt c i);
   glTexParameteri GL_TEXTURE_MIN_FILTER GL_LINEAR;
   glTexParameteri GL_TEXTURE_MAG_FILTER GL_LINEAR;
   glTexParameteri GL_TEXTURE_WRAP_S GL_CLAMP_TO_EDGE;
   glTexParameteri GL_TEXTURE_WRAP_T GL_CLAMP_TO_EDGE] ++ chain_calls rt (S c) n (i + 1).
Proof.
  unfold chain_calls. cbn [seq flat_map]. rewrite Nat.add_0_r, Z.add_0_r.
  f_equal. rewrite <- seq_shift, flat_map_concat_map, map_map, <- flat_map_concat_map.
  apply flat_map_ext. intros k.
  replace (c + S k)%nat with (S c + k)%nat by lia.
  replace (i + Z.of_nat (S k)) with (i + 1 + Z.of_nat k) by lia. reflexivity.
Qed.

Lemma chain_textures_run n : forall i b rt p c,
  chain_textures n i b rt p c = mkRun (Returned tt) p (c + n)%nat (chain_calls rt c n i).
Proof.
  induction n as [|n IH]; intros i b rt p c.
  - cbn [chain_textures wret]. rewrite Nat.add_0_r. reflexivity.
  - cbn [chain_textures]. rewrite chain_calls_S.
    erewrite wbind_returned by reflexivity. cbv beta.
    do 5 (erewrite wbind_returned by reflexivity; cbv beta).
    rewrite IH. unfold after. cbn [outcome process position calls app map events query].
    unfold query. cbn [value cursor]. f_equal. lia.
Qed.


Lemma try_catch_run {A : Type} (m : W A) (handler : string -> W A) b rt p c R :
  m b rt p c = R ->
  try_catch m handler b rt p c =
  match outcome R with
  | Thrown what => after (calls R) (handler what b rt (process R) (position R))
  | _ => R
  end.
Proof. intros <-. reflexivity. Qed.

Lemma destroying_run {A : Type} (m : W A) d b rt p c R :
  m b rt p c = R ->
  destroying m d b rt p c =
  match outcome R with
  | Returned _ | Thrown _ =>
      mkRun (outcome R) (process R) (position R) (calls R ++ d (process R))
  | _ => R
  end.
Proof. intros <-. reflexivity. Qed.

Lemma wbind_if_call {B : Type} (x : bool) (y : Call) (k : unit -> W B) b rt p c :
  wbind (if x then call y else wret tt) k b rt p c =
  after (if x then [y] else []) (k tt b rt p c).
Proof. destruct x; reflexivity. Qed.

Ltac use_checks :=
  repeat match goal with
  | H : _ = true |- _ => rewrite H
  | H : _ = false |- _ => rewrite H
  end; cbn [negb orb andb].

Ltac wrun :=
  repeat first
    [ progress cbv beta iota zeta
    | progress rewrite ?wbind_assoc
    | progress use_checks
    | progress cbn [outcome process position calls window rift cubeScene set_window
                    set_rift set_cubeScene Process_start fst snd]
    | rewrite wbind_if_call
    | progress cbn [v2i_x v2i_y]
    | rewrite Z.ltb_irrefl
    | erewrite wbind_returned by (first [reflexivity | apply chain_textures_run])
    | erewrite wbind_thrown by reflexivity ].

Lemma wbind_run {A B : Type} (m : W A) (f : A -> W B) b rt p c R :
  m b rt p c = R ->
  wbind m f b rt p c =
  match outcome R with
  | Returned a => after (calls R) (f a b rt (process R) (position R))
  | Thrown what => mkRun (Thrown what) (process R) (position R) (calls R)
  | Looping => mkRun Looping (process R) (position R) (calls R)
  | NullScene => mkRun NullScene (process R) (position R) (calls R)
  end.
Proof. intros <-. reflexivity. Qed.

Lemma after_mkRun {A : Type} l (o : Outcome A) p c l' :
  after l (mkRun o p c l') = mkRun o p c (l ++ l').
Proof. reflexivity. Qed.

Ltac wnorm :=
  unfold wret, call, FAIL, answer, this, assign;
  rewrite ?after_mkRun;
  cbn [app window rift cubeScene set_window set_rift set_cubeScene Process_start fst snd].

Ltac wdone := wrun; wnorm; reflexivity.

Lemma main_loop_run fuel b rt w a s c :
  main_loop fuel b rt (mkProcess w a (Some s)) c =
  let o := ExampleApp_run_loop fuel (a, s) rt c in
  mkRun (if fst (value o) then Returned tt else Looping)
        (mkProcess w (fst (snd (value o))) (Some (snd (snd (value o)))))
        (cursor o) (map command (events o)).
Proof. reflexivity. Qed.

Ltac unfold_run :=
  unfold GlfwApp_run, preCreate, RiftApp_createRenderingTarget, createWindow, postCreate,
    ExampleApp_initGl, RiftApp_initGl, ExampleApp_shutdownGl, ask.

Lemma filter_chain_calls (f : Call -> bool) rt c n i :
  f (glTexParameteri GL_TEXTURE_MIN_FILTER GL_LINEAR) = false ->
  f (glTexParameteri GL_TEXTURE_MAG_FILTER GL_LINEAR) = false ->
  f (glTexParameteri GL_TEXTURE_WRAP_S GL_CLAMP_TO_EDGE) = false ->
  f (glTexParameteri GL_TEXTURE_WRAP_T GL_CLAMP_TO_EDGE) = false ->
  (forall t, f (glBindTexture t) = false) ->
  filter f (chain_calls rt c n i) = [].
Proof.
  intros F1 F2 F3 F4 F5. unfold chain_calls.
  induction (seq 0 n) as [|k l IH]; [reflexivity|].
  cbn [flat_map]. rewrite filter_app, IH. cbn [filter].
  rewrite F1, F2, F3, F4, F5. reflexivity.
Qed.

Lemma commands_app l l' : commands (l ++ l') = commands l ++ commands l'.
Proof. apply flat_map_app. Qed.

Lemma commands_chain_calls rt c n i : commands (chain_calls rt c n i) = [].
Proof.
  unfold chain_calls, commands.
  induction (seq 0 n) as [|k l IH]; [reflexivity|].
  cbn [flat_map]. rewrite flat_map_app. cbn [flat_map app]. exact IH.
Qed.

Lemma plain_chain_calls rt c n i : plain (chain_calls rt c n i).
Proof. repeat split; apply filter_chain_calls; reflexivity. Qed.

Lemma plain_app l l' : plain l -> plain l' -> plain (l ++ l').
Proof.
  intros (A1 & A2 & A3) (B1 & B2 & B3). unfold plain.
  rewrite !filter_app, A1, A2, A3, B1, B2, B3. repeat split.
Qed.

Lemma plain_nil : plain [].
Proof. repeat split. Qed.

Lemma plain_cons x l :
  is_message x = false -> is_closing x = false -> is_unexpected x = false ->
  plain l -> plain (x :: l).
Proof.
  intros F1 F2 F3 (A1 & A2 & A3). unfold plain. cbn [filter].
  rewrite F1, F2, F3. auto.
Qed.

Lemma plain_map_command evs :
  filter is_log (observed evs) = [] -> plain (map command evs).
Proof.
  intros H. unfold plain.
  induction evs as [|e evs IH]; [repeat split|].
  unfold observed in H. cbn [flat_map] in H. rewrite filter_app in H.
  apply app_eq_nil in H. destruct H as [He H].
  destruct (IH H) as (A1 & A2 & A3). cbn [map filter].
  destruct e; cbn [is_message is_closing is_unexpected]; try (repeat split; assumption);
    cbn in He; discriminate.
Qed.

Lemma plain_if (x : bool) l l' : plain l -> plain l' -> plain (if x then l else l').
Proof. destruct x; auto. Qed.

Ltac plainly :=
  repeat first
    [ apply plain_nil
    | apply plain_chain_calls
    | apply plain_if
    | apply plain_app
    | apply plain_cons; [reflexivity|reflexivity|reflexivity|] ].

Ltac commandly :=
  unfold commands;
  repeat (cbn [flat_map app]; rewrite ?flat_map_app);
  fold commands; rewrite ?commands_chain_calls; cbn [app].

Ltac phasely :=
  unfold run_phases; cbn [firstn List.concat];
  rewrite ?app_nil_r; repeat (rewrite <- app_assoc); cbn [app]; reflexivity.

Lemma GlfwApp_run_no_window b fuel rt a c :
  boot_glfwCreateWindow b = false ->
  exists l,
    GlfwApp_run fuel b rt (mkProcess false a None) c =
      mkRun (Thrown "Unable to create rendering window") (mkProcess false a None) c l /\
    plain l /\ commands l = [] /\
    l = List.concat (firstn 1 (run_phases b rt a c)).
Proof.
  intros H4. eexists. split.
  - unfold_run. wdone.
  - split; [repeat split|]. split; [reflexivity|phasely].
Qed.

Lemma GlfwApp_run_no_glew b fuel rt a c :
  boot_glfwCreateWindow b = true ->
  (0 =? boot_glewInit b) = false ->
  exists l,
    GlfwApp_run fuel b rt (mkProcess false a None) c =
      mkRun (Thrown "Failed to initialize GLEW") (mkProcess true a None) c l /\
    plain l /\ commands l = [] /\
    l = List.concat (firstn 2 (run_phases b rt a c)).
Proof.
  intros H4 H5. eexists. split.
  - unfold_run. wdone.
  - split; [repeat split|]. split; [reflexivity|phasely].
Qed.

Lemma GlfwApp_run_no_chain b fuel rt a c :
  boot_glfwCreateWindow b = true ->
  (0 =? boot_glewInit b) = true ->
  OVR_SUCCESS (fst (boot_ovr_CreateTextureSwapChainGL b)) = false ->
  exists l a',
    GlfwApp_run fuel b rt (mkProcess false a None) c =
      mkRun (Thrown "Failed to create swap textures") (mkProcess true a' None) c l /\
    plain l /\ commands l = [] /\
    l = List.concat (firstn 3 (run_phases b rt a c)).
Proof.
  intros H4 H5 H6. eexists. eexists. split.
  - unfold_run. wdone.
  - split; [plainly|]. split; [|phasely].
    destruct (boot_GLEW_KHR_debug b); reflexivity.
Qed.

Lemma GlfwApp_run_no_count b fuel rt a c :
  boot_glfwCreateWindow b = true ->
  (0 =? boot_glewInit b) = true ->
  OVR_SUCCESS (fst (boot_ovr_CreateTextureSwapChainGL b)) = true ->
  negb (OVR_SUCCESS (fst (boot_ovr_GetTextureSwapChainLength b))) ||
    (snd (boot_ovr_GetTextureSwapChainLength b) =? 0) = true ->
  exists l a',
    GlfwApp_run fuel b rt (mkProcess false a None) c =
      mkRun (Thrown "Unable to count swap chain textures") (mkProcess true a' None) c l /\
    plain l /\ commands l = [] /\
    l = List.concat (firstn 4 (run_phases b rt a c)).
Proof.
  intros H4 H5 H6 H7. eexists. eexists. split.
  - unfold_run. wdone.
  - split; [plainly|]. split; [|phasely].
    destruct (boot_GLEW_KHR_debug b); reflexivity.
Qed.

Lemma GlfwApp_run_no_mirror b fuel rt a c :
  boot_glfwCreateWindow b = true ->
  (0 =? boot_glewInit b) = true ->
  OVR_SUCCESS (fst (boot_ovr_CreateTextureSwapChainGL b)) = true ->
  negb (OVR_SUCCESS (fst (boot_ovr_GetTextureSwapChainLength b))) ||
    (snd (boot_ovr_GetTextureSwapChainLength b) =? 0) = false ->
  OVR_SUCCESS (boot_ovr_CreateMirrorTextureGL b) = false ->
  exists l a' c',
    GlfwApp_run fuel b rt (mkProcess false a None) c =
      mkRun (Thrown "Could not create mirror texture") (mkProcess true a' None) c' l /\
    plain l /\
    commands l = [glBindFramebuffer GL_DRAW_FRAMEBUFFER (boot_glGenFramebuffers_fbo b);
                  glBindFramebuffer GL_DRAW_FRAMEBUFFER 0] /\
    l = List.concat (firstn 5 (run_phases b rt a c)).
Proof.
  intros H4 H5 H6 H7 H8. eexists. eexists. eexists. split.
  - unfold_run. wdone.
  - split; [plainly|]. split; [|phasely].
    commandly. destruct (boot_GLEW_KHR_debug b); reflexivity.
Qed.

Lemma push_new_events (mk : M Particle) :
  (forall rt c, events (mk rt c) = []) ->
  forall n ps rt c, events (push_new mk n ps rt c) = [].
Proof.
  intros Hmk. induction n as [|n IH]; intros ps rt c.
  - reflexivity.
  - cbn [push_new]. rewrite !events_bind, Hmk. cbn beta. rewrite IH. reflexivity.
Qed.

Lemma new_chimney_particle_events rt c : events (new_chimney_particle rt c) = [].
Proof. reflexivity. Qed.

Lemma ColorCubeScene_new_events raw rt c : events (ColorCubeScene_new raw rt c) = [].
Proof.
  unfold ColorCubeScene_new. cbv zeta.
  rewrite events_bind, push_new_events by apply new_chimney_particle_events.
  cbv beta. rewrite events_bind. reflexivity.
Qed.

Lemma filter_bind_chain_calls rt c n i :
  filter is_glBindTexture (chain_calls rt c n i) =
  map (fun k => glBindTexture (rt_GetTextureSwapChainBufferGL rt (c + k)%nat
                                 (i + Z.of_nat k))) (seq 0 n).
Proof.
  unfold chain_calls. induction (seq 0 n) as [|k l IH]; [reflexivity|].
  cbn [flat_map map]. rewrite filter_app, IH. reflexivity.
Qed.

Lemma GlfwApp_run_ok b fuel rt a c :
  boot_glfwCreateWindow b = true ->
  (0 =? boot_glewInit b) = true ->
  OVR_SUCCESS (fst (boot_ovr_CreateTextureSwapChainGL b)) = true ->
  negb (OVR_SUCCESS (fst (boot_ovr_GetTextureSwapChainLength b))) ||
    (snd (boot_ovr_GetTextureSwapChainLength b) =? 0) = false ->
  OVR_SUCCESS (boot_ovr_CreateMirrorTextureGL b) = true ->
  let n := Z.to_nat (snd (boot_ovr_GetTextureSwapChainLength b)) in
  let built := ColorCubeScene_new (boot_new_ColorCubeScene b) rt (c + n)%nat in
  let o := ExampleApp_run_loop fuel (prepared b a, value built) rt (cursor built) in
  exists l,
    GlfwApp_run fuel b rt (mkProcess false a None) c =
      (if fst (value o)
       then mkRun (Returned 0) (mkProcess true (fst (snd (value o))) None)
       else mkRun Looping
              (mkProcess true (fst (snd (value o))) (Some (snd (snd (value o))))))
        (cursor o) (l ++ map command (events o)) /\
    plain l /\
    commands l = [glBindFramebuffer GL_DRAW_FRAMEBUFFER (boot_glGenFramebuffers_fbo b);
                  glBindFramebuffer GL_DRAW_FRAMEBUFFER 0; play_colour] /\
    filter is_glBindTexture l =
      map (fun k => glBindTexture (rt_GetTextureSwapChainBufferGL rt (c + k)%nat
                                     (Z.of_nat k))) (seq 0 n) ++ [glBindTexture 0].
Proof.
  intros H4 H5 H6 H7 H8. cbn zeta.
  eexists. split; [|split; [|split]].
  - unfold_run. wrun. rewrite ColorCubeScene_new_events. cbn [map].
    rewrite !after_after.
    erewrite wbind_run by apply main_loop_run. cbv zeta.
    cbn [outcome process position calls]. unfold prepared.
    remember (ExampleApp_run_loop fuel _ rt _) as o eqn:Ho. clear Ho.
    destruct (fst (value o)); cbv iota.
    + wrun. unfold wret. rewrite ?after_mkRun, ?app_nil_r.
      cbn [window rift cubeScene set_window set_rift set_cubeScene]. reflexivity.
    + rewrite ?after_mkRun, ?app_nil_r.
      cbn [window rift cubeScene set_window set_rift set_cubeScene]. reflexivity.
  - rewrite ?app_nil_r. plainly.
  - commandly. destruct (boot_GLEW_KHR_debug b); reflexivity.
  - rewrite ?app_nil_r.
    repeat (cbn [filter is_glBindTexture app]; rewrite ?filter_app).
    rewrite filter_bind_chain_calls.
    destruct (boot_GLEW_KHR_debug b); cbn [filter is_glBindTexture app Z.add];
      rewrite ?app_nil_r; reflexivity.
Qed.

Lemma GlfwApp_delete_window w a s : GlfwApp_delete (mkProcess w a s) =
  (if w then [glfwDestroyWindow] else []) ++ [glfwTerminate].
Proof. reflexivity. Qed.

Lemma temporary_no_glfw b fuel rt raw c :
  (boot_glfwInit b =? 0) = true ->
  ExampleApp_temporary fuel b rt (Process_start raw) c =
  mkRun (Thrown "Failed to initialize GLFW") (Process_start raw) c [glfwInit].
Proof.
  intros H2. unfold ExampleApp_temporary, GlfwApp_new, ask. wdone.
Qed.

Lemma temporary_no_session b fuel rt raw c :
  (boot_glfwInit b =? 0) = false ->
  OVR_SUCCESS (boot_ovr_Create b) = false ->
  ExampleApp_temporary fuel b rt (Process_start raw) c =
  mkRun (Thrown "Unable to create HMD session") (Process_start raw) c
        [glfwInit; glfwSetErrorCallback; ovr_Create; glfwTerminate].
Proof.
  intros H2 H3. unfold ExampleApp_temporary, GlfwApp_new, ask. wrun.
  erewrite destroying_run.
  2:{ unfold RiftManagerApp_new, ask. wdone. }
  cbn [outcome process position calls]. wnorm. reflexivity.
Qed.

Lemma temporary_run b fuel rt raw c (R : Run Z) :
  (boot_glfwInit b =? 0) = false ->
  OVR_SUCCESS (boot_ovr_Create b) = true ->
  GlfwApp_run fuel b rt (mkProcess false (RiftApp_new rt raw) None) c = R ->
  ExampleApp_temporary fuel b rt (Process_start raw) c =
  match outcome R with
  | Returned _ | Thrown _ =>
      mkRun (outcome R) (process R) (position R)
        ([glfwInit; glfwSetErrorCallback; ovr_Create] ++ calls R ++
         [ovr_Destroy] ++ GlfwApp_delete (process R))
  | _ => after [glfwInit; glfwSetErrorCallback; ovr_Create] R
  end.
Proof.
  intros H2 H3 HR.
  destruct R as [[v|what| |] pr cr lr]; cbn [outcome process position calls];
    unfold ExampleApp_temporary, GlfwApp_new, ask; wrun;
    (erewrite destroying_run;
     [|unfold RiftManagerApp_new, ask; wrun;
       erewrite destroying_run;
       [|unfold RiftApp_ctor at 1; erewrite wbind_returned by reflexivity;
         match goal with |- context [GlfwApp_run fuel b rt ?p c] =>
           change p with (mkProcess false (RiftApp_new rt raw) None) end;
         rewrite HR; wnorm; reflexivity];
       cbn [outcome process position calls]; wnorm; reflexivity]);
    cbn [outcome process position calls]; wnorm; unfold after, RiftManagerApp_delete;
    cbn [outcome process position calls app]; rewrite <- ?app_assoc; reflexivity.
Qed.

Lemma WinMain_no_sdk b fuel rt raw c :
  OVR_SUCCESS (boot_ovr_Initialize b) = false ->
  WinMain fuel b rt (Process_start raw) c =
  mkRun (Returned (-1)) (Process_start raw) c
    (console_calls ++ [ovr_Initialize] ++
     [OutputDebugStringA "Failed to initialize the Oculus SDK";
      command (std_err "Failed to initialize the Oculus SDK"); ovr_Shutdown]).
Proof.
  intros H1. unfold WinMain, ask. wrun.
  erewrite wbind_run.
  2:{ erewrite try_catch_run; [|wdone]. wdone. }
  wdone.
Qed.

Lemma WinMain_run b fuel rt raw c (R : Run Z) :
  OVR_SUCCESS (boot_ovr_Initialize b) = true ->
  ExampleApp_temporary fuel b rt (Process_start raw) c = R ->
  WinMain fuel b rt (Process_start raw) c =
  match outcome R with
  | Returned v =>
      mkRun (Returned v) (process R) (position R)
        (console_calls ++ [ovr_Initialize] ++ calls R ++ [ovr_Shutdown])
  | Thrown what =>
      mkRun (Returned (-1)) (process R) (position R)
        (console_calls ++ [ovr_Initialize] ++ calls R ++
         [OutputDebugStringA what; command (std_err what); ovr_Shutdown])
  | Looping => mkRun Looping (process R) (position R)
                 (console_calls ++ [ovr_Initialize] ++ calls R)
  | NullScene => mkRun NullScene (process R) (position R)
                   (console_calls ++ [ovr_Initialize] ++ calls R)
  end.
Proof.
  intros H1 HR.
  destruct R as [[v|what| |] pr cr lr]; cbn [outcome process position calls];
    unfold WinMain, ask; wrun;
    (erewrite wbind_run;
     [|erewrite try_catch_run; [|wrun; rewrite HR; wnorm; reflexivity];
       cbn [outcome process position calls]; wrun; wnorm; reflexivity]);
    cbn [outcome process position calls]; wrun; wnorm; unfold console_calls;
    cbn [app]; rewrite <- ?app_assoc; reflexivity.
Qed.


Ltac filterly :=
  repeat (cbn [filter app is_message is_unexpected is_closing]; rewrite ?filter_app).

Ltac tracely :=
  unfold teardown, window_up, session_up, glfw_up, start_phases, run_phases,
    console_calls;
  repeat match goal with
  | H : _ = true |- _ => rewrite H
  | H : _ = false |- _ => rewrite H
  end;
  cbn [negb andb first_false firstn List.concat app];
  rewrite ?app_nil_r; repeat (rewrite <- app_assoc); cbn [app]; reflexivity.

Lemma WinMain_failed b what fuel rt raw c :
  first_failure b = Some what ->
  exists before pr c',
    WinMain fuel b rt (Process_start raw) c =
      mkRun (Returned (-1)) pr c'
        (before ++ [OutputDebugStringA what; command (std_err what); ovr_Shutdown]) /\
    cubeScene pr = None /\
    filter is_message before = [] /\
    filter is_unexpected before = [] /\
    filter is_closing before = teardown b /\
    (commands before = [] \/
     commands before =
       [glBindFramebuffer GL_DRAW_FRAMEBUFFER (boot_glGenFramebuffers_fbo b);
        glBindFramebuffer GL_DRAW_FRAMEBUFFER 0]) /\
    before =
      List.concat (firstn (S (failed_index b)) (start_phases b rt raw c)) ++ teardown b.
Proof.
  intros H. unfold first_failure, checks in H.
  unfold failed_index, checks.
  cbn [find fst snd] in H. cbn [map fst snd first_false].
  destruct (OVR_SUCCESS (boot_ovr_Initialize b)) eqn:H1; cbn [negb] in H.
  2:{ injection H as <-. rewrite WinMain_no_sdk by assumption.
      exists (console_calls ++ [ovr_Initialize]). eexists. eexists.
      split; [rewrite <- app_assoc; reflexivity|].
      split; [reflexivity|]. split; [reflexivity|]. split; [reflexivity|].
      split; [unfold teardown, window_up, session_up, glfw_up; rewrite H1; reflexivity|].
      split; [left; reflexivity|]. tracely. }
  destruct (boot_glfwInit b =? 0) eqn:H2; cbn [negb] in H.
  { injection H as <-.
    rewrite (WinMain_run _ _ _ _ _ _ H1 (temporary_no_glfw _ _ _ _ _ H2)).
    cbn [outcome process position calls].
    exists (console_calls ++ [ovr_Initialize] ++ [glfwInit]). eexists. eexists.
    split; [rewrite <- !app_assoc; reflexivity|].
    split; [reflexivity|]. split; [reflexivity|]. split; [reflexivity|].
    split; [unfold teardown, window_up, session_up, glfw_up; rewrite H1, H2; reflexivity|].
    split; [left; reflexivity|]. tracely. }
  destruct (OVR_SUCCESS (boot_ovr_Create b)) eqn:H3; cbn [negb] in H.
  2:{ injection H as <-.
      rewrite (WinMain_run _ _ _ _ _ _ H1 (temporary_no_session _ _ _ _ _ H2 H3)).
      cbn [outcome process position calls].
      exists (console_calls ++ [ovr_Initialize] ++
              [glfwInit; glfwSetErrorCallback; ovr_Create; glfwTerminate]).
      eexists. eexists.
      split; [rewrite <- !app_assoc; reflexivity|].
      split; [reflexivity|]. split; [reflexivity|]. split; [reflexivity|].
      split; [unfold teardown, window_up, session_up, glfw_up; rewrite H1, H2, H3;
              reflexivity|].
      split; [left; reflexivity|]. tracely. }
  assert (leaf : forall (R : Run Z) what' l a' c',
             GlfwApp_run fuel b rt (mkProcess false (RiftApp_new rt raw) None) c = R ->
             R = mkRun (Thrown what') (mkProcess (boot_glfwCreateWindow b) a' None) c' l ->
             plain l ->
             exists before pr c'',
               WinMain fuel b rt (Process_start raw) c =
                 mkRun (Returned (-1)) pr c''
                   (before ++ [OutputDebugStringA what'; command (std_err what');
                               ovr_Shutdown]) /\
               cubeScene pr = None /\
               filter is_message before = [] /\
               filter is_unexpected before = [] /\
               filter is_closing before = teardown b /\
               commands before = commands l /\
               before =
                 console_calls ++ [ovr_Initialize] ++
                 [glfwInit; glfwSetErrorCallback; ovr_Create] ++ l ++ teardown b).
  { intros R what' l a' c' HR -> (P1 & P2 & P3).
    rewrite (WinMain_run _ _ _ _ _ _ H1 (temporary_run _ _ _ _ _ _ H2 H3 HR)).
    cbn [outcome process position calls]. rewrite GlfwApp_delete_window.
    assert (Et : teardown b =
                 [ovr_Destroy] ++
                 (if boot_glfwCreateWindow b then [glfwDestroyWindow] else []) ++
                 [glfwTerminate]).
    { unfold teardown, window_up, session_up, glfw_up. rewrite H1, H2, H3. reflexivity. }
    rewrite Et.
    exists (console_calls ++ [ovr_Initialize] ++ [glfwInit; glfwSetErrorCallback;
              ovr_Create] ++ l ++ [ovr_Destroy] ++
            (if boot_glfwCreateWindow b then [glfwDestroyWindow] else []) ++
            [glfwTerminate]).
    eexists. eexists.
    split; [rewrite <- !app_assoc; reflexivity|].
    split; [reflexivity|].
    unfold commands. rewrite !filter_app, !flat_map_app, P1, P2, P3.
    destruct (boot_glfwCreateWindow b);
      (split; [reflexivity|]); (split; [reflexivity|]); (split; [reflexivity|]);
      (split; [|reflexivity]);
      cbn [flat_map app]; rewrite ?app_nil_r; reflexivity. }
  destruct (boot_glfwCreateWindow b) eqn:H4; cbn [negb] in H.
  2:{ injection H as <-.
      destruct (GlfwApp_run_no_window b fuel rt (RiftApp_new rt raw) c H4)
        as (l & HR & Hp & Hc & Hl).
      destruct (leaf _ _ _ _ _ HR eq_refl Hp)
        as (before & pr & c' & E & Q1 & Q2 & Q3 & Q4 & Q5 & Q6).
      exists before, pr, c'. rewrite Q5, Hc.
      do 5 (split; [assumption|]). split; [left; reflexivity|].
      rewrite Q6, Hl. clear leaf. tracely. }
  destruct (0 =? boot_glewInit b) eqn:H5; cbn [negb] in H.
  2:{ injection H as <-.
      destruct (GlfwApp_run_no_glew b fuel rt (RiftApp_new rt raw) c H4 H5)
        as (l & HR & Hp & Hc & Hl).
      destruct (leaf _ _ _ _ _ HR eq_refl Hp)
        as (before & pr & c' & E & Q1 & Q2 & Q3 & Q4 & Q5 & Q6).
      exists before, pr, c'. rewrite Q5, Hc.
      do 5 (split; [assumption|]). split; [left; reflexivity|].
      rewrite Q6, Hl. clear leaf. tracely. }
  destruct (OVR_SUCCESS (fst (boot_ovr_CreateTextureSwapChainGL b))) eqn:H6;
    cbn [negb] in H.
  2:{ injection H as <-.
      destruct (GlfwApp_run_no_chain b fuel rt (RiftApp_new rt raw) c H4 H5 H6)
        as (l & a' & HR & Hp & Hc & Hl).
      destruct (leaf _ _ _ _ _ HR eq_refl Hp)
        as (before & pr & c' & E & Q1 & Q2 & Q3 & Q4 & Q5 & Q6).
      exists before, pr, c'. rewrite Q5, Hc.
      do 5 (split; [assumption|]). split; [left; reflexivity|].
      rewrite Q6, Hl. clear leaf. tracely. }
  destruct (OVR_SUCCESS (fst (boot_ovr_GetTextureSwapChainLength b)) &&
            negb (snd (boot_ovr_GetTextureSwapChainLength b) =? 0)) eqn:H7;
    cbn [negb] in H.
  2:{ injection H as <-.
      assert (H7' : negb (OVR_SUCCESS (fst (boot_ovr_GetTextureSwapChainLength b))) ||
                    (snd (boot_ovr_GetTextureSwapChainLength b) =? 0) = true).
      { revert H7.
        destruct (OVR_SUCCESS (fst (boot_ovr_GetTextureSwapChainLength b))),
          (snd (boot_ovr_GetTextureSwapChainLength b) =? 0);
          cbn [andb orb negb]; intros; try reflexivity; discriminate. }
      destruct (GlfwApp_run_no_count b fuel rt (RiftApp_new rt raw) c H4 H5 H6 H7')
        as (l & a' & HR & Hp & Hc & Hl).
      destruct (leaf _ _ _ _ _ HR eq_refl Hp)
        as (before & pr & c' & E & Q1 & Q2 & Q3 & Q4 & Q5 & Q6).
      exists before, pr, c'. rewrite Q5, Hc.
      do 5 (split; [assumption|]). split; [left; reflexivity|].
      rewrite Q6, Hl. clear leaf H7'. tracely. }
  assert (H7' : negb (OVR_SUCCESS (fst (boot_ovr_GetTextureSwapChainLength b))) ||
                (snd (boot_ovr_GetTextureSwapChainLength b) =? 0) = false).
  { revert H7.
    destruct (OVR_SUCCESS (fst (boot_ovr_GetTextureSwapChainLength b))),
      (snd (boot_ovr_GetTextureSwapChainLength b) =? 0);
      cbn [andb orb negb]; intros; try reflexivity; discriminate. }
  destruct (OVR_SUCCESS (boot_ovr_CreateMirrorTextureGL b)) eqn:H8; cbn [negb] in H.
  { discriminate. }
  injection H as <-.
  destruct (GlfwApp_run_no_mirror b fuel rt (RiftApp_new rt raw) c H4 H5 H6 H7' H8)
    as (l & a' & c1 & HR & Hp & Hc & Hl).
  destruct (leaf _ _ _ _ _ HR eq_refl Hp)
    as (before & pr & c' & E & Q1 & Q2 & Q3 & Q4 & Q5 & Q6).
  exists before, pr, c'. rewrite Q5, Hc.
  do 5 (split; [assumption|]). split; [right; reflexivity|].
  rewrite Q6, Hl. clear leaf H7'. tracely.
Qed.

Lemma first_failure_none b :
  first_failure b = None ->
  OVR_SUCCESS (boot_ovr_Initialize b) = true /\
  (boot_glfwInit b =? 0) = false /\
  OVR_SUCCESS (boot_ovr_Create b) = true /\
  boot_glfwCreateWindow b = true /\
  (0 =? boot_glewInit b) = true /\
  OVR_SUCCESS (fst (boot_ovr_CreateTextureSwapChainGL b)) = true /\
  negb (OVR_SUCCESS (fst (boot_ovr_GetTextureSwapChainLength b))) ||
    (snd (boot_ovr_GetTextureSwapChainLength b) =? 0) = false /\
  OVR_SUCCESS (boot_ovr_CreateMirrorTextureGL b) = true.
Proof.
  unfold first_failure, checks. cbn [find fst snd].
  destruct (OVR_SUCCESS (boot_ovr_Initialize b)); cbn [negb]; [|discriminate].
  destruct (boot_glfwInit b =? 0); cbn [negb]; [discriminate|].
  destruct (OVR_SUCCESS (boot_ovr_Create b)); cbn [negb]; [|discriminate].
  destruct (boot_glfwCreateWindow b); cbn [negb]; [|discriminate].
  destruct (0 =? boot_glewInit b); cbn [negb]; [|discriminate].
  destruct (OVR_SUCCESS (fst (boot_ovr_CreateTextureSwapChainGL b))); cbn [negb];
    [|discriminate].
  destruct (OVR_SUCCESS (fst (boot_ovr_GetTextureSwapChainLength b)));
    cbn [negb andb orb]; [|discriminate].
  destruct (snd (boot_ovr_GetTextureSwapChainLength b) =? 0); cbn [negb];
    [discriminate|].
  destruct (OVR_SUCCESS (boot_ovr_CreateMirrorTextureGL b)); cbn [negb]; [|discriminate].
  intros _. repeat split.
Qed.

Lemma WinMain_started b fuel rt raw c :
  first_failure b = None ->
  let n := Z.to_nat (snd (boot_ovr_GetTextureSwapChainLength b)) in
  let built := ColorCubeScene_new (boot_new_ColorCubeScene b) rt (c + n)%nat in
  let o := ExampleApp_run_loop fuel (ready b rt raw, value built) rt (cursor built) in
  exists before,
    WinMain fuel b rt (Process_start raw) c =
      (if fst (value o)
       then mkRun (Returned 0) (mkProcess true (fst (snd (value o))) None) (cursor o)
              (before ++ map command (events o) ++
               [ovr_Destroy; glfwDestroyWindow; glfwTerminate; ovr_Shutdown])
       else mkRun Looping
              (mkProcess true (fst (snd (value o))) (Some (snd (snd (value o)))))
              (cursor o) (before ++ map command (events o))) /\
    plain before /\
    commands before =
      [glBindFramebuffer GL_DRAW_FRAMEBUFFER (boot_glGenFramebuffers_fbo b);
       glBindFramebuffer GL_DRAW_FRAMEBUFFER 0; play_colour] /\
    filter is_glBindTexture before =
      map (fun k => glBindTexture (rt_GetTextureSwapChainBufferGL rt (c + k)%nat
                                     (Z.of_nat k))) (seq 0 n) ++ [glBindTexture 0].
Proof.
  intros H. destruct (first_failure_none b H) as (H1 & H2 & H3 & H4 & H5 & H6 & H7 & H8).
  cbn zeta.
  destruct (GlfwApp_run_ok b fuel rt (RiftApp_new rt raw) c H4 H5 H6 H7 H8)
    as (l & HR & Hp & Hc & Ht). cbn zeta in HR.
  fold (ready b rt raw) in HR.
  exists (console_calls ++ [ovr_Initialize] ++ [glfwInit; glfwSetErrorCallback; ovr_Create]
          ++ l).
  split; [|split; [|split]].
  - rewrite (WinMain_run _ _ _ _ _ _ H1 (temporary_run _ _ _ _ _ _ H2 H3 HR)).
    remember (ExampleApp_run_loop fuel _ rt _) as o eqn:Ho. clear Ho HR.
    destruct (fst (value o)); unfold after; cbn [outcome process position calls];
      rewrite ?GlfwApp_delete_window; rewrite <- ?app_assoc; reflexivity.
  - destruct Hp as (P1 & P2 & P3). unfold plain.
    rewrite !filter_app, P1, P2, P3. split; [|split]; reflexivity.
  - unfold commands in *. rewrite !flat_map_app, Hc. reflexivity.
  - rewrite !filter_app, Ht. reflexivity.
Qed.

Lemma run_loop_plain fuel st rt c :
  plain (map command (events (ExampleApp_run_loop fuel st rt c))).
Proof.
  apply plain_map_command.
  destruct (run_loop_observed fuel st rt c) as (_ & _ & _ & H). exact H.
Qed.

Lemma failed_index_check b what :
  first_failure b = Some what ->
  nth_error (checks b) (failed_index b) = Some (false, what).
Proof.
  unfold first_failure, failed_index.
  induction (checks b) as [|[ok msg] l IH]; cbn [find map fst snd first_false option_map].
  - discriminate.
  - destruct ok; cbn [negb nth_error].
    + exact IH.
    + intros E. injection E as <-. reflexivity.
Qed.

(** X14.  A start that fails.  When one of the checks of the start fails,
    [WinMain] returns -1 whatever the number of turns it is given, and what
    it has called is known call by call: the calls of the start up to the
    call of the first check that fails and nothing of what follows it, then
    the calls of the destructors for what had been opened (the session, the
    window, GLFW), then the message of that check, once to the debugger and
    once to the error stream, and last the shutdown of the SDK.  Nothing
    else is written; no scene is made and no frame is drawn: the only
    commands of the frames are the two bindings of the framebuffer when it
    is the mirror texture that fails. *)
Theorem X14_failed_start b what fuel rt raw c :
  first_failure b = Some what ->
  let r := WinMain fuel b rt (Process_start raw) c in
  outcome r = Returned (-1) /\
  calls r =
    List.concat (firstn (S (failed_index b)) (start_phases b rt raw c)) ++
    teardown b ++
    [OutputDebugStringA what; command (std_err what); ovr_Shutdown] /\
  nth_error (checks b) (failed_index b) = Some (false, what) /\
  (exists before,
     calls r = before ++ [OutputDebugStringA what; command (std_err what); ovr_Shutdown] /\
     filter is_message before = []) /\
  cubeScene (process r) = None /\
  (commands (calls r) = [std_err what] \/
   commands (calls r) =
     [glBindFramebuffer GL_DRAW_FRAMEBUFFER (boot_glGenFramebuffers_fbo b);
      glBindFramebuffer GL_DRAW_FRAMEBUFFER 0; std_err what]).
Proof.
  intros H. cbn zeta.
  destruct (WinMain_failed b what fuel rt raw c H)
    as (before & pr & c' & E & Q1 & Q2 & Q3 & Q4 & Q5 & Q6).
  rewrite E. cbn [outcome process calls].
  split; [reflexivity|].
  split; [rewrite Q6, <- app_assoc; reflexivity|].
  split; [apply failed_index_check; exact H|].
  split; [exists before; split; [reflexivity|exact Q2]|].
  split; [exact Q1|].
  rewrite commands_app. cbn [commands flat_map app].
  destruct Q5 as [Q5|Q5]; [left|right]; fold (commands before); rewrite Q5; reflexivity.
Qed.


(** X16.  What is opened is closed.  Whenever [WinMain] returns, it has
    closed exactly what the start had opened, in the order session, window,
    GLFW, and last of all, and in every case, the SDK: also when it was the
    SDK that could not be initialised.  No call closes anything before
    that, and while the program is in the loop nothing has been closed. *)
Theorem X16_what_is_opened_is_closed b fuel rt raw c :
  let r := WinMain fuel b rt (Process_start raw) c in
  (outcome r = Looping -> filter is_closing (calls r) = []) /\
  (outcome r <> Looping ->
     filter is_closing (calls r) =
       (if session_up b then [ovr_Destroy] else []) ++
       (if window_up b then [glfwDestroyWindow] else []) ++
       (if glfw_up b then [glfwTerminate] else []) ++ [ovr_Shutdown]).
Proof.
  cbn zeta. destruct (first_failure b) as [what|] eqn:H.
  - destruct (WinMain_failed b what fuel rt raw c H)
      as (before & pr & c' & E & Q1 & Q2 & Q3 & Q4 & Q5).
    rewrite E. cbn [outcome calls]. split; [discriminate|]. intros _.
    rewrite filter_app, Q4. unfold teardown. cbn [filter is_closing].
    rewrite <- !app_assoc. reflexivity.
  - destruct (WinMain_started b fuel rt raw c H) as (before & E & (P1 & P2 & P3) & _).
    cbn zeta in E.
    destruct (first_failure_none b H) as (H1 & H2 & H3 & H4 & _).
    unfold window_up, session_up, glfw_up. rewrite H1, H2, H3, H4. cbn [negb andb].
    pose proof (run_loop_plain fuel
      (ready b rt raw,
       value (ColorCubeScene_new (boot_new_ColorCubeScene b) rt
                (c + Z.to_nat (snd (boot_ovr_GetTextureSwapChainLength b)))%nat))
      rt
      (cursor (ColorCubeScene_new (boot_new_ColorCubeScene b) rt
                 (c + Z.to_nat (snd (boot_ovr_GetTextureSwapChainLength b)))%nat)))
      as (L1 & L2 & L3).
    remember (ExampleApp_run_loop fuel _ rt _) as o eqn:Ho in *. clear Ho.
    rewrite E. destruct (fst (value o)); cbn [outcome calls].
    + split; [discriminate|]. intros _. rewrite !filter_app, P2, L2. reflexivity.
    + split; [|intros N; now elim N]. intros _. rewrite !filter_app, P2, L2. reflexivity.
Qed.

(** X17.  What [WinMain] does not do.  It never uses the scene before
    [initGl] has made it or after [shutdownGl] has dropped it; it never
    positions the window; it never writes to the output stream, so the
    message of [GlfwApp::run] about a window that could not be made is
    never seen, and -1 is returned only by way of an exception.  It
    returns 0 or -1, and 0 exactly when no check of the start failed. *)
Theorem X17_what_WinMain_never_does b fuel rt raw c :
  let r := WinMain fuel b rt (Process_start raw) c in
  outcome r <> NullScene /\
  filter is_unexpected (calls r) = [] /\
  (forall v, outcome r = Returned v ->
     (v = 0 /\ first_failure b = None) \/
     (v = -1 /\ exists what,
        first_failure b = Some what /\ In (command (std_err what)) (calls r))).
Proof.
  cbn zeta. destruct (first_failure b) as [what|] eqn:H.
  - destruct (WinMain_failed b what fuel rt raw c H)
      as (before & pr & c' & E & Q1 & Q2 & Q3 & Q4 & Q5).
    rewrite E. cbn [outcome calls]. split; [discriminate|]. split.
    + rewrite filter_app, Q3. reflexivity.
    + intros v Hv. injection Hv as <-. right. split; [reflexivity|].
      exists what. split; [reflexivity|]. apply in_or_app. right. cbn [In]. auto.
  - destruct (WinMain_started b fuel rt raw c H) as (before & E & (P1 & P2 & P3) & _).
    cbn zeta in E.
    pose proof (run_loop_plain fuel
      (ready b rt raw,
       value (ColorCubeScene_new (boot_new_ColorCubeScene b) rt
                (c + Z.to_nat (snd (boot_ovr_GetTextureSwapChainLength b)))%nat))
      rt
      (cursor (ColorCubeScene_new (boot_new_ColorCubeScene b) rt
                 (c + Z.to_nat (snd (boot_ovr_GetTextureSwapChainLength b)))%nat)))
      as (L1 & L2 & L3).
    remember (ExampleApp_run_loop fuel _ rt _) as o eqn:Ho in *. clear Ho.
    rewrite E. destruct (fst (value o)); cbn [outcome calls].
    + split; [discriminate|]. split.
      * rewrite !filter_app, P3, L3. reflexivity.
      * intros v Hv. injection Hv as <-. left. split; reflexivity.
    + split; [discriminate|]. split.
      * rewrite !filter_app, P3, L3. reflexivity.
      * intros v Hv. discriminate.
Qed.

End StartFacts.
(* ===================================================================== *)
(** ** The further properties on the run *)

Module OnTheRunMore.
Import GlmEval.

(** X1 on the lost scene of the run with a button held. *)
Lemma X1_witness :
  let o := update DemoMore.lost_pressed Demo.rt 0%nat in
  win (value o) = false /\ lose (value o) = false /\ co2Count (value o) = 5 /\
  List.length (particles (value o)) = 5%nat /\
  Forall at_chimney (particles (value o)) /\
  exists before, events o = before ++ [play_colour].
Proof.
  apply (proj1 X1_reset DemoMore.lost_pressed Demo.rt 0%nat).
  - right. reflexivity.
  - vm_compute. discriminate.
Defined.

(** X2 on the run: after the second step. *)
Lemma X2_witness :
  let s := value Demo.step2 in
  game_state s <> WonAndLost /\
  (lose s = false -> 0 <= co2Count s <= 10 /\ count_co2 (particles s) = co2Count s) /\
  (win s = true -> co2Count s = 0 /\ count_co2 (particles s) = 0).
Proof.
  apply (X2_game_states (value Demo.step2)).
  unfold Demo.step2, Demo.step1, Demo.built.
  apply reach_render, reach_render, reach_new.
Defined.

(** X3 on the run: the won game after the second step. *)
Lemma X3_witness :
  let s := value Demo.step2 in
  let s' := value (update s Demo.rt (cursor Demo.step2)) in
  (game_state s = Won ->
   game_state s' = (if Buttons (inputstate s) =? 0 then Won else Playing) /\
   (Buttons (inputstate s) = 0 ->
    List.length (particles s') = List.length (particles s))) /\
  (game_state s = Lost ->
   game_state s' = (if Buttons (inputstate s) =? 0 then Lost else Playing)).
Proof.
  apply (X3_terminal_states (value Demo.step2) Demo.rt (cursor Demo.step2)).
  unfold Demo.step2, Demo.step1, Demo.built.
  apply reach_render, reach_render, reach_new.
Defined.

(** X4 on the scene of the constructor. *)
Lemma X4_witness :
  exists moved added,
    particles (value (update (value Demo.built) Demo.rt (cursor Demo.built))) =
      moved ++ added /\
    Forall2 kept (particles (value Demo.built)) moved /\
    Forall (fun p => model p = co2) added /\
    In (List.length added) [0; 1; 100; 101]%nat.
Proof.
  apply (X4_particles_are_kept (value Demo.built) Demo.rt (cursor Demo.built)).
  vm_compute. reflexivity.
Defined.

(** X5 on the scene of the constructor, whose lasers are green. *)
Lemma X5_witness :
  let s := value Demo.built in
  let c := cursor Demo.built in
  let o1 := update_particles s Demo.rt (cursor (haptic_check s Demo.rt c)) in
  map model (particles (value o1)) = map model (particles s) /\
  co2Count (value o1) = co2Count s /\
  filter is_vibration (events (update s Demo.rt c)) = events (haptic_check s Demo.rt c).
Proof.
  apply (proj1 (proj2 X5_trigger_acts_one_step_late) (value Demo.built) Demo.rt
           (cursor Demo.built)).
  left. vm_compute. discriminate.
Defined.

(** X8 on the run: two turns from the application of the constructor. *)
Lemma X8_witness :
  let o := ExampleApp_run_loop 2 (Demo.app, value Demo.built) Demo.rt (cursor Demo.built) in
  let k := frames_of (events o) in
  submitted_indices (events o) =
    map (fun i => wrap_uint (frame Demo.app + Z.of_nat i)) (seq 1 k) /\
  frame (fst (snd (value o))) = wrap_uint (frame Demo.app + Z.of_nat k) /\
  (frame Demo.app = 0 -> Z.of_nat 2 < 2 ^ 32 ->
   submitted_indices (events o) = map Z.of_nat (seq 1 k)) /\
  (frame Demo.app = 2 ^ 32 - 1 -> (1 <= k)%nat ->
   hd_error (submitted_indices (events o)) = Some 0).
Proof.
  apply (X8_frame_indices 2 (Demo.app, value Demo.built) Demo.rt (cursor Demo.built)).
  vm_compute. split; [discriminate|reflexivity].
Defined.

(** X9 on the run: the window never asks to close, and two turns give two
    frames. *)
Lemma X9_witness :
  frames_of (events (ExampleApp_run_loop 2 (Demo.app, value Demo.built) Demo.rt
                       (cursor Demo.built))) = 2%nat.
Proof.
  apply (proj2 (proj2 (proj2
           (X9_run_keeps_setup 2 (Demo.app, value Demo.built) Demo.rt (cursor Demo.built))))).
  vm_compute. reflexivity.
Defined.

(** X10 on the device of the run: the mirror is 672 by 400. *)
Lemma X10_witness :
  let o := ExampleApp_run_loop 2 (RiftApp_new Demo.rt Demo.raw_app, value Demo.built)
             Demo.rt (cursor Demo.built) in
  _mirrorSize (fst (snd (value o))) = mkUvec2 ((1344 + 1344) / 4) (Z.max 1600 1600 / 4) /\
  filter is_blit (events o) =
    repeat (glBlitFramebuffer 0 0 ((1344 + 1344) / 4) (Z.max 1600 1600 / 4)
                              0 (Z.max 1600 1600 / 4) ((1344 + 1344) / 4) 0)
           (frames_of (events o)).
Proof.
  apply (X10_mirror_quarter 2 Demo.rt Demo.raw_app (value Demo.built) (cursor Demo.built));
    unfold valid_size, int_max; simpl; lia.
Defined.

(** X11 on a matrix with sixteen different elements: row 1, column 2. *)
Lemma X11_witness :
  ovr.mat4_at (ovr.toGlm_Matrix4f DemoMore.sixteen) 1 2 = F32.of_Z 6.
Proof.
  rewrite (proj1 (proj2 (proj2 X11_matrix_round_trip)) DemoMore.sixteen 1%nat 2%nat);
    [reflexivity|lia|lia].
Defined.

(** X12 on a size with a negative width. *)
Lemma X12_witness :
  ovr.fromGlm_uvec2 (ovr.toGlm_Sizei (mkSizei (-1) 1600)) = mkSizei (-1) 1600.
Proof.
  apply (proj1 X12_size_round_trip (mkSizei (-1) 1600));
    unfold in_int, int_min, int_max; simpl; lia.
Defined.

(** X13 on the Escape key, pressed. *)
Lemma X13_witness :
  KeyCallback GLFW_KEY_ESCAPE 1 GLFW_PRESS 0 = [glfwSetWindowShouldClose 1].
Proof.
  apply (proj2 (proj1 (proj2 (X13_keys GLFW_KEY_ESCAPE 1 GLFW_PRESS 0)))).
  split; reflexivity.
Defined.

(** X14 on a start without a headset: the third check fails, GLFW is
    closed again, and the message follows. *)
Lemma X14_witness :
  let r := WinMain 2 DemoMore.no_headset Demo.rt (Process_start Demo.raw_app) 0%nat in
  let what := "Unable to create HMD session"%string in
  outcome r = Returned (-1) /\
  calls r =
    List.concat (firstn (S (failed_index DemoMore.no_headset))
                   (start_phases DemoMore.no_headset Demo.rt Demo.raw_app 0%nat)) ++
    teardown DemoMore.no_headset ++
    [OutputDebugStringA what; command (std_err what); ovr_Shutdown] /\
  nth_error (checks DemoMore.no_headset) (failed_index DemoMore.no_headset) =
    Some (false, what) /\
  (exists before,
     calls r = before ++ [OutputDebugStringA what; command (std_err what); ovr_Shutdown] /\
     filter is_message before = []) /\
  cubeScene (process r) = None /\
  (commands (calls r) = [std_err what] \/
   commands (calls r) =
     [glBindFramebuffer GL_DRAW_FRAMEBUFFER (boot_glGenFramebuffers_fbo DemoMore.no_headset);
      glBindFramebuffer GL_DRAW_FRAMEBUFFER 0; std_err what]).
Proof.
  apply (X14_failed_start DemoMore.no_headset "Unable to create HMD session" 2 Demo.rt
           Demo.raw_app 0%nat).
  vm_compute. reflexivity.
Defined.


(** X16 on a start without a headset: GLFW and the SDK are closed, and
    nothing else. *)
Lemma X16_witness :
  filter is_closing
    (calls (WinMain 2 DemoMore.no_headset Demo.rt (Process_start Demo.raw_app) 0%nat)) =
  [glfwTerminate; ovr_Shutdown].
Proof.
  rewrite (proj2 (X16_what_is_opened_is_closed DemoMore.no_headset 2 Demo.rt
                    Demo.raw_app 0%nat)).
  - vm_compute. reflexivity.
  - vm_compute. discriminate.
Defined.

(** X17 on a start without a headset: -1, and the message is there. *)
Lemma X17_witness :
  exists what,
    first_failure DemoMore.no_headset = Some what /\
    In (command (std_err what))
       (calls (WinMain 2 DemoMore.no_headset Demo.rt (Process_start Demo.raw_app) 0%nat)).
Proof.
  destruct (proj2 (proj2 (X17_what_WinMain_never_does DemoMore.no_headset 2 Demo.rt
                            Demo.raw_app 0%nat)) (-1)) as [[H _]|[_ H]].
  - vm_compute. reflexivity.
  - discriminate H.
  - exact H.
Defined.

End OnTheRunMore.
